(** * my-music: the request layer of [src/utils/request.ts]

    A shallow embedding of the credential store [authStore] and of the
    singleton [Request] class: login, token refresh, retry on failure and
    the single-flight refresh protocol with its retry queue.

    The source is asynchronous JavaScript.  It runs on one thread, and
    every [await] of the file ends up waiting for one of two platform
    calls, [wx.login()] or [wx.request(...)].  The embedding therefore
    keeps, for every platform call in flight, the continuation that waits
    for it (the suspended activations of [request], [login],
    [refreshToken], written as a [Kont]), and a step of the machine is
    either a caller invoking [request.request(config)] or the platform
    settling one call in flight; the resumed code then runs up to its next
    platform call.  Calls to the platform, to [authStore] and the writes
    to [isRefreshing] and [retryQueue] are recorded, in program order, in a
    trace. *)

From Stdlib Require Import ZArith Lia.
From stdpp Require Import base option list strings gmap.

Local Open Scope string_scope.
Local Open Scope Z_scope.
Local Open Scope list_scope.

(** ** Data *)

(** [RequestOption.data] as the file builds it: nothing, [{ code }] for the
    login exchange, [{ oldToken }] for the refresh exchange, or a payload of
    the caller. *)
Inductive Payload :=
| NoData
| LoginCode (code : string)
| OldToken (oldToken : string)
| Body (json : string).

(** A property of an object literal that a spread may override: left out,
    written with the value [undefined], or written with a value.  The
    spread of [mergeConfig] tells the first two apart. *)
Inductive Optional (A : Type) :=
| Absent
| Undefined
| Value (a : A).

Arguments Absent {A}.
Arguments Undefined {A}.
Arguments Value {A} a.

(** [interface RequestConfig extends RequestOption]; an absent [method] is
    [None]. *)
Record RequestConfig := mkConfig {
  url : string;
  method : option string;
  data : Payload;
  header : gmap string string;
  loading : Optional bool;
  auth : Optional bool;
  retry : Optional Z
}.

(** The [data] member of a reply: an object with a [token] member (what the
    two auth endpoints answer), any other payload, or [null]. *)
Inductive Data :=
| TokenData (token : string)
| JsonData (json : string)
| NullData.

(** [interface ResponseData<T>] *)
Record ResponseData := mkResponse {
  code : Z;
  rdata : Data;
  message : string
}.

(** What a rejected promise carries: the platform's failure object, an
    [Error] made by [new Error(message)], or the [TypeError] of reading
    [.token] of [null]. *)
Inductive Error :=
| WxFail (errMsg : string)
| JsError (msg : string)
| TypeError.

(** The object handed to [wx.request] (lines 176-184). *)
Record WxRequestOption := mkWx {
  wx_url : string;
  wx_method : option string;
  wx_data : Payload;
  wx_timeout : Z;
  wx_header : gmap string string
}.

Inductive Event :=
(* platform calls *)
| WxShowLoading
| WxHideLoading
| WxLogin
| WxRequest (opts : WxRequestOption)
| WxGetStorageSync
| WxSetStorageSync (v : string)
| WxRemoveStorageSync
| ConsoleError (e : Error)
(* calls of authStore *)
| StoreGetToken
| StoreSetToken (t : string)
| StoreClearToken
(* calls and field writes of Request *)
| CallRequest (config : RequestConfig)
| CallLogin
| CallRefreshToken
| SetIsRefreshing (b : bool)
| QueuePush (config : RequestConfig)
| QueueClear.

(** Suspended activations, innermost first.
    - [KCaller id]: the promise handed to caller [id].
    - [KRequest fc k]: [request] at line 104, awaiting [handleRequest].
    - [KLogin config rc k]: [login] at line 61, awaiting the exchange
      request; [login] was called at line 120 by
      [handleRequest(config, rc)].
    - [KRefresh config k]: [refreshToken] at line 78, awaiting the exchange
      request; [refreshToken] was called at line 159 by
      [handleTokenExpired(config)].
    In the last two, [k] is what waits for that [handleRequest], resp.
    [handleTokenExpired]. *)
Inductive Kont :=
| KCaller (id : nat)
| KRequest (finalConfig : RequestConfig) (k : Kont)
| KLogin (config : RequestConfig) (retryCount : Z) (k : Kont)
| KRefresh (config : RequestConfig) (k : Kont).

(** Platform calls in flight.
    - [PLogin config rc k]: [wx.login()] awaited at line 60, [login] called
      by [handleRequest(config, rc)].
    - [PSend opts config rc k]: [wx.request(opts)] awaited at line 123 by
      [handleRequest(config, rc)]. *)
Inductive Pending :=
| PLogin (config : RequestConfig) (retryCount : Z) (k : Kont)
| PSend (opts : WxRequestOption) (config : RequestConfig) (retryCount : Z) (k : Kont).

Definition Outcome : Type := Error + ResponseData.

Record State := mkState {
  token : string;                              (* authStore.token *)
  storage : option string;                     (* the 'token' key of wx storage *)
  isRefreshing : bool;
  retryQueue : list (RequestConfig * Kont);    (* closures of line 150 *)
  pending : list Pending;                      (* newest first *)
  results : list (nat * Outcome);              (* settled caller promises *)
  trace : list Event
}.

Definition BASE_URL : string := "https://your-api-domain.com".
Definition TIMEOUT : Z := 10000.
Definition MAX_RETRY_COUNT : Z := 3.

(** ** State updates *)

Definition emit (e : Event) (s : State) : State :=
  mkState (token s) (storage s) (isRefreshing s) (retryQueue s) (pending s)
          (results s) (trace s ++ [e]).

Definition set_token (t : string) (s : State) : State :=
  mkState t (storage s) (isRefreshing s) (retryQueue s) (pending s)
          (results s) (trace s).

Definition set_storage (v : option string) (s : State) : State :=
  mkState (token s) v (isRefreshing s) (retryQueue s) (pending s)
          (results s) (trace s).

Definition set_isRefreshing (b : bool) (s : State) : State :=
  emit (SetIsRefreshing b)
    (mkState (token s) (storage s) b (retryQueue s) (pending s)
             (results s) (trace s)).

Definition set_retryQueue (q : list (RequestConfig * Kont)) (s : State) : State :=
  mkState (token s) (storage s) (isRefreshing s) q (pending s)
          (results s) (trace s).

Definition set_pending (p : list Pending) (s : State) : State :=
  mkState (token s) (storage s) (isRefreshing s) (retryQueue s) p
          (results s) (trace s).

Definition add_pending (p : Pending) (s : State) : State :=
  set_pending (p :: pending s) s.

Definition settle (id : nat) (o : Outcome) (s : State) : State :=
  mkState (token s) (storage s) (isRefreshing s) (retryQueue s) (pending s)
          ((id, o) :: results s) (trace s).

(** JavaScript truthiness of a string and of an optional boolean. *)
Definition truthy_string (t : string) : bool := negb (String.eqb t "").

Definition truthy (b : Optional bool) : bool :=
  match b with Value true => true | _ => false end.

(** ** authStore (lines 19-35) *)

(** [wx.getStorageSync('token')]: the stored value, the empty string when
    the key is absent. *)
Definition wx_getStorageSync (s : State) : string * State :=
  (default "" (storage s), emit WxGetStorageSync s).

Definition setToken (t : string) (s : State) : State :=
  let s := emit (StoreSetToken t) s in
  let s := set_token t s in
  set_storage (Some t) (emit (WxSetStorageSync t) s).

Definition getToken (s : State) : string * State :=
  let s := emit StoreGetToken s in
  if truthy_string (token s) then (token s, s)
  else
    let '(v, s) := wx_getStorageSync s in
    (v, set_token v s).

Definition clearToken (s : State) : State :=
  let s := emit StoreClearToken s in
  let s := set_token "" s in
  set_storage None (emit WxRemoveStorageSync s).

(** ** Request *)

(** One property of [{ p: dflt, ...config }]: a property that [config]
    has, be it with the value [undefined], replaces the default. *)
Definition spread {A : Type} (dflt : A) (o : Optional A) : Optional A :=
  match o with
  | Absent => Value dflt
  | Undefined => Undefined
  | Value a => Value a
  end.

(** [mergeConfig] (lines 196-203): the caller's properties override the
    three defaults. *)
Definition mergeConfig (config : RequestConfig) : RequestConfig :=
  mkConfig (url config) (method config) (data config) (header config)
           (spread false (loading config))
           (spread true (auth config))
           (spread MAX_RETRY_COUNT (retry config)).

(** [config.retry || MAX_RETRY_COUNT] (line 138): [undefined] and [0] are
    falsy. *)
Definition retry_bound (config : RequestConfig) : Z :=
  match retry config with
  | Value n => if n =? 0 then MAX_RETRY_COUNT else n
  | Absent | Undefined => MAX_RETRY_COUNT
  end.

(** The header object of lines 180-184: the caller's header, then the two
    fixed members.  An absent [config.header] spreads like the empty
    object. *)
Definition wx_request_header (config : RequestConfig) (authorization : string)
  : gmap string string :=
  <["Content-Type" := "application/json"]>
    (<["Authorization" := authorization]> (header config)).

(** [wxRequest] (lines 174-193): builds the option object, reading the
    token only when [config.auth] is truthy, and calls [wx.request].  The
    returned promise is awaited by [handleRequest(config, rc)], whose own
    promise is awaited by [k]. *)
Definition wx_options (config : RequestConfig) (authorization : string)
  : WxRequestOption :=
  mkWx (BASE_URL +:+ url config) (method config) (data config) TIMEOUT
       (wx_request_header config authorization).

Definition wxRequest (config : RequestConfig) (rc : Z) (k : Kont) (s : State) : State :=
  let '(authorization, s) :=
    if truthy (auth config)
    then let '(t, s) := getToken s in ("Bearer " +:+ t, s)
    else ("", s) in
  let opts := wx_options config authorization in
  add_pending (PSend opts config rc k) (emit (WxRequest opts) s).

(** [login] up to its first await (line 60). *)
Definition login (config : RequestConfig) (rc : Z) (k : Kont) (s : State) : State :=
  add_pending (PLogin config rc k) (emit WxLogin (emit CallLogin s)).

(** [handleRequest] up to its first await (lines 117-123). *)
Definition handleRequest (config : RequestConfig) (rc : Z) (k : Kont) (s : State) : State :=
  let '(no_token, s) :=
    if truthy (auth config)
    then let '(t, s) := getToken s in (negb (truthy_string t), s)
    else (false, s) in
  if no_token then login config rc k s else wxRequest config rc k s.

(** The [catch] block of [handleRequest] (lines 136-142); [throw_k] is the
    rejection of the promise of this activation. *)
Definition handleRequest_catch (config : RequestConfig) (rc : Z) (k : Kont)
    (throw_k : Error -> State -> State) (error : Error) (s : State) : State :=
  if rc <? retry_bound config
  then handleRequest config (rc + 1) k s
  else throw_k error s.

(** Lines 99-101 and 109-111. *)
Definition showLoading (finalConfig : RequestConfig) (s : State) : State :=
  if truthy (loading finalConfig) then emit WxShowLoading s else s.

Definition hideLoading (finalConfig : RequestConfig) (s : State) : State :=
  if truthy (loading finalConfig) then emit WxHideLoading s else s.

(** [request] up to its await (lines 95-104). *)
Definition request (config : RequestConfig) (k : Kont) (s : State) : State :=
  let s := emit (CallRequest config) s in
  let finalConfig := mergeConfig config in
  let s := showLoading finalConfig s in
  handleRequest finalConfig 0 (KRequest finalConfig k) s.

Definition login_config (code : string) : RequestConfig :=
  mkConfig "/auth/login" (Some "POST") (LoginCode code) ∅ Absent (Value false) Absent.

Definition refresh_config (oldToken : string) : RequestConfig :=
  mkConfig "/auth/refresh" (Some "POST") (OldToken oldToken) ∅ Absent (Value false) Absent.

(** [refreshToken] up to its await (lines 77-85); called by
    [handleTokenExpired(config)]. *)
Definition refreshToken (config : RequestConfig) (k : Kont) (s : State) : State :=
  let s := emit CallRefreshToken s in
  let '(t, s) := getToken s in
  request (refresh_config t) (KRefresh config k) s.

(** [handleTokenExpired] up to its await (lines 146-159). *)
Definition handleTokenExpired (config : RequestConfig) (k : Kont) (s : State) : State :=
  if isRefreshing s
  then emit (QueuePush config) (set_retryQueue (retryQueue s ++ [(config, k)]) s)
  else refreshToken config k (set_isRefreshing true s).

(** [this.retryQueue.forEach((retry) => retry())] (line 162): each closure
    calls [request] again and resolves the parked promise with it. *)
Definition run_queue (s : State) : State :=
  fold_left (fun s entry => request (fst entry) (snd entry) s) (retryQueue s) s.

(** [res.data.token] (lines 67 and 86): [None] when the access throws, as
    it does on [null].  The two auth endpoints are declared to answer
    [ResponseData<{ token: string }>]; a payload of another shape has no
    [token], which reads as [undefined] in JavaScript and is written here
    as the empty string, falsy like it. *)
Definition data_token (res : ResponseData) : option string :=
  match rdata res with
  | TokenData t => Some t
  | JsonData _ => Some ""
  | NullData => None
  end.

(** Settling the promise awaited by [k] with [o]. *)
Fixpoint resume (k : Kont) (o : Outcome) (s : State) : State :=
  match k with
  | KCaller id => settle id o s
  | KRequest finalConfig k' =>
      (* lines 105-112: return or rethrow, through [finally] *)
      resume k' o (hideLoading finalConfig s)
  | KLogin config rc k' =>
      (* lines 67-72, then back in [handleRequest] at line 120 *)
      let failed e s :=
        handleRequest_catch config rc k' (fun e => resume k' (inl e)) e
                            (emit (ConsoleError e) s) in
      match o with
      | inr res =>
          match data_token res with
          | Some t => wxRequest config rc k' (setToken t s)
          | None => failed TypeError s
          end
      | inl e => failed e s
      end
  | KRefresh config k' =>
      (* lines 86-91, then back in [handleTokenExpired] at line 159 *)
      let failed e s :=
        let s := clearToken s in
        let s := set_isRefreshing false s in
        let s := emit QueueClear (set_retryQueue [] s) in
        resume k' (inl e) s in
      match o with
      | inr res =>
          match data_token res with
          | Some t =>
              let s := setToken t s in
              let s := set_isRefreshing false s in
              let s := run_queue s in
              let s := emit QueueClear (set_retryQueue [] s) in
              request config k' s
          | None => failed TypeError s
          end
      | inl e => failed e s
      end
  end.

(** [login] after [await wx.login()] (lines 60-72). *)
Definition login_resume (config : RequestConfig) (rc : Z) (k : Kont)
    (o : Error + string) (s : State) : State :=
  match o with
  | inr code => request (login_config code) (KLogin config rc k) s
  | inl e =>
      handleRequest_catch config rc k (fun e => resume k (inl e)) e
                          (emit (ConsoleError e) s)
  end.

(** [response.message || '请求失败'] (line 135). *)
Definition error_message (response : ResponseData) : string :=
  if truthy_string (message response) then message response else "请求失败".

(** [handleRequest] after [await this.wxRequest(config)] (lines 123-142). *)
Definition handleRequest_resume (config : RequestConfig) (rc : Z) (k : Kont)
    (o : Outcome) (s : State) : State :=
  match o with
  | inr response =>
      if code response =? 200 then resume k (inr response) s
      else if code response =? 401 then handleTokenExpired config k s
      else handleRequest_catch config rc k (fun e => resume k (inl e))
                               (JsError (error_message response)) s
  | inl e => handleRequest_catch config rc k (fun e => resume k (inl e)) e s
  end.

(** ** The machine *)

Inductive Input :=
| Call (id : nat) (config : RequestConfig)         (* request.request(config) *)
| LoginDone (n : nat) (o : Error + string)          (* wx.login() settles *)
| SendDone (n : nat) (o : Outcome).                 (* success / fail of wx.request *)

Definition step (i : Input) (s : State) : option State :=
  match i with
  | Call id config => Some (request config (KCaller id) s)
  | LoginDone n o =>
      match pending s !! n with
      | Some (PLogin config rc k) =>
          Some (login_resume config rc k o (set_pending (delete n (pending s)) s))
      | _ => None
      end
  | SendDone n o =>
      match pending s !! n with
      | Some (PSend _ config rc k) =>
          Some (handleRequest_resume config rc k o (set_pending (delete n (pending s)) s))
      | _ => None
      end
  end.

Fixpoint run (inputs : list Input) (s : State) : option State :=
  match inputs with
  | [] => Some s
  | i :: inputs' =>
      match step i s with
      | Some s' => run inputs' s'
      | None => None
      end
  end.

(** A fresh process: nothing in memory, whatever an earlier session left in
    storage. *)
Definition init (stored : option string) : State :=
  mkState "" stored false [] [] [] [].

(** ** Reading traces *)

Definition count_events (f : Event -> bool) (tr : list Event) : nat :=
  length (List.filter f tr).

Definition is_storage_read (e : Event) : bool :=
  match e with WxGetStorageSync => true | _ => false end.

Definition is_send (e : Event) : bool :=
  match e with WxRequest _ => true | _ => false end.

Definition is_wx_login (e : Event) : bool :=
  match e with WxLogin => true | _ => false end.

Definition is_refresh_call (e : Event) : bool :=
  match e with CallRefreshToken => true | _ => false end.

(** What [handleRequest] records up to its first await, apart from the
    [wx.request] itself. *)
Definition is_attempt_event (e : Event) : bool :=
  match e with
  | StoreGetToken | WxGetStorageSync | CallLogin | WxLogin => true
  | _ => false
  end.

(** The steps of the refresh protocol: writes of [isRefreshing], calls of
    [request], the reset of the queue. *)
Definition is_protocol_event (e : Event) : bool :=
  match e with
  | SetIsRefreshing _ | CallRequest _ | QueueClear => true
  | _ => false
  end.

Definition protocol (tr : list Event) : list Event :=
  List.filter is_protocol_event tr.

(** Any use of the credential store: a method of [authStore] or a storage
    call behind it. *)
Definition is_store_access (e : Event) : bool :=
  match e with
  | StoreGetToken | StoreSetToken _ | StoreClearToken
  | WxGetStorageSync | WxSetStorageSync _ | WxRemoveStorageSync => true
  | _ => false
  end.

(** [n] calls of [getToken] in a row, with the values they return. *)
Fixpoint getToken_times (n : nat) (s : State) : list string * State :=
  match n with
  | O => ([], s)
  | S n' =>
      let '(t, s1) := getToken s in
      let '(ts, s2) := getToken_times n' s1 in
      (t :: ts, s2)
  end.


(** The states of a run of the process. *)
Inductive reachable : State -> Prop :=
| reachable_init stored : reachable (init stored)
| reachable_step i s s' : reachable s -> step i s = Some s' -> reachable s'.

(** A [wx.request] whose header says [Content-Type: application/json]. *)
Definition json_content_type (e : Event) : Prop :=
  match e with
  | WxRequest opts => wx_header opts !! "Content-Type" = Some "application/json"
  | _ => True
  end.

(** [s'] continues the trace of [s] with events that all satisfy [P]. *)
Definition grows (P : Event -> Prop) (s s' : State) : Prop :=
  exists evs, trace s' = trace s ++ evs /\ Forall P evs.

(** A caller's config that asks for another [Content-Type]. *)
Definition plain_config : RequestConfig :=
  mkConfig "/songs" (Some "GET") NoData {["Content-Type" := "text/plain"]}
           Absent (Value false) Absent.

(** ** Attempts that fail *)

(** The error a settled [wx.request] raises in [handleRequest], if it
    raises one: the rejection of line 189, or the [Error] of line 135 for a
    code other than 200 and 401. *)
Definition attempt_error (o : Outcome) : option Error :=
  match o with
  | inl e => Some e
  | inr response =>
      if (code response =? 200) || (code response =? 401) then None
      else Some (JsError (error_message response))
  end.

Definition emit_all (evs : list Event) (s : State) : State :=
  fold_left (fun s e => emit e s) evs s.

(** The request needs no Login Flow: no credential is asked for, or one is
    in memory. *)
Definition ready (config : RequestConfig) (s : State) : Prop :=
  truthy (auth config) = false \/ token s ≠ "".

Definition is_request_call (e : Event) : bool :=
  match e with CallRequest _ => true | _ => false end.

(** What one attempt of a ready request sends and records. *)
Definition authorization (config : RequestConfig) (s : State) : string :=
  if truthy (auth config) then "Bearer " +:+ token s else "".

Definition attempt_events (config : RequestConfig) (s : State) : list Event :=
  (if truthy (auth config) then [StoreGetToken; StoreGetToken] else [])
  ++ [WxRequest (wx_options config (authorization config s))].

(** ** Sample inputs *)

(** A process whose store holds token [t]. *)
Definition logged_in (t : string) : State :=
  mkState t (Some t) false [] [] [] [].

(** A caller's request for the song list with the given [retry]. *)
Definition songs_config (r : Optional Z) : RequestConfig :=
  mkConfig "/songs" (Some "GET") NoData ∅ Absent Absent r.

Definition server_error (m : string) : Outcome := inr (mkResponse 500 NullData m).
Definition timeout_error : Outcome := inl (WxFail "request:fail timeout").

(** ** The refresh protocol *)

Definition pending_kont (p : Pending) : Kont :=
  match p with PLogin _ _ k | PSend _ _ _ k => k end.

Definition pending_config (p : Pending) : RequestConfig :=
  match p with PLogin config _ _ | PSend _ config _ _ => config end.

Definition pending_retryCount (p : Pending) : Z :=
  match p with PLogin _ rc _ | PSend _ _ rc _ => rc end.

(** The error with which the Login Flow or the Refresh Flow fails when its
    exchange request, in attempt [rc], settles with [o]: a last attempt that
    fails (lines 138-141), or a reply of code 200 without data (lines 67
    and 86). *)
Definition exchange_failure (exchange : RequestConfig) (rc : Z) (o : Outcome)
  : option Error :=
  match o with
  | inl e => if rc <? retry_bound exchange then None else Some e
  | inr response =>
      if code response =? 200 then
        match data_token response with
        | Some _ => None
        | None => Some TypeError
        end
      else if code response =? 401 then None
      else if rc <? retry_bound exchange then None
      else Some (JsError (error_message response))
  end.

(** The order of the success path as C7 words it: the queue is run and
    reset, then [isRefreshing] is written, then the request is retried. *)
Definition claimed_success_order (queue : list (RequestConfig * Kont))
    (config : RequestConfig) : list Event :=
  map (fun entry => CallRequest (fst entry)) queue
  ++ [QueueClear; SetIsRefreshing false; CallRequest config].

(** The order of lines 160-165. *)
Definition success_order (queue : list (RequestConfig * Kont))
    (config : RequestConfig) : list Event :=
  SetIsRefreshing false
  :: map (fun entry => CallRequest (fst entry)) queue
  ++ [QueueClear; CallRequest config].

Definition expired : Outcome := inr (mkResponse 401 NullData "token expired").
Definition refreshed (t : string) : Outcome := inr (mkResponse 200 (TokenData t) "ok").

Definition profile_config : RequestConfig :=
  mkConfig "/user/info" (Some "GET") NoData ∅ (Value true) Absent Absent.

(** Two callers, 7 and 8, both answered 401; the reply to 7 comes first and
    starts the refresh, the reply to 8 comes while it runs. *)
Definition two_expired : list Input :=
  [Call 7 profile_config; Call 8 (songs_config Absent);
   SendDone 1 expired; SendDone 1 expired].

(** The state a list of inputs leads to from [s]. *)
Definition after (inputs : list Input) (s : State) : State :=
  default s (run inputs s).

(** After [two_expired], the exchange request of the refresh has failed
    three times and is in its last attempt. *)
Definition refresh_last_attempt : list Input :=
  two_expired ++ [SendDone 0 timeout_error; SendDone 0 timeout_error;
                  SendDone 0 (server_error "busy")].

(** ** Login *)

(** What follows a failure [e] of the Login Flow of [handleRequest(config,
    rc)], called by [request] for caller [id]; [ps] are the other calls in
    flight, [s] the state before and [s'] the state after.  Below the bound
    another attempt is in flight and the caller has heard nothing; at the
    bound the caller's promise is rejected with [e]. *)
Definition login_failure_outcome (config : RequestConfig) (rc : Z)
    (fc : RequestConfig) (id : nat) (e : Error) (ps : list Pending)
    (s s' : State) : Prop :=
  if rc <? retry_bound config
  then exists p,
         pending s' = p :: ps /\
         pending_config p = config /\
         pending_retryCount p = rc + 1 /\
         pending_kont p = KRequest fc (KCaller id) /\
         results s' = results s
  else pending s' = ps /\ results s' = (id, inl e) :: results s.

Definition login_rejected : Error + string := inl (WxFail "login:fail").

(** ** Requests without credential *)

(** An event of a call that makes no use of the store and sends no
    credential: it is no access to the store, and if it is a [wx.request],
    its [Authorization] is the empty string. *)
Definition unauthenticated_event (e : Event) : Prop :=
  is_store_access e = false /\
  match e with
  | WxRequest opts => wx_header opts !! "Authorization" = Some ""
  | _ => True
  end.

Definition is_expired_reply (o : Outcome) : bool :=
  match o with
  | inr response => code response =? 401
  | inl _ => false
  end.

(** A settled [wx.request] that makes its attempt fail: a rejection, or a
    reply whose code is neither 200 nor 401 (lines 126-135). *)
Definition is_failure (o : Outcome) : bool :=
  match o with
  | inl _ => true
  | inr response => negb (code response =? 200) && negb (code response =? 401)
  end.

(** Whether [handleRequest(config, rc)] makes another attempt when its
    [wx.request] settles with [o] (lines 136-139). *)
Definition retried (config : RequestConfig) (rc : Z) (o : Outcome) : bool :=
  is_failure o && (rc <? retry_bound config).

(** The outcomes that the sends of one call of [request] can meet, in
    order, from attempt [rc] on, when no reply has code 401: every outcome
    but the last is one that is retried. *)
Fixpoint call_history (config : RequestConfig) (rc : Z) (os : list Outcome) : bool :=
  match os with
  | [] => true
  | o :: os' =>
      negb (is_expired_reply o)
      && match os' with
         | [] => true
         | _ :: _ => retried config rc o && call_history config (rc + 1) os'
         end
  end.

(** A caller that brings its own [Authorization] and asks for no
    credential of the store. *)
Definition basic_config : RequestConfig :=
  mkConfig "/public/charts" (Some "GET") NoData {["Authorization" := "Basic abc"]}
           Absent (Value false) Absent.

(** ** Single flight *)

(** The activations of [refreshToken] suspended in a continuation. *)
Fixpoint refreshes_in (k : Kont) : nat :=
  match k with
  | KCaller _ => 0
  | KRequest _ k' | KLogin _ _ k' => refreshes_in k'
  | KRefresh _ k' => S (refreshes_in k')
  end.

(** The Refresh Flows in progress: every activation of [refreshToken] that
    has not returned waits for a platform call in flight or, through a
    parked closure, in the queue. *)
Definition refreshes_in_flight (s : State) : nat :=
  sum_list_with (fun p => refreshes_in (pending_kont p)) (pending s)
  + sum_list_with (fun entry => refreshes_in (snd entry)) (retryQueue s).

(** [isRefreshing] says whether a Refresh Flow is in progress, there is at
    most one, and closures are parked only while one is. *)
Definition single_flight (s : State) : Prop :=
  refreshes_in_flight s = (if isRefreshing s then 1 else 0)%nat /\
  (isRefreshing s = false -> retryQueue s = []).

(** What [k] and the state hold together. *)
Definition single_flight_with (k : Kont) (s : State) : Prop :=
  (refreshes_in k + refreshes_in_flight s)%nat
    = (if isRefreshing s then 1 else 0)%nat /\
  (isRefreshing s = false -> retryQueue s = []).

(** A platform call put in flight for [k], the protocol state being left
    alone. *)
Definition launched (k : Kont) (s s' : State) : Prop :=
  exists p,
    pending s' = p :: pending s /\ pending_kont p = k /\
    isRefreshing s' = isRefreshing s /\ retryQueue s' = retryQueue s.

(** The closure that line 150 parks for a request in flight: the config to
    resubmit and the promise to resolve. *)
Definition parked (p : Pending) : RequestConfig * Kont :=
  (pending_config p, pending_kont p).

(** [Authorization] of a request sent while the token in memory is [t]. *)
Definition bearer (config : RequestConfig) (t : string) : string :=
  if truthy (auth config) then "Bearer " +:+ t else "".

(** The [wx.request] that resubmitting a parked entry puts in flight when
    the token in memory is [t], not empty. *)
Definition resend (t : string) (entry : RequestConfig * Kont) : Pending :=
  let fc := mergeConfig (fst entry) in
  PSend (wx_options fc (bearer fc t)) fc 0 (KRequest fc (snd entry)).

(** After [two_expired], the exchange request of the refresh fails four
    times. *)
Definition two_expired_refresh_fails : list Input :=
  refresh_last_attempt ++ [SendDone 0 timeout_error].

(** After [two_expired], the refresh succeeds, with the empty string as
    token. *)
Definition two_expired_empty_token : list Input :=
  two_expired ++ [SendDone 0 (refreshed "")].

Definition is_send_to (u : string) (e : Event) : bool :=
  match e with
  | WxRequest opts => String.eqb (wx_url opts) u
  | _ => false
  end.

Definition expired_reply : ResponseData := mkResponse 401 NullData "token expired".

(** Callers 7 and 8 have asked and no reply has come yet. *)
Definition two_in_flight : State :=
  after [Call 7 profile_config; Call 8 (songs_config Absent)] (init (Some "T1")).

(** * Further code: the [api] object (lines 210-232) *)

Definition getUser_config : RequestConfig :=
  mkConfig "/user/info" (Some "GET") NoData ∅ (Value true) Absent Absent.

Definition updateUser_config (body : string) : RequestConfig :=
  mkConfig "/user/update" (Some "POST") (Body body) ∅ (Value true) Absent Absent.

(** [api.getUser()] and [api.updateUser(data)] up to their await; [id] is
    the caller that holds the returned promise. *)
Definition api_getUser (id : nat) (s : State) : State :=
  request getUser_config (KCaller id) s.

Definition api_updateUser (body : string) (id : nat) (s : State) : State :=
  request (updateUser_config body) (KCaller id) s.

(** What [getToken] returns in [s]. *)
Definition current_token (s : State) : string :=
  if truthy_string (token s) then token s else default "" (storage s).

Definition login_reply (t : string) : ResponseData :=
  mkResponse 200 (TokenData t) "ok".

(** * Further invariants *)

(** The token in memory, when there is one, is the one in storage. *)
Definition store_consistent (s : State) : Prop :=
  token s = "" \/ storage s = Some (token s).

(** The suspended activations of [request] that have shown the loading
    hint and not yet hidden it. *)
Fixpoint loading_in (k : Kont) : nat :=
  match k with
  | KCaller _ => 0
  | KRequest finalConfig k' =>
      (if truthy (loading finalConfig) then 1 else 0) + loading_in k'
  | KLogin _ _ k' | KRefresh _ k' => loading_in k'
  end.

Definition loading_in_flight (s : State) : nat :=
  sum_list_with (fun p => loading_in (pending_kont p)) (pending s)
  + sum_list_with (fun entry => loading_in (snd entry)) (retryQueue s).

Definition is_show (e : Event) : bool :=
  match e with WxShowLoading => true | _ => false end.

Definition is_hide (e : Event) : bool :=
  match e with WxHideLoading => true | _ => false end.

(** Calls of [showLoading] that no [hideLoading] has matched and that no
    suspended [request] will match. *)
Definition loading_balance (s : State) : Z :=
  Z.of_nat (count_events is_show (trace s))
  - Z.of_nat (count_events is_hide (trace s))
  - Z.of_nat (loading_in_flight s).

(** A refresh whose exchange request was itself answered 401: the flag is
    set and no call in flight belongs to a refresh. *)
Definition wedged (s : State) : Prop :=
  isRefreshing s = true /\
  sum_list_with (fun p => refreshes_in (pending_kont p)) (pending s) = 0%nat.

(** Callers 7 and 8 both show the loading hint and are answered 401; the
    exchange request of the refresh fails three times and is in its last
    attempt. *)
Definition loading_parked : list Input :=
  [Call 7 profile_config; Call 8 getUser_config;
   SendDone 1 expired; SendDone 1 expired;
   SendDone 0 timeout_error; SendDone 0 timeout_error; SendDone 0 timeout_error].

(** Caller 7 was answered 401 and the exchange request of its refresh is
    in flight. *)
Definition refresh_in_flight : State :=
  after [Call 7 profile_config; SendDone 0 expired] (init (Some "T1")).

(** The continuation of that exchange request. *)
Definition refresh_kont : Kont :=
  KRequest (mergeConfig (refresh_config "T1"))
    (KRefresh (mergeConfig profile_config)
       (KRequest (mergeConfig profile_config) (KCaller 7))).

(** Callers 7 and 8 both show the loading hint; 8 is answered first. *)
Definition loading_overlap : list Input :=
  [Call 7 profile_config; Call 8 getUser_config;
   SendDone 0 (inr (mkResponse 200 (JsonData "{}") "ok"))].

(** * Further code paths *)

(** The caller behind a chain of [request] activations, if the chain is
    nothing else: a request made by a caller, resubmitted any number of
    times. *)
Fixpoint caller_of (k : Kont) : option nat :=
  match k with
  | KCaller id => Some id
  | KRequest _ k' => caller_of k'
  | KLogin _ _ _ | KRefresh _ _ => None
  end.

(** What [handleRequest(config, rc)] settles its promise with when its
    [wx.request] settles with [o], if it does settle: the reply of code
    200, or the error of a last attempt (lines 126-128 and 138-141). *)
Definition final_outcome (config : RequestConfig) (rc : Z) (o : Outcome)
  : option Outcome :=
  match o with
  | inl e => if rc <? retry_bound config then None else Some (inl e)
  | inr response =>
      if code response =? 200 then Some (inr response)
      else if code response =? 401 then None
      else if rc <? retry_bound config then None
      else Some (inl (JsError (error_message response)))
  end.

(** Callers 7 and 8 were answered 401, the refresh succeeded with "T2" and
    both requests have been sent again. *)
Definition both_resent : State :=
  after (two_expired ++ [SendDone 0 (refreshed "T2")]) (logged_in "T1").

Definition songs_reply : ResponseData := mkResponse 200 (JsonData "[]") "ok".

(** One round of a Login Flow whose exchange fails: the code [wx.login()]
    resolves with, the failures of the first three attempts of the
    exchange request and the failure of its fourth and last. *)
Record LoginRound := mkRound {
  round_code : string;
  round_retried : list Outcome;
  round_last : Outcome
}.

Definition round_inputs (r : LoginRound) : list Input :=
  LoginDone 0 (inr (round_code r))
  :: map (SendDone 0) (round_retried r ++ [round_last r]).

Definition failing_round (r : LoginRound) : Prop :=
  length (round_retried r) = 3%nat /\
  Forall (fun o => is_Some (attempt_error o)) (round_retried r) /\
  is_Some (attempt_error (round_last r)).

(** What a round leaves behind: no token, nothing new in flight or
    settled, four more sends, and [logins] more calls of [wx.login()]. *)
Definition round_effect (logins : nat) (s s' : State) : Prop :=
  current_token s' = "" /\
  pending s' = pending s /\ results s' = results s /\
  count_events is_send (trace s') = (count_events is_send (trace s) + 4)%nat /\
  count_events is_wx_login (trace s')
    = (count_events is_wx_login (trace s) + logins)%nat.

Definition failed_round : LoginRound :=
  mkRound "c0" [timeout_error; timeout_error; timeout_error] (server_error "busy").

(** Caller 7 asks for the charts without credential while callers 8 and 9
    are in flight. *)
Definition charts_among_others : State :=
  after [Call 8 profile_config; Call 7 basic_config; Call 9 (songs_config Absent)]
        (logged_in "T1").

(** * Retries and the Login Flow *)

(** Caller 7 asks for the songs with [retry: 2] while the store is empty:
    [wx.login()] rejects twice, the third Login Flow succeeds, and the one
    send that follows is answered 500. *)
Definition login_rejected_twice : list Input :=
  [Call 7 (songs_config (Value 2));
   LoginDone 0 login_rejected; LoginDone 0 login_rejected;
   LoginDone 0 (inr "c0"); SendDone 0 (inr (login_reply "T1"));
   SendDone 0 (server_error "busy")].

(** The same caller when [wx.login()] rejects three times. *)
Definition login_rejected_thrice : list Input :=
  [Call 7 (songs_config (Value 2));
   LoginDone 0 login_rejected; LoginDone 0 login_rejected;
   LoginDone 0 login_rejected].

(** What follows the failure [e] of attempt [rc] of the request that
    caller [id] made with final config [fc], when [bound] retries are
    allowed; [ps] are the other calls in flight, [s] the state before and
    [s'] the state after.  Below the bound the next attempt is in flight
    and the caller has heard nothing; at the bound the caller's promise is
    rejected with [e] (lines 136-141). *)
Definition after_failed_attempt (bound : Z) (fc : RequestConfig) (id : nat)
    (rc : Z) (e : Error) (ps : list Pending) (s s' : State) : Prop :=
  if rc <? bound
  then exists p,
         pending s' = p :: ps /\
         pending_config p = fc /\
         pending_retryCount p = rc + 1 /\
         pending_kont p = KRequest fc (KCaller id) /\
         results s' = results s
  else pending s' = ps /\ results s' = (id, inl e) :: results s.

(** * The refresh fails *)

(** The store is empty and no refresh is in progress. *)
Definition cleared (s : State) : Prop :=
  token s = "" /\ storage s = None /\ isRefreshing s = false /\ retryQueue s = [].

(** Caller 7 asks while the store is empty; the exchange request of its
    Login Flow is answered 401, and the exchange request of the refresh this
    starts is in its last attempt. *)
Definition login_exchange_expired : list Input :=
  [Call 7 profile_config; LoginDone 0 (inr "c0"); SendDone 0 expired;
   SendDone 0 timeout_error; SendDone 0 timeout_error; SendDone 0 timeout_error].

(** * The window of a refresh *)

(** Whether input [i] starts a Refresh Flow in state [s]: it is a reply of
    code 401 and no refresh is in progress (lines 131 and 147-156). *)
Definition starts_refresh (i : Input) (s : State) : bool :=
  match i with
  | SendDone _ (inr x) => (code x =? 401) && negb (isRefreshing s)
  | _ => false
  end.

(** What the refresh meets while its exchange request is in flight, at the
    head of the calls in flight: another call is answered 401, [Expired m x]
    naming it by its position [m] among the calls other than the exchange
    request; or an attempt of the exchange request fails and is retried. *)
Inductive WindowInput :=
| Expired (m : nat) (x : ResponseData)
| ExchangeFailed (o : Outcome).

Definition window_input (w : WindowInput) : Input :=
  match w with
  | Expired m x => SendDone (S m) (inr x)
  | ExchangeFailed o => SendDone 0 o
  end.

(** The inputs [ws] are such a window, from attempt [rc] of the exchange
    request on and with [others] in flight beside it: the attempt the
    exchange request is in afterwards, the calls left in flight and the
    closures parked, in order of arrival. *)
Fixpoint window (exchange : RequestConfig) (ws : list WindowInput) (rc : Z)
    (others : list Pending)
  : option (Z * list Pending * list (RequestConfig * Kont)) :=
  match ws with
  | [] => Some (rc, others, [])
  | Expired m x :: ws' =>
      match others !! m with
      | Some (PSend _ config _ k) =>
          if code x =? 401 then
            match window exchange ws' rc (delete m others) with
            | Some (rc', rest, entries) => Some (rc', rest, (config, k) :: entries)
            | None => None
            end
          else None
      | _ => None
      end
  | ExchangeFailed o :: ws' =>
      if retried exchange rc o then window exchange ws' (rc + 1) others else None
  end.

(** With callers 7 and 8 in flight and 7 answered 401: an attempt of the
    exchange request fails, 8 is answered 401, another attempt of the
    exchange request fails. *)
Definition mixed_window : list WindowInput :=
  [ExchangeFailed timeout_error; Expired 0 expired_reply;
   ExchangeFailed (server_error "busy")].
(** * Properties *)

Lemma count_events_app f tr1 tr2 :
  count_events f (tr1 ++ tr2) = (count_events f tr1 + count_events f tr2)%nat.
Proof. unfold count_events. by rewrite List.filter_app, length_app. Qed.

(** ** The credential store *)

Lemma truthy_string_true t : truthy_string t = true <-> t ≠ "".
Proof.
  unfold truthy_string. destruct (String.eqb_spec t ""); simpl; split; congruence.
Qed.

Lemma truthy_string_false t : truthy_string t = false <-> t = "".
Proof.
  unfold truthy_string. destruct (String.eqb_spec t ""); simpl; split; congruence.
Qed.

Lemma getToken_cached s :
  token s ≠ "" -> getToken s = (token s, emit StoreGetToken s).
Proof.
  intros H. unfold getToken. simpl.
  apply truthy_string_true in H. by rewrite H.
Qed.

Lemma getToken_load s :
  token s = "" ->
  getToken s =
    (default "" (storage s),
     set_token (default "" (storage s)) (emit WxGetStorageSync (emit StoreGetToken s))).
Proof.
  intros H. unfold getToken. simpl. rewrite H. reflexivity.
Qed.

Lemma getToken_times_cached n s :
  token s ≠ "" ->
  fst (getToken_times n s) = replicate n (token s) /\
  token (snd (getToken_times n s)) = token s /\
  storage (snd (getToken_times n s)) = storage s /\
  count_events is_storage_read (trace (snd (getToken_times n s))) =
    count_events is_storage_read (trace s).
Proof.
  revert s. induction n as [|n IH]; intros s H; simpl; [done|].
  rewrite (getToken_cached s H).
  destruct (getToken_times n (emit StoreGetToken s)) as [ts s2] eqn:E.
  specialize (IH (emit StoreGetToken s) H). rewrite E in IH. simpl in *.
  destruct IH as (-> & -> & -> & ->).
  rewrite count_events_app. by repeat split.
Qed.

(** C8, as stated, fails: with nothing in storage the first [getToken()]
    loads the empty string, which is not kept as a cached value, and the
    second call goes to storage again. *)
Lemma getToken_empty_reads_storage_again :
  let s1 := snd (getToken (init None)) in
  let s2 := snd (getToken s1) in
  fst (getToken (init None)) = "" /\
  count_events is_storage_read (trace s1) = 1%nat /\
  count_events is_storage_read (trace s2) = 2%nat.
Proof. by vm_compute. Qed.

(** C8, amended: [getToken()] returns the in-memory token when it is
    non-empty, without touching storage; otherwise it reads storage once,
    stores what it read (the empty string when the key is absent) in memory
    and returns it.  Once the value is non-empty, any number of further
    calls return it with no storage access; while it is empty, the next
    call reads storage again. *)
Theorem getToken_loads_until_nonempty (s : State) (n : nat) :
  let t := fst (getToken s) in
  let s1 := snd (getToken s) in
  t = (if truthy_string (token s) then token s else default "" (storage s)) /\
  token s1 = t /\
  storage s1 = storage s /\
  count_events is_storage_read (trace s1) =
    (count_events is_storage_read (trace s)
     + (if truthy_string (token s) then 0 else 1))%nat /\
  (t ≠ "" ->
   fst (getToken_times n s1) = replicate n t /\
   count_events is_storage_read (trace (snd (getToken_times n s1))) =
     count_events is_storage_read (trace s1)) /\
  (t = "" ->
   count_events is_storage_read (trace (snd (getToken s1))) =
     S (count_events is_storage_read (trace s1))).
Proof.
  simpl. destruct (truthy_string (token s)) eqn:E.
  - apply truthy_string_true in E. rewrite (getToken_cached s E). simpl.
    rewrite count_events_app.
    pose proof (getToken_times_cached n (emit StoreGetToken s) E) as H.
    simpl in H. rewrite count_events_app in H.
    split_and!; try done; tauto.
  - apply truthy_string_false in E. rewrite (getToken_load s E). simpl.
    rewrite !count_events_app.
    split_and!; try done.
    + unfold count_events. simpl. lia.
    + intros Ht.
      pose proof (getToken_times_cached n
        (set_token (default "" (storage s))
           (emit WxGetStorageSync (emit StoreGetToken s))) Ht) as H.
      simpl in H. rewrite !count_events_app in H. tauto.
    + intros Ht. rewrite getToken_load by done. simpl.
      rewrite !count_events_app. unfold count_events. simpl. lia.
Qed.

Lemma getToken_loads_until_nonempty_witness :
  fst (getToken_times 2 (snd (getToken (init (Some "T1"))))) = ["T1"; "T1"] /\
  count_events is_storage_read
    (trace (snd (getToken_times 2 (snd (getToken (init (Some "T1"))))))) = 1%nat.
Proof.
  destruct (getToken_loads_until_nonempty (init (Some "T1")) 2)
    as (_ & _ & _ & _ & H & _).
  apply H. simpl. discriminate.
Defined.

(** ** Traces only grow *)

Section Grows.
Variable P : Event -> Prop.

Lemma grows_refl s : grows P s s.
Proof. exists []. by rewrite app_nil_r. Qed.

Lemma grows_trans s1 s2 s3 : grows P s1 s2 -> grows P s2 s3 -> grows P s1 s3.
Proof.
  intros (e1 & H1 & F1) (e2 & H2 & F2). exists (e1 ++ e2).
  rewrite H2, H1, app_assoc. split; [done|]. by apply Forall_app.
Qed.

Lemma grows_same s s' : trace s' = trace s -> grows P s s'.
Proof. intros H. exists []. by rewrite app_nil_r. Qed.

Lemma grows_emit e s : P e -> grows P s (emit e s).
Proof. intros H. exists [e]. split; [done|]. by constructor. Qed.
End Grows.

(** Peels the updates of a state off a [grows] goal; [H] proves [P] of the
    events met, by computation. *)
Ltac grow H :=
  repeat first
    [ apply grows_refl
    | apply grows_same; reflexivity
    | apply grows_emit, H; reflexivity
    | eapply grows_trans;
      [| solve [ apply grows_emit, H; reflexivity
               | apply grows_same; reflexivity ] ] ].

(** One attempt, that is [handleRequest] up to its first await, records
    reads of the store, a [wx.login] or a [wx.request] built by
    [wx_options]. *)
Section AttemptTrace.
Variable P : Event -> Prop.
Hypothesis P_attempt : forall e, is_attempt_event e = true -> P e.
Hypothesis P_send : forall config a, P (WxRequest (wx_options config a)).

Lemma getToken_grows s : grows P s (snd (getToken s)).
Proof.
  unfold getToken, wx_getStorageSync. destruct (truthy_string _); simpl.
  - grow P_attempt.
  - eapply grows_trans; [|apply grows_same; reflexivity]. grow P_attempt.
Qed.

Lemma getToken_grows' s t s1 : getToken s = (t, s1) -> grows P s s1.
Proof. intros E. pose proof (getToken_grows s) as H. by rewrite E in H. Qed.

Lemma wxRequest_grows config rc k s : grows P s (wxRequest config rc k s).
Proof.
  unfold wxRequest. destruct (truthy (auth config)).
  - destruct (getToken s) as [t s1] eqn:E. apply getToken_grows' in E.
    eapply grows_trans; [exact E|]. unfold add_pending.
    eapply grows_trans; [|apply grows_same; reflexivity].
    apply grows_emit, P_send.
  - unfold add_pending.
    eapply grows_trans; [|apply grows_same; reflexivity].
    apply grows_emit, P_send.
Qed.

Lemma login_grows config rc k s : grows P s (login config rc k s).
Proof. unfold login, add_pending. grow P_attempt. Qed.

Lemma handleRequest_grows config rc k s : grows P s (handleRequest config rc k s).
Proof.
  unfold handleRequest. destruct (truthy (auth config)).
  - destruct (getToken s) as [t s1] eqn:E. apply getToken_grows' in E.
    eapply grows_trans; [exact E|].
    destruct (negb _); [apply login_grows | apply wxRequest_grows].
  - apply wxRequest_grows.
Qed.
End AttemptTrace.

(** What the code records when a promise settles and when [request] is
    called: every [wx.request] was built by [wx_options], and
    [refreshToken] is not called. *)
Section ResumeTrace.
Variable P : Event -> Prop.
Hypothesis P_other : forall e, is_send e = false -> is_refresh_call e = false -> P e.
Hypothesis P_send : forall config a, P (WxRequest (wx_options config a)).

Lemma P_other_attempt e : is_attempt_event e = true -> P e.
Proof. intros E. apply P_other; by destruct e. Qed.

Lemma setToken_grows t s : grows P s (setToken t s).
Proof. unfold setToken. grow P_other. Qed.

Lemma clearToken_grows s : grows P s (clearToken s).
Proof. unfold clearToken. grow P_other. Qed.

Lemma set_isRefreshing_grows b s : grows P s (set_isRefreshing b s).
Proof. unfold set_isRefreshing. grow P_other. Qed.

Lemma handleRequest_grows_all config rc k s :
  grows P s (handleRequest config rc k s).
Proof. apply handleRequest_grows; [apply P_other_attempt | apply P_send]. Qed.

Lemma request_grows config k s : grows P s (request config k s).
Proof.
  unfold request, showLoading.
  eapply grows_trans; [|apply handleRequest_grows_all].
  destruct (truthy _); grow P_other.
Qed.

Lemma run_queue_grows s : grows P s (run_queue s).
Proof.
  unfold run_queue. generalize (retryQueue s). intros q. revert s.
  induction q as [|[c kq] q IH]; intros s; simpl; [apply grows_refl|].
  eapply grows_trans; [apply request_grows | apply IH].
Qed.

Lemma handleRequest_catch_grows config rc k throw_k e s :
  (forall e s, grows P s (throw_k e s)) ->
  grows P s (handleRequest_catch config rc k throw_k e s).
Proof.
  intros H. unfold handleRequest_catch.
  destruct (_ <? _); [apply handleRequest_grows_all | apply H].
Qed.

Lemma resume_grows k : forall o s, grows P s (resume k o s).
Proof.
  induction k as [id | fc k IH | config rc k IH | config k IH]; intros o s; simpl.
  - grow P_other.
  - eapply grows_trans; [|apply IH]. unfold hideLoading.
    destruct (truthy _); grow P_other.
  - assert (forall e s, grows P s
       (handleRequest_catch config rc k (fun e => resume k (inl e)) e
          (emit (ConsoleError e) s))) as Hf.
    { intros e s'. eapply grows_trans; [|apply handleRequest_catch_grows].
      - grow P_other.
      - intros; apply IH. }
    destruct o as [e|res]; [apply Hf|].
    destruct (data_token res); [|apply Hf].
    eapply grows_trans; [apply setToken_grows |].
    apply wxRequest_grows; [apply P_other_attempt | apply P_send].
  - assert (forall e s, grows P s
       (resume k (inl e)
          (emit QueueClear
             (set_retryQueue [] (set_isRefreshing false (clearToken s)))))) as Hf.
    { intros e s'. eapply grows_trans; [|apply IH].
      eapply grows_trans; [apply clearToken_grows|].
      eapply grows_trans; [apply set_isRefreshing_grows|]. grow P_other. }
    destruct o as [e|res]; [apply Hf|].
    destruct (data_token res); [|apply Hf].
    eapply grows_trans; [|apply request_grows].
    eapply grows_trans; [apply setToken_grows|].
    eapply grows_trans; [apply set_isRefreshing_grows|].
    eapply grows_trans; [apply run_queue_grows|]. grow P_other.
Qed.

Lemma login_resume_grows config rc k o s :
  grows P s (login_resume config rc k o s).
Proof.
  destruct o as [e|c]; simpl; [|apply request_grows].
  eapply grows_trans; [|apply handleRequest_catch_grows].
  - grow P_other.
  - intros; apply resume_grows.
Qed.

(** A settled [wx.request], unless it starts a refresh. *)
Lemma handleRequest_resume_quiet config rc k o s :
  is_expired_reply o = false \/ isRefreshing s = true ->
  grows P s (handleRequest_resume config rc k o s).
Proof.
  intros H. destruct o as [e|r]; simpl.
  - apply handleRequest_catch_grows. intros; apply resume_grows.
  - destruct (_ =? 200); [apply resume_grows|].
    destruct (code r =? 401) eqn:E.
    + destruct H as [H|H]; [simpl in H; congruence|].
      unfold handleTokenExpired. rewrite H. grow P_other.
    + apply handleRequest_catch_grows. intros; apply resume_grows.
Qed.
End ResumeTrace.

(** Every function of the file appends to the trace, and every
    [wx.request] it records was built by [wx_options]. *)
Section RunTrace.
Variable P : Event -> Prop.
Hypothesis P_other : forall e, is_send e = false -> P e.
Hypothesis P_send : forall config a, P (WxRequest (wx_options config a)).

Lemma P_other_quiet e : is_send e = false -> is_refresh_call e = false -> P e.
Proof. intros H _. by apply P_other. Qed.

Lemma refreshToken_grows config k s : grows P s (refreshToken config k s).
Proof.
  unfold refreshToken. destruct (getToken _) as [t s1] eqn:E.
  apply (getToken_grows' P (P_other_attempt P P_other_quiet)) in E.
  eapply grows_trans; [|apply request_grows; [apply P_other_quiet | apply P_send]].
  eapply grows_trans; [|exact E]. grow P_other.
Qed.

Lemma handleTokenExpired_grows config k s :
  grows P s (handleTokenExpired config k s).
Proof.
  unfold handleTokenExpired. destruct (isRefreshing s).
  - grow P_other.
  - eapply grows_trans; [apply set_isRefreshing_grows, P_other_quiet
                        | apply refreshToken_grows].
Qed.

Lemma handleRequest_resume_grows config rc k o s :
  grows P s (handleRequest_resume config rc k o s).
Proof.
  destruct (is_expired_reply o) eqn:E.
  - destruct o as [e|r]; [done|]. simpl in *.
    destruct (Z.eqb_spec (code r) 401) as [E'|]; [|done]. rewrite E'. simpl.
    apply handleTokenExpired_grows.
  - apply handleRequest_resume_quiet; [apply P_other_quiet | apply P_send | by left].
Qed.

Lemma step_grows i s s' : step i s = Some s' -> grows P s s'.
Proof.
  destruct i as [id config | n o | n o]; simpl.
  - intros [= <-]. apply request_grows; [apply P_other_quiet | apply P_send].
  - destruct (pending s !! n) as [[config rc k | opts config rc k]|]; try done.
    intros [= <-].
    eapply grows_trans;
      [|apply login_resume_grows; [apply P_other_quiet | apply P_send]].
    grow P_other.
  - destruct (pending s !! n) as [[config rc k | opts config rc k]|]; try done.
    intros [= <-]. eapply grows_trans; [|apply handleRequest_resume_grows].
    grow P_other.
Qed.

Lemma reachable_trace s : reachable s -> Forall P (trace s).
Proof.
  induction 1 as [stored | i s s' _ IH Hs]; [constructor|].
  destruct (step_grows _ _ _ Hs) as (evs & -> & F). by apply Forall_app.
Qed.
End RunTrace.

(** ** Headers *)

Lemma wx_options_content_type config authorization :
  wx_header (wx_options config authorization) !! "Content-Type"
  = Some "application/json".
Proof. unfold wx_options, wx_request_header. simpl. apply lookup_insert_eq. Qed.

Lemma wx_options_authorization config authorization :
  wx_header (wx_options config authorization) !! "Authorization"
  = Some authorization.
Proof.
  unfold wx_options, wx_request_header. simpl.
  rewrite lookup_insert_ne by done. apply lookup_insert_eq.
Qed.

(** C10: the option object of every [wx.request] has
    [Content-Type: application/json], whatever [config.header] holds under
    that key; and so has every [wx.request] recorded in a run. *)
Theorem content_type_is_json :
  (forall config authorization v,
     header config !! "Content-Type" = Some v ->
     wx_header (wx_options config authorization) !! "Content-Type"
     = Some "application/json") /\
  (forall s opts,
     reachable s -> WxRequest opts ∈ trace s ->
     wx_header opts !! "Content-Type" = Some "application/json").
Proof.
  split.
  - intros config a v _. apply wx_options_content_type.
  - intros s opts Hs Hin.
    assert (Forall json_content_type (trace s)) as F.
    { apply reachable_trace; [by intros [] | | done].
      intros config a. apply wx_options_content_type. }
    rewrite Forall_forall in F. exact (F _ Hin).
Qed.

Lemma content_type_is_json_witness :
  header plain_config !! "Content-Type" = Some "text/plain" /\
  wx_header (wx_options plain_config "") !! "Content-Type" = Some "application/json" /\
  wx_header (wx_options plain_config "") !! "Content-Type" = Some "application/json".
Proof.
  destruct content_type_is_json as [H1 H2].
  split; [reflexivity|]. split.
  - apply (H1 plain_config "" "text/plain"). reflexivity.
  - apply (H2 (request plain_config (KCaller 0) (init None))).
    + apply (reachable_step (Call 0%nat plain_config) (init None));
        [apply reachable_init | reflexivity].
    + apply list_elem_of_lookup. exists 1%nat. reflexivity.
Defined.

(** ** Retrying *)

Lemma trace_emit_all evs s : trace (emit_all evs s) = trace s ++ evs.
Proof.
  revert s. induction evs as [|e evs IH]; intros s; simpl.
  - by rewrite app_nil_r.
  - rewrite IH. simpl. by rewrite <- app_assoc.
Qed.

Lemma emit_all_app evs1 evs2 s :
  emit_all (evs1 ++ evs2) s = emit_all evs2 (emit_all evs1 s).
Proof. unfold emit_all. by rewrite fold_left_app. Qed.

Lemma emit_all_fields evs s :
  token (emit_all evs s) = token s /\
  storage (emit_all evs s) = storage s /\
  isRefreshing (emit_all evs s) = isRefreshing s /\
  retryQueue (emit_all evs s) = retryQueue s /\
  pending (emit_all evs s) = pending s /\
  results (emit_all evs s) = results s.
Proof.
  revert s. induction evs as [|e evs IH]; intros s; simpl; [done|].
  destruct (IH (emit e s)) as (-> & -> & -> & -> & -> & ->). done.
Qed.

Lemma handleRequest_ready config rc k s :
  ready config s ->
  handleRequest config rc k s =
    add_pending (PSend (wx_options config (authorization config s)) config rc k)
                (emit_all (attempt_events config s) s).
Proof.
  unfold ready, handleRequest, wxRequest, attempt_events, authorization.
  destruct (truthy (auth config)); [|intros _; reflexivity].
  intros [|H]; [done|].
  rewrite (getToken_cached s H).
  assert (truthy_string (token s) = true) as -> by by apply truthy_string_true.
  simpl. rewrite (getToken_cached (emit StoreGetToken s)) by done.
  reflexivity.
Qed.

Lemma step_SendDone_newest o opts config rc k s0 :
  step (SendDone 0 o) (add_pending (PSend opts config rc k) s0) =
    Some (handleRequest_resume config rc k o s0).
Proof. by destruct s0. Qed.

Lemma step_LoginDone_newest o config rc k s0 :
  step (LoginDone 0 o) (add_pending (PLogin config rc k) s0) =
    Some (login_resume config rc k o s0).
Proof. by destruct s0. Qed.

Lemma handleRequest_resume_fails config rc k o e s :
  attempt_error o = Some e ->
  handleRequest_resume config rc k o s =
    handleRequest_catch config rc k (fun e => resume k (inl e)) e s.
Proof.
  destruct o as [e'|r]; simpl.
  - by intros [= ->].
  - destruct (code r =? 200); [done|]. destruct (code r =? 401); [done|].
    by intros [= <-].
Qed.

Lemma handleRequest_catch_retry config rc k throw_k e s :
  rc < retry_bound config ->
  handleRequest_catch config rc k throw_k e s = handleRequest config (rc + 1) k s.
Proof.
  intros H. unfold handleRequest_catch. by rewrite (proj2 (Z.ltb_lt _ _) H).
Qed.

Lemma handleRequest_catch_throw config rc k throw_k e s :
  ~ rc < retry_bound config ->
  handleRequest_catch config rc k throw_k e s = throw_k e s.
Proof.
  intros H. unfold handleRequest_catch. by rewrite (proj2 (Z.ltb_nlt _ _) H).
Qed.

Lemma send_fails_retried s0 opts config rc k o e :
  ready config s0 ->
  attempt_error o = Some e ->
  rc < retry_bound config ->
  step (SendDone 0 o) (add_pending (PSend opts config rc k) s0) =
    Some (add_pending
            (PSend (wx_options config (authorization config s0)) config (rc + 1) k)
            (emit_all (attempt_events config s0) s0)).
Proof.
  intros Hr He Hlt.
  rewrite step_SendDone_newest, (handleRequest_resume_fails _ _ _ _ _ _ He).
  by rewrite handleRequest_catch_retry, handleRequest_ready.
Qed.

Lemma send_fails_finally s0 opts config rc k o e :
  attempt_error o = Some e ->
  ~ rc < retry_bound config ->
  step (SendDone 0 o) (add_pending (PSend opts config rc k) s0) =
    Some (resume k (inl e) s0).
Proof.
  intros He Hlt.
  rewrite step_SendDone_newest, (handleRequest_resume_fails _ _ _ _ _ _ He).
  by rewrite handleRequest_catch_throw.
Qed.

Lemma ready_emit_all config evs s : ready config s -> ready config (emit_all evs s).
Proof. unfold ready. by rewrite (proj1 (emit_all_fields evs s)). Qed.

Lemma attempt_events_emit_all config evs s :
  attempt_events config (emit_all evs s) = attempt_events config s.
Proof.
  unfold attempt_events, authorization. by rewrite (proj1 (emit_all_fields evs s)).
Qed.

Lemma authorization_emit_all config evs s :
  authorization config (emit_all evs s) = authorization config s.
Proof. unfold authorization. by rewrite (proj1 (emit_all_fields evs s)). Qed.

Lemma run_cons i inputs s s' :
  step i s = Some s' -> run (i :: inputs) s = run inputs s'.
Proof. intros H. simpl. by rewrite H. Qed.

Lemma run_app inputs1 inputs2 s s' :
  run inputs1 s = Some s' -> run (inputs1 ++ inputs2) s = run inputs2 s'.
Proof.
  revert s. induction inputs1 as [|i inputs1 IH]; intros s; simpl.
  - by intros [= ->].
  - destruct (step i s); [apply IH | done].
Qed.

(** Failed attempts below the bound: each is answered by a new attempt. *)
Lemma sends_fail_retried os : forall s0 opts config rc k o,
  ready config s0 ->
  Forall (fun o => is_Some (attempt_error o)) (o :: os) ->
  rc + Z.of_nat (length (o :: os)) <= retry_bound config ->
  run (map (SendDone 0) (o :: os)) (add_pending (PSend opts config rc k) s0) =
    Some (add_pending
            (PSend (wx_options config (authorization config s0)) config
                   (rc + Z.of_nat (length (o :: os))) k)
            (emit_all (concat (replicate (length (o :: os)) (attempt_events config s0)))
                      s0)).
Proof.
  induction os as [|o' os IH]; intros s0 opts config rc k o Hr Hf Hb;
    apply Forall_cons in Hf as [[e He] Hf]; rewrite map_cons;
    erewrite run_cons by (apply (send_fails_retried _ _ _ _ _ _ e);
                          [done | done | simpl length in Hb; lia]).
  - simpl. by rewrite app_nil_r.
  - rewrite IH; [| by apply ready_emit_all | done | simpl length in *; lia].
    rewrite attempt_events_emit_all, authorization_emit_all.
    rewrite <- emit_all_app.
    f_equal. f_equal. f_equal. simpl length. lia.
Qed.

Lemma token_showLoading fc s : token (showLoading fc s) = token s.
Proof. unfold showLoading. by destruct (truthy _). Qed.

Lemma request_ready config k s :
  let fc := mergeConfig config in
  ready fc s ->
  request config k s =
    add_pending (PSend (wx_options fc (authorization fc s)) fc 0 (KRequest fc k))
      (emit_all (attempt_events fc s) (showLoading fc (emit (CallRequest config) s))).
Proof.
  intros fc Hr. unfold request. fold fc.
  rewrite handleRequest_ready.
  - unfold attempt_events, authorization. by rewrite token_showLoading.
  - unfold ready in *. by rewrite token_showLoading.
Qed.

(** A caller's request that needs no login and whose attempts all fail:
    [retry_bound] retries follow the first attempt, and the caller gets the
    error of the last one. *)
Lemma request_always_failing config id s os o e :
  let fc := mergeConfig config in
  ready fc s ->
  Forall (fun o => is_Some (attempt_error o)) os ->
  attempt_error o = Some e ->
  Z.of_nat (length os) = Z.max 0 (retry_bound fc) ->
  run (Call id config :: map (SendDone 0) (os ++ [o])) s =
    Some (settle id (inl e)
            (hideLoading fc
               (emit_all (concat (replicate (S (length os)) (attempt_events fc s)))
                  (showLoading fc (emit (CallRequest config) s))))).
Proof.
  intros fc Hr Hf He Hlen.
  erewrite run_cons by reflexivity.
  rewrite request_ready by done. fold fc.
  set (s1 := showLoading fc (emit (CallRequest config) s)).
  assert (ready fc s1) as Hr1.
  { unfold ready, s1 in *. by rewrite token_showLoading. }
  assert (attempt_events fc s = attempt_events fc s1) as ->.
  { unfold attempt_events, authorization, s1. by rewrite token_showLoading. }
  assert (authorization fc s = authorization fc s1) as ->.
  { unfold authorization, s1. by rewrite token_showLoading. }
  clearbody s1. rewrite map_app.
  destruct os as [|o1 os].
  - simpl app. simpl map.
    erewrite run_cons by (apply (send_fails_finally _ _ _ _ _ _ e); [done | simpl in Hlen; lia]).
    simpl. by rewrite app_nil_r.
  - erewrite run_app; cycle 1.
    { apply sends_fail_retried; [by apply ready_emit_all | done |].
      simpl length in *. lia. }
    rewrite attempt_events_emit_all, <- emit_all_app.
    simpl map.
    erewrite run_cons
      by (apply (send_fails_finally _ _ _ _ _ _ e); [done | simpl length in *; lia]).
    simpl run. simpl resume. do 4 f_equal.
Qed.

Lemma count_attempt_events config s :
  count_events is_send (attempt_events config s) = 1%nat.
Proof. unfold attempt_events. by destruct (truthy _). Qed.

Lemma count_attempts f n evs :
  count_events f (concat (replicate n evs)) = (n * count_events f evs)%nat.
Proof.
  induction n as [|n IH]; simpl; [done|]. by rewrite count_events_app, IH.
Qed.

Lemma trace_showLoading fc s :
  trace (showLoading fc s) = trace s ++ (if truthy (loading fc) then [WxShowLoading] else []).
Proof. unfold showLoading. destruct (truthy _); simpl; by rewrite ?app_nil_r. Qed.

Lemma trace_hideLoading fc s :
  trace (hideLoading fc s) = trace s ++ (if truthy (loading fc) then [WxHideLoading] else []).
Proof. unfold hideLoading. destruct (truthy _); simpl; by rewrite ?app_nil_r. Qed.

Lemma hideLoading_fields fc s :
  token (hideLoading fc s) = token s /\
  storage (hideLoading fc s) = storage s /\
  isRefreshing (hideLoading fc s) = isRefreshing s /\
  retryQueue (hideLoading fc s) = retryQueue s /\
  pending (hideLoading fc s) = pending s /\
  results (hideLoading fc s) = results s.
Proof. unfold hideLoading. by destruct (truthy _). Qed.

Lemma showLoading_fields fc s :
  token (showLoading fc s) = token s /\
  storage (showLoading fc s) = storage s /\
  isRefreshing (showLoading fc s) = isRefreshing s /\
  retryQueue (showLoading fc s) = retryQueue s /\
  pending (showLoading fc s) = pending s /\
  results (showLoading fc s) = results s.
Proof. unfold showLoading. by destruct (truthy _). Qed.

(** What the caller and the trace see of such a request. *)
Lemma request_always_failing_summary config id s os o e :
  let fc := mergeConfig config in
  ready fc s ->
  Forall (fun o => is_Some (attempt_error o)) os ->
  attempt_error o = Some e ->
  Z.of_nat (length os) = Z.max 0 (retry_bound fc) ->
  exists s',
    run (Call id config :: map (SendDone 0) (os ++ [o])) s = Some s' /\
    results s' = (id, inl e) :: results s /\
    pending s' = pending s /\
    count_events is_send (trace s') =
      (count_events is_send (trace s) + S (length os))%nat /\
    count_events is_refresh_call (trace s') = count_events is_refresh_call (trace s).
Proof.
  intros fc Hr Hf He Hlen. eexists. split; [by apply request_always_failing|].
  unfold settle. cbn [results pending trace]. fold fc.
  destruct (hideLoading_fields fc
    (emit_all (concat (replicate (S (length os)) (attempt_events fc s)))
       (showLoading fc (emit (CallRequest config) s)))) as (_ & _ & _ & _ & -> & ->).
  destruct (emit_all_fields (concat (replicate (S (length os)) (attempt_events fc s)))
       (showLoading fc (emit (CallRequest config) s))) as (_ & _ & _ & _ & -> & ->).
  destruct (showLoading_fields fc (emit (CallRequest config) s)) as (_ & _ & _ & _ & -> & ->).
  split; [done|]. split; [done|].
  rewrite trace_hideLoading, trace_emit_all, trace_showLoading. simpl trace.
  rewrite !count_events_app, !count_attempts, count_attempt_events.
  assert (count_events is_refresh_call (attempt_events fc s) = 0%nat) as ->.
  { unfold attempt_events. by destruct (truthy _). }
  destruct (truthy (loading fc)); unfold count_events; simpl; lia.
Qed.

(** C9: with [retry: 0] passed by the caller, the bound of line 138 is
    [MAX_RETRY_COUNT = 3]: when every attempt fails, four are made before the
    caller's promise is rejected. *)
Theorem retry_zero_four_attempts config id s o1 o2 o3 o4 e1 e2 e3 e4 :
  retry config = Value 0 ->
  ready (mergeConfig config) s ->
  attempt_error o1 = Some e1 ->
  attempt_error o2 = Some e2 ->
  attempt_error o3 = Some e3 ->
  attempt_error o4 = Some e4 ->
  retry (mergeConfig config) = Value 0 /\
  retry_bound (mergeConfig config) = MAX_RETRY_COUNT /\
  MAX_RETRY_COUNT = 3 /\
  exists s',
    run [Call id config; SendDone 0 o1; SendDone 0 o2; SendDone 0 o3; SendDone 0 o4] s
      = Some s' /\
    results s' = (id, inl e4) :: results s /\
    pending s' = pending s /\
    count_events is_send (trace s') = (count_events is_send (trace s) + 4)%nat.
Proof.
  intros Hretry Hr H1 H2 H3 H4.
  assert (retry_bound (mergeConfig config) = MAX_RETRY_COUNT) as Hb.
  { unfold retry_bound. simpl. by rewrite Hretry. }
  split; [simpl; by rewrite Hretry|]. split; [done|]. split; [done|].
  destruct (request_always_failing_summary config id s [o1; o2; o3] o4 e4)
    as (s' & Hrun & Hres & Hp & Hc & _); try done.
  - repeat constructor; eauto.
  - by rewrite Hb.
  - by exists s'.
Qed.

Lemma retry_zero_four_attempts_witness :
  retry (mergeConfig (songs_config (Value 0))) = Value 0 /\
  retry_bound (mergeConfig (songs_config (Value 0))) = MAX_RETRY_COUNT /\
  MAX_RETRY_COUNT = 3 /\
  exists s',
    run [Call 7 (songs_config (Value 0)); SendDone 0 timeout_error;
         SendDone 0 timeout_error; SendDone 0 timeout_error;
         SendDone 0 (server_error "busy")]
        (logged_in "T1") = Some s' /\
    results s' = (7%nat, inl (JsError "busy")) :: results (logged_in "T1") /\
    pending s' = pending (logged_in "T1") /\
    count_events is_send (trace s') =
      (count_events is_send (trace (logged_in "T1")) + 4)%nat.
Proof.
  apply (retry_zero_four_attempts (songs_config (Value 0)) 7 (logged_in "T1")
           timeout_error timeout_error timeout_error (server_error "busy")
           (WxFail "request:fail timeout") (WxFail "request:fail timeout")
           (WxFail "request:fail timeout") (JsError "busy")).
  - reflexivity.
  - right. simpl. discriminate.
  - reflexivity.
  - reflexivity.
  - reflexivity.
  - reflexivity.
Defined.

(** ** Success *)

(** C6: when the [wx.request] of a caller's request settles with a reply of
    code 200, the caller's promise is resolved with that very reply; nothing
    is sent, no refresh starts, the store, [isRefreshing] and the queue are
    untouched, and the only call recorded is the [hideLoading] of [finally]
    when the request asked for [loading]. *)
Theorem code_200_is_returned s n opts fc rc id response :
  pending s !! n = Some (PSend opts fc rc (KRequest fc (KCaller id))) ->
  code response = 200 ->
  exists s',
    step (SendDone n (inr response)) s = Some s' /\
    results s' = (id, inr response) :: results s /\
    pending s' = delete n (pending s) /\
    trace s' = trace s ++ (if truthy (loading fc) then [WxHideLoading] else []) /\
    token s' = token s /\ storage s' = storage s /\
    isRefreshing s' = isRefreshing s /\ retryQueue s' = retryQueue s.
Proof.
  intros Hp Hc. unfold step. rewrite Hp. eexists. split; [reflexivity|].
  unfold handleRequest_resume. rewrite Hc. simpl.
  unfold hideLoading. destruct (truthy (loading fc)); simpl;
    rewrite ?app_nil_r; done.
Qed.

Lemma code_200_is_returned_witness :
  exists s',
    step (SendDone 0 (inr (mkResponse 200 (JsonData "[]") "ok")))
         (request (songs_config Absent) (KCaller 7) (logged_in "T1")) = Some s' /\
    results s' = [(7%nat, inr (mkResponse 200 (JsonData "[]") "ok"))] /\
    pending s' = [] /\
    count_events is_send (trace s') = 1%nat /\
    count_events is_refresh_call (trace s') = 0%nat.
Proof.
  destruct (code_200_is_returned
              (request (songs_config Absent) (KCaller 7) (logged_in "T1")) 0
              (wx_options (mergeConfig (songs_config Absent)) "Bearer T1")
              (mergeConfig (songs_config Absent)) 0 7
              (mkResponse 200 (JsonData "[]") "ok"))
    as (s' & Hs & Hr & Hp & Ht & _); [reflexivity | reflexivity |].
  exists s'. rewrite Hs, Hr, Hp, Ht. repeat split; reflexivity.
Defined.

(** ** Starting a request *)

Lemma getToken_fields s :
  isRefreshing (snd (getToken s)) = isRefreshing s /\
  retryQueue (snd (getToken s)) = retryQueue s /\
  pending (snd (getToken s)) = pending s /\
  results (snd (getToken s)) = results s /\
  storage (snd (getToken s)) = storage s.
Proof. unfold getToken. by destruct (truthy_string _). Qed.

(** [handleRequest] puts exactly one platform call in flight, waited for by
    [k], and leaves the protocol state alone. *)
Lemma handleRequest_launches config rc k s :
  exists p,
    pending (handleRequest config rc k s) = p :: pending s /\
    pending_kont p = k /\ pending_config p = config /\
    pending_retryCount p = rc /\
    isRefreshing (handleRequest config rc k s) = isRefreshing s /\
    retryQueue (handleRequest config rc k s) = retryQueue s /\
    results (handleRequest config rc k s) = results s /\
    storage (handleRequest config rc k s) = storage s.
Proof.
  unfold handleRequest, wxRequest, login.
  destruct (truthy (auth config)).
  - pose proof (getToken_fields s) as F1.
    destruct (getToken s) as [t s1]. simpl in F1.
    destruct F1 as (<- & <- & <- & <- & <-).
    destruct (negb _); [eexists; by split_and!|].
    pose proof (getToken_fields s1) as F2.
    destruct (getToken s1) as [t2 s2]. simpl in F2.
    destruct F2 as (<- & <- & <- & <- & <-). eexists; by split_and!.
  - eexists; by split_and!.
Qed.

Lemma request_launches config k s :
  exists p,
    pending (request config k s) = p :: pending s /\
    pending_kont p = KRequest (mergeConfig config) k /\
    isRefreshing (request config k s) = isRefreshing s /\
    retryQueue (request config k s) = retryQueue s /\
    results (request config k s) = results s /\
    storage (request config k s) = storage s.
Proof.
  unfold request.
  destruct (handleRequest_launches (mergeConfig config) 0
              (KRequest (mergeConfig config) k)
              (showLoading (mergeConfig config) (emit (CallRequest config) s)))
    as (p & -> & Hk & _ & _ & -> & -> & -> & ->).
  destruct (showLoading_fields (mergeConfig config) (emit (CallRequest config) s))
    as (_ & -> & -> & -> & -> & ->).
  by exists p.
Qed.

Lemma protocol_app tr1 tr2 : protocol (tr1 ++ tr2) = protocol tr1 ++ protocol tr2.
Proof. apply List.filter_app. Qed.

Lemma protocol_none evs :
  Forall (fun e => is_protocol_event e = false) evs -> protocol evs = [].
Proof.
  induction 1 as [|e evs He _ IH]; [done|]. unfold protocol in *. simpl.
  by rewrite He.
Qed.

(** Of the protocol, a call of [request] shows only itself. *)
Lemma request_protocol config k s :
  exists evs,
    trace (request config k s) = trace s ++ evs /\
    protocol evs = [CallRequest config].
Proof.
  unfold request.
  destruct (handleRequest_grows (fun e => is_protocol_event e = false)
              ltac:(by intros []) ltac:(done) (mergeConfig config) 0
              (KRequest (mergeConfig config) k)
              (showLoading (mergeConfig config) (emit (CallRequest config) s)))
    as (evs & -> & F).
  rewrite trace_showLoading. simpl trace. rewrite <- !app_assoc.
  eexists. split; [reflexivity|].
  rewrite !protocol_app, (protocol_none evs F).
  by destruct (truthy _).
Qed.

Lemma run_queue_protocol q : forall s,
  let s' := fold_left (fun s entry => request (fst entry) (snd entry) s) q s in
  (exists evs,
     trace s' = trace s ++ evs /\
     protocol evs = map (fun entry => CallRequest (fst entry)) q) /\
  (exists ps,
     pending s' = ps ++ pending s /\
     map pending_kont ps =
       rev (map (fun entry => KRequest (mergeConfig (fst entry)) (snd entry)) q)) /\
  isRefreshing s' = isRefreshing s /\
  retryQueue s' = retryQueue s /\
  results s' = results s /\
  storage s' = storage s.
Proof.
  induction q as [|[c kq] q IH]; intros s; simpl.
  - split_and!; try done.
    + exists []. by rewrite app_nil_r.
    + by exists [].
  - destruct (IH (request c kq s)) as ((evs & -> & Hp) & (ps & -> & Hk) & -> & -> & -> & ->).
    destruct (request_protocol c kq s) as (evs1 & -> & Hp1).
    destruct (request_launches c kq s) as (p & -> & Hk1 & -> & -> & -> & ->).
    split_and!; try done.
    + exists (evs1 ++ evs). rewrite app_assoc. split; [done|].
      by rewrite protocol_app, Hp1, Hp.
    + exists (ps ++ [p]). rewrite <- app_assoc. split; [done|].
      rewrite map_app, Hk. simpl. by rewrite Hk1.
Qed.

(** ** The success path of the refresh *)

Lemma setToken_fields t s :
  token (setToken t s) = t /\
  storage (setToken t s) = Some t /\
  isRefreshing (setToken t s) = isRefreshing s /\
  retryQueue (setToken t s) = retryQueue s /\
  pending (setToken t s) = pending s /\
  results (setToken t s) = results s /\
  trace (setToken t s) = trace s ++ [StoreSetToken t; WxSetStorageSync t].
Proof. unfold setToken. simpl. by rewrite <- app_assoc. Qed.

(** C7, as stated, fails: with caller 8 parked in the queue, the refresh
    succeeds and [isRefreshing] is written before the queue is run, not
    after the queue was reset. *)
Lemma refresh_success_order_counterexample :
  let s := after two_expired (logged_in "T1") in
  let s' := after [SendDone 0 (refreshed "T2")] s in
  run two_expired (logged_in "T1") = Some s /\
  run [SendDone 0 (refreshed "T2")] s = Some s' /\
  map fst (retryQueue s) = [mergeConfig (songs_config Absent)] /\
  protocol (drop (length (trace s)) (trace s')) =
    [SetIsRefreshing false; CallRequest (mergeConfig (songs_config Absent));
     QueueClear; CallRequest (mergeConfig profile_config)] /\
  protocol (drop (length (trace s)) (trace s')) <>
    claimed_success_order (retryQueue s) (mergeConfig profile_config).
Proof.
  split; [by vm_compute|]. split; [by vm_compute|].
  split; [by vm_compute|]. split; [by vm_compute|].
  intros H. vm_compute in H. discriminate H.
Qed.

(** C7, amended: when the exchange request of the Refresh Flow is answered
    with code 200 and a token, the steps are, in this order: the token is
    stored, [isRefreshing] is reset to [false], every queued entry is
    resubmitted by a new call of [request], first in first out, the queue is
    reset, and the request that started the refresh is resubmitted by a new
    call of [request]. Each resubmission puts one platform call in flight,
    waited for by the promise that was parked. *)
Theorem refresh_success_order s n opts exchange rc config k res t :
  pending s !! n = Some (PSend opts exchange rc (KRequest exchange (KRefresh config k))) ->
  code res = 200 ->
  data_token res = Some t ->
  exists s',
    step (SendDone n (inr res)) s = Some s' /\
    (exists evs,
       trace s' = trace s ++ evs /\
       protocol evs = success_order (retryQueue s) config) /\
    (exists ps,
       pending s' = ps ++ delete n (pending s) /\
       map pending_kont ps =
         KRequest (mergeConfig config) k
         :: rev (map (fun entry => KRequest (mergeConfig (fst entry)) (snd entry))
                     (retryQueue s))) /\
    isRefreshing s' = false /\
    retryQueue s' = [] /\
    storage s' = Some t /\
    results s' = results s.
Proof.
  intros Hp Hc Ht. unfold step. rewrite Hp. eexists. split; [reflexivity|].
  unfold handleRequest_resume. rewrite Hc. simpl. rewrite Ht.
  set (s0 := hideLoading exchange (set_pending (delete n (pending s)) s)).
  assert (trace s0 = trace s ++ (if truthy (loading exchange) then [WxHideLoading] else [])
          /\ retryQueue s0 = retryQueue s /\ pending s0 = delete n (pending s)
          /\ results s0 = results s) as (Htr0 & Hq0 & Hp0 & Hr0).
  { unfold s0. rewrite trace_hideLoading.
    by destruct (hideLoading_fields exchange (set_pending (delete n (pending s)) s))
      as (_ & _ & _ & -> & -> & ->). }
  clearbody s0.
  set (s1 := set_isRefreshing false (setToken t s0)).
  assert (trace s1 = trace s0 ++ [StoreSetToken t; WxSetStorageSync t; SetIsRefreshing false]
          /\ retryQueue s1 = retryQueue s0 /\ pending s1 = pending s0
          /\ results s1 = results s0 /\ storage s1 = Some t
          /\ isRefreshing s1 = false)
    as (Htr1 & Hq1 & Hp1 & Hr1 & Hst1 & Hrf1).
  { unfold s1, set_isRefreshing, setToken. simpl. by rewrite <- !app_assoc. }
  clearbody s1.
  unfold run_queue.
  destruct (run_queue_protocol (retryQueue s1) s1)
    as ((evs2 & Htr2 & Hpr2) & (ps2 & Hp2 & Hk2) & Hrf2 & Hq2 & Hr2 & Hst2).
  set (s2 := fold_left _ (retryQueue s1) s1) in *. clearbody s2.
  set (s3 := emit QueueClear (set_retryQueue [] s2)).
  destruct (request_protocol config k s3) as (evs4 & Htr4 & Hpr4).
  destruct (request_launches config k s3) as (p & Hp4 & Hk4 & Hrf4 & Hq4 & Hr4 & Hst4).
  split_and!.
  - eexists. rewrite Htr4. unfold s3. simpl trace. rewrite Htr2, Htr1, Htr0.
    rewrite <- !app_assoc. split; [reflexivity|].
    rewrite !protocol_app, Hpr2, Hpr4, Hq1, Hq0.
    by destruct (truthy (loading exchange)).
  - exists (p :: ps2). rewrite Hp4. unfold s3. simpl pending.
    rewrite Hp2, Hp1, Hp0. split; [done|].
    simpl. by rewrite Hk4, Hk2, Hq1, Hq0.
  - rewrite Hrf4. unfold s3. simpl. by rewrite Hrf2.
  - by rewrite Hq4.
  - rewrite Hst4. unfold s3. simpl. by rewrite Hst2.
  - rewrite Hr4. unfold s3. simpl. by rewrite Hr2, Hr1, Hr0.
Qed.

Lemma refresh_success_order_witness :
  exists s',
    step (SendDone 0 (refreshed "T2")) (after two_expired (logged_in "T1")) = Some s' /\
    isRefreshing s' = false /\ retryQueue s' = [] /\ storage s' = Some "T2".
Proof.
  destruct (refresh_success_order (after two_expired (logged_in "T1")) 0
              (wx_options (mergeConfig (refresh_config "T1")) "")
              (mergeConfig (refresh_config "T1")) 0
              (mergeConfig profile_config)
              (KRequest (mergeConfig profile_config) (KCaller 7))
              (mkResponse 200 (TokenData "T2") "ok") "T2")
    as (s' & Hs & _ & _ & Hrf & Hq & Hst & _); [reflexivity..|].
  exists s'. by split_and!.
Defined.

(** ** Failure of the login *)


Lemma login_failed_outcome config rc fc id e s0 :
  login_failure_outcome config rc fc id e (pending s0) s0
    (handleRequest_catch config rc (KRequest fc (KCaller id))
       (fun e => resume (KRequest fc (KCaller id)) (inl e)) e
       (emit (ConsoleError e) s0)).
Proof.
  unfold login_failure_outcome, handleRequest_catch.
  destruct (rc <? retry_bound config).
  - destruct (handleRequest_launches config (rc + 1) (KRequest fc (KCaller id))
                (emit (ConsoleError e) s0))
      as (p & Hp & Hk & Hc & Hrc & _ & _ & Hr & _).
    exists p. by split_and!.
  - simpl. by destruct (hideLoading_fields fc (emit (ConsoleError e) s0))
      as (_ & _ & _ & _ & -> & ->).
Qed.



(** ** Requests without credential *)

(** C4, as stated, fails twice over.  The header object of a request with
    [auth: false] does carry an [Authorization] member, the empty string,
    which even replaces the one the caller brought; and when the reply is
    401 the Refresh Flow runs all the same, reads the token and, on
    success, writes the new one. *)
Lemma unauthenticated_request_counterexample :
  auth (mergeConfig basic_config) = Value false /\
  (exists s1 opts rc k,
     run [Call 7 basic_config] (logged_in "T1") = Some s1 /\
     pending s1 = [PSend opts (mergeConfig basic_config) rc k] /\
     wx_header opts !! "Authorization" = Some "") /\
  (exists s2,
     run [Call 7 basic_config; SendDone 0 expired; SendDone 0 (refreshed "T2")]
         (logged_in "T1") = Some s2 /\
     token s2 = "T2" /\ storage s2 = Some "T2" /\
     count_events is_store_access (trace s2) = 3%nat).
Proof.
  split; [reflexivity|]. split.
  - do 4 eexists. split; [reflexivity|]. split; [reflexivity|].
    apply wx_options_authorization.
  - eexists. split; [vm_compute; reflexivity|]. by split_and!.
Qed.

Lemma is_failure_attempt_error o : is_failure o = true <-> is_Some (attempt_error o).
Proof.
  destruct o as [e|r]; simpl; [by split; eauto|].
  destruct (code r =? 200), (code r =? 401); simpl; split; try done;
    by intros [? [=]].
Qed.

Lemma count_refresh_getToken s :
  count_events is_refresh_call (trace (snd (getToken s)))
  = count_events is_refresh_call (trace s).
Proof.
  unfold getToken. destruct (truthy_string _); simpl;
    rewrite !count_events_app; unfold count_events; simpl; lia.
Qed.

Lemma count_store_getToken s :
  (count_events is_store_access (trace s)
   < count_events is_store_access (trace (snd (getToken s))))%nat.
Proof.
  unfold getToken. destruct (truthy_string _); simpl;
    rewrite !count_events_app; unfold count_events; simpl; lia.
Qed.

(** A reply 401 while no refresh runs, to whichever call in flight:
    [isRefreshing] is set, one refresh is started, the token is read as
    [oldToken] and the exchange request is in flight. *)
Lemma expired_starts_refresh_at s n opts config rc k x :
  isRefreshing s = false ->
  pending s !! n = Some (PSend opts config rc k) ->
  code x = 401 ->
  let exchange := mergeConfig (refresh_config (current_token s)) in
  exists s1,
    step (SendDone n (inr x)) s = Some s1 /\
    pending s1 =
      PSend (wx_options exchange "") exchange 0 (KRequest exchange (KRefresh config k))
      :: delete n (pending s) /\
    isRefreshing s1 = true /\
    retryQueue s1 = retryQueue s /\
    results s1 = results s /\
    current_token s1 = current_token s /\ storage s1 = storage s /\
    count_events is_refresh_call (trace s1)
      = S (count_events is_refresh_call (trace s)) /\
    (count_events is_store_access (trace s)
     < count_events is_store_access (trace s1))%nat.
Proof.
  intros Hrf Hp Hx exchange. unfold step. rewrite Hp.
  unfold handleRequest_resume. rewrite Hx. simpl.
  unfold handleTokenExpired. simpl. rewrite Hrf.
  unfold refreshToken.
  set (sa := emit CallRefreshToken _).
  assert (fst (getToken sa) = current_token s) as Ht.
  { unfold getToken, current_token, sa. simpl. by destruct (truthy_string (token s)). }
  assert (current_token (snd (getToken sa)) = current_token s
          /\ storage (snd (getToken sa)) = storage s) as [Hc Hs].
  { unfold getToken, current_token, sa. simpl.
    destruct (truthy_string (token s)) eqn:E; simpl; [by rewrite E|].
    by destruct (truthy_string (default "" (storage s))). }
  pose proof (getToken_fields sa) as F.
  pose proof (count_refresh_getToken sa) as C.
  pose proof (count_store_getToken sa) as C'.
  destruct (getToken sa) as [t sg]. simpl in F, C, C', Ht, Hc, Hs. subst t.
  destruct F as (Hrf' & Hq' & Hp' & Hr' & _).
  rewrite request_ready by by left.
  eexists. split; [reflexivity|].
  unfold attempt_events, authorization. simpl.
  split_and!; rewrite ?Hp', ?Hq', ?Hr'; try done.
  - rewrite !count_events_app, C. unfold sa. simpl.
    rewrite !count_events_app. unfold count_events. simpl. lia.
  - rewrite !count_events_app in *. lia.
Qed.

Section Unauthenticated.
Variables (fc : RequestConfig) (id : nat).
Hypothesis no_auth : truthy (auth fc) = false.

Lemma unauthenticated_attempt rc s :
  handleRequest fc rc (KRequest fc (KCaller id)) s =
    add_pending (PSend (wx_options fc "") fc rc (KRequest fc (KCaller id)))
                (emit (WxRequest (wx_options fc "")) s).
Proof.
  rewrite handleRequest_ready by by left.
  unfold attempt_events, authorization. by rewrite no_auth.
Qed.

Lemma unauthenticated_send : unauthenticated_event (WxRequest (wx_options fc "")).
Proof. split; [done|]. apply wx_options_authorization. Qed.

Lemma unauthenticated_settle o s :
  let s' := resume (KRequest fc (KCaller id)) o s in
  pending s' = pending s /\ token s' = token s /\ storage s' = storage s /\
  grows unauthenticated_event s s'.
Proof.
  simpl. unfold hideLoading.
  destruct (truthy (loading fc)); simpl; split_and!; try done.
  - exists [WxHideLoading]. split; [done|]. by repeat constructor.
  - by apply grows_same.
Qed.

(** One reply, whatever else is in flight and wherever the call stands
    among the calls in flight. *)
Lemma unauthenticated_reply s n opts rc o :
  pending s !! n = Some (PSend opts fc rc (KRequest fc (KCaller id))) ->
  is_expired_reply o = false ->
  exists s',
    step (SendDone n o) s = Some s' /\
    token s' = token s /\ storage s' = storage s /\
    grows unauthenticated_event s s' /\
    pending s' =
      (if retried fc rc o
       then [PSend (wx_options fc "") fc (rc + 1) (KRequest fc (KCaller id))]
       else [])
      ++ delete n (pending s).
Proof.
  intros Hp Ho. unfold step. rewrite Hp. eexists. split; [reflexivity|].
  set (s0 := set_pending (delete n (pending s)) s).
  assert (forall o',
            let s' := resume (KRequest fc (KCaller id)) o' s0 in
            token s' = token s /\ storage s' = storage s /\
            grows unauthenticated_event s s' /\
            pending s' = [] ++ delete n (pending s)) as Hdone.
  { intros o'. destruct (unauthenticated_settle o' s0) as (H1 & H2 & H3 & H4).
    by split_and!. }
  assert (forall e,
            let s' := handleRequest_catch fc rc (KRequest fc (KCaller id))
                        (fun e => resume (KRequest fc (KCaller id)) (inl e)) e s0 in
            token s' = token s /\ storage s' = storage s /\
            grows unauthenticated_event s s' /\
            pending s' =
              (if rc <? retry_bound fc
               then [PSend (wx_options fc "") fc (rc + 1) (KRequest fc (KCaller id))]
               else [])
              ++ delete n (pending s)) as Hcatch.
  { intros e. unfold handleRequest_catch.
    destruct (rc <? retry_bound fc); [|apply Hdone].
    rewrite unauthenticated_attempt. split_and!; try done.
    exists [WxRequest (wx_options fc "")]. split; [done|].
    repeat constructor; apply unauthenticated_send. }
  unfold handleRequest_resume, retried. destruct o as [e|res]; [apply Hcatch|].
  simpl in *. rewrite Ho.
  destruct (code res =? 200); [apply Hdone | apply Hcatch].
Qed.

Lemma unauthenticated_history os : forall s opts rc,
  pending s !! 0%nat = Some (PSend opts fc rc (KRequest fc (KCaller id))) ->
  call_history fc rc os = true ->
  exists s',
    run (map (SendDone 0) os) s = Some s' /\
    token s' = token s /\ storage s' = storage s /\
    grows unauthenticated_event s s'.
Proof.
  induction os as [|o os IH]; intros s opts rc Hp Hh.
  - exists s. split_and!; try done. by apply grows_same.
  - simpl in Hh. apply andb_true_iff in Hh as [Ho Hh].
    apply negb_true_iff in Ho.
    destruct (unauthenticated_reply s 0 opts rc o Hp Ho)
      as (s1 & Hstep & Ht & Hs & Hg & Hp1).
    rewrite map_cons, (run_cons _ _ _ _ Hstep).
    destruct os as [|o' os].
    + exists s1. by split_and!.
    + apply andb_true_iff in Hh as [Hr Hh]. rewrite Hr in Hp1.
      destruct (IH s1 (wx_options fc "") (rc + 1)) as (s' & Hrun & Ht' & Hs' & Hg');
        [by rewrite Hp1 | done |].
      exists s'. rewrite Ht', Hs'. split_and!; try done.
      by eapply grows_trans.
Qed.
End Unauthenticated.

(** C4, amended: a caller's request whose merged config has [auth: false]
    and whose replies never have code 401, whatever else is in flight.  The
    call itself, every reply to it and so the whole call, retries
    included, call no method of the store and do not touch storage, the
    token in memory and in storage stay what they were, and every
    [wx.request] carries the empty string as [Authorization] (no
    credential).  A reply of code 401 that comes while no refresh is in
    progress starts the Refresh Flow as for any request, and that reads
    the store. *)
Theorem unauthenticated_request_leaves_store config id :
  truthy (auth (mergeConfig config)) = false ->
  let fc := mergeConfig config in
  let k := KRequest fc (KCaller id) in
  (forall s,
     exists s',
       step (Call id config) s = Some s' /\
       pending s' = PSend (wx_options fc "") fc 0 k :: pending s /\
       token s' = token s /\ storage s' = storage s /\
       grows unauthenticated_event s s') /\
  (forall s n opts rc o,
     pending s !! n = Some (PSend opts fc rc k) ->
     is_expired_reply o = false ->
     exists s',
       step (SendDone n o) s = Some s' /\
       token s' = token s /\ storage s' = storage s /\
       grows unauthenticated_event s s' /\
       pending s' =
         (if retried fc rc o then [PSend (wx_options fc "") fc (rc + 1) k] else [])
         ++ delete n (pending s)) /\
  (forall s os,
     call_history fc 0 os = true ->
     exists s',
       run (Call id config :: map (SendDone 0) os) s = Some s' /\
       token s' = token s /\ storage s' = storage s /\
       grows unauthenticated_event s s') /\
  (forall s n opts rc x,
     isRefreshing s = false ->
     pending s !! n = Some (PSend opts fc rc k) ->
     code x = 401 ->
     exists s',
       step (SendDone n (inr x)) s = Some s' /\
       isRefreshing s' = true /\
       count_events is_refresh_call (trace s')
         = S (count_events is_refresh_call (trace s)) /\
       (count_events is_store_access (trace s)
        < count_events is_store_access (trace s'))%nat).
Proof.
  intros Hauth fc k.
  assert (forall s,
            exists s',
              step (Call id config) s = Some s' /\
              pending s' = PSend (wx_options fc "") fc 0 k :: pending s /\
              token s' = token s /\ storage s' = storage s /\
              grows unauthenticated_event s s') as Hcall.
  { intros s. eexists. split; [reflexivity|].
    unfold request. fold fc. rewrite unauthenticated_attempt by done.
    destruct (showLoading_fields fc (emit (CallRequest config) s))
      as (Ht & Hs & _ & _ & Hp & _).
    simpl. rewrite Ht, Hs, Hp. split_and!; try done.
    unfold grows. cbn [add_pending set_pending emit trace].
    rewrite trace_showLoading. cbn [emit trace].
    exists ([CallRequest config]
            ++ (if truthy (loading fc) then [WxShowLoading] else [])
            ++ [WxRequest (wx_options fc "")]).
    split; [by rewrite <- !app_assoc|].
    apply Forall_app. split; [by repeat constructor|].
    apply Forall_app. split.
    - destruct (truthy (loading fc)); by repeat constructor.
    - repeat constructor; by apply unauthenticated_send. }
  split_and!.
  - exact Hcall.
  - intros s n opts rc o. by apply unauthenticated_reply.
  - intros s os Hh. destruct (Hcall s) as (s1 & Hstep & Hp & Ht & Hs & Hg).
    destruct (unauthenticated_history fc id Hauth os s1 (wx_options fc "") 0)
      as (s' & Hrun & Ht' & Hs' & Hg'); [by rewrite Hp | done |].
    exists s'. rewrite (run_cons _ _ _ _ Hstep), Ht', Hs'. split_and!; try done.
    by eapply grows_trans.
  - intros s n opts rc x Hrf Hp Hx.
    destruct (expired_starts_refresh_at s n opts fc rc k x Hrf Hp Hx)
      as (s' & Hstep & _ & Hrf' & _ & _ & _ & _ & Hc & Hc').
    by exists s'.
Qed.

Lemma unauthenticated_request_leaves_store_witness :
  (exists s',
     run (Call 7 basic_config
          :: map (SendDone 0) [timeout_error; server_error "busy"; inr songs_reply])
         two_in_flight = Some s' /\
     token s' = token two_in_flight /\ storage s' = storage two_in_flight /\
     grows unauthenticated_event two_in_flight s') /\
  (exists s',
     step (SendDone 1 timeout_error) charts_among_others = Some s' /\
     token s' = token charts_among_others /\
     storage s' = storage charts_among_others /\
     grows unauthenticated_event charts_among_others s' /\
     pending s' =
       (if retried (mergeConfig basic_config) 0 timeout_error
        then [PSend (wx_options (mergeConfig basic_config) "")
                    (mergeConfig basic_config) (0 + 1)
                    (KRequest (mergeConfig basic_config) (KCaller 7))]
        else [])
       ++ delete 1%nat (pending charts_among_others)) /\
  (exists s',
     step (SendDone 1 (inr expired_reply)) charts_among_others = Some s' /\
     isRefreshing s' = true /\
     count_events is_refresh_call (trace s')
       = S (count_events is_refresh_call (trace charts_among_others)) /\
     (count_events is_store_access (trace charts_among_others)
      < count_events is_store_access (trace s'))%nat).
Proof.
  destruct (unauthenticated_request_leaves_store basic_config 7 eq_refl)
    as (_ & H2 & H3 & H4).
  split_and!.
  - apply (H3 two_in_flight [timeout_error; server_error "busy"; inr songs_reply]).
    reflexivity.
  - apply (H2 charts_among_others 1%nat (wx_options (mergeConfig basic_config) "") 0
              timeout_error); [vm_compute; reflexivity | reflexivity].
  - apply (H4 charts_among_others 1%nat (wx_options (mergeConfig basic_config) "") 0
              expired_reply); [reflexivity | vm_compute; reflexivity | reflexivity].
Defined.

(** ** At most one refresh *)

Lemma sum_list_with_rev {A} (f : A -> nat) (l : list A) :
  sum_list_with f (rev l) = sum_list_with f l.
Proof.
  induction l as [|a l IH]; simpl; [done|].
  rewrite sum_list_with_app, IH. simpl. lia.
Qed.

Lemma sum_list_with_map {A B} (f : B -> nat) (g : A -> B) (l : list A) :
  sum_list_with f (map g l) = sum_list_with (fun a => f (g a)) l.
Proof. induction l as [|a l IH]; simpl; [done|]. by rewrite IH. Qed.

Lemma sum_list_with_delete {A} (f : A -> nat) (l : list A) n a :
  l !! n = Some a ->
  sum_list_with f l = (f a + sum_list_with f (delete n l))%nat.
Proof.
  revert n. induction l as [|b l IH]; intros [|n]; simpl; try done.
  - by intros [= ->].
  - intros H. rewrite (IH n H). lia.
Qed.

Lemma launched_single_flight k s s' :
  launched k s s' -> single_flight_with k s -> single_flight s'.
Proof.
  intros (p & Hp & Hk & Hrf & Hq) [H1 H2].
  unfold single_flight, refreshes_in_flight. rewrite Hp, Hrf, Hq. simpl.
  rewrite Hk. split; [|done]. unfold refreshes_in_flight in H1. lia.
Qed.

Lemma handleRequest_launched config rc k s :
  launched k s (handleRequest config rc k s).
Proof.
  destruct (handleRequest_launches config rc k s)
    as (p & Hp & Hk & _ & _ & Hrf & Hq & _).
  by exists p.
Qed.

Lemma request_launched config k s :
  launched (KRequest (mergeConfig config) k) s (request config k s).
Proof.
  destruct (request_launches config k s) as (p & Hp & Hk & Hrf & Hq & _).
  by exists p.
Qed.

Lemma wxRequest_launched config rc k s :
  launched k s (wxRequest config rc k s).
Proof.
  unfold launched, wxRequest. destruct (truthy (auth config)).
  - pose proof (getToken_fields s) as F.
    destruct (getToken s) as [t s1]. simpl in F.
    destruct F as (<- & <- & <- & _). eexists. by split_and!.
  - eexists. by split_and!.
Qed.

Lemma single_flight_with_same k s s' :
  isRefreshing s' = isRefreshing s -> retryQueue s' = retryQueue s ->
  pending s' = pending s ->
  single_flight_with k s -> single_flight_with k s'.
Proof.
  unfold single_flight_with, refreshes_in_flight. by intros -> -> ->.
Qed.

Lemma handleTokenExpired_single_flight config k s :
  single_flight_with k s -> single_flight (handleTokenExpired config k s).
Proof.
  intros [H1 H2]. unfold handleTokenExpired.
  destruct (isRefreshing s) eqn:Hrf.
  - unfold single_flight, refreshes_in_flight in *. simpl. rewrite Hrf.
    split; [|done]. rewrite sum_list_with_app. simpl. lia.
  - unfold refreshToken.
    pose proof (getToken_fields (emit CallRefreshToken (set_isRefreshing true s))) as F.
    destruct (getToken _) as [t s1]. simpl in F.
    destruct F as (Hrf1 & Hq1 & Hp1 & _).
    apply (launched_single_flight _ _ _ (request_launched _ _ s1)).
    unfold single_flight_with, refreshes_in_flight in *.
    rewrite Hrf1, Hq1, Hp1. simpl. split; [lia|done].
Qed.

Lemma run_queue_single_flight s :
  let s' := emit QueueClear (set_retryQueue [] (run_queue s)) in
  refreshes_in_flight s' = refreshes_in_flight s /\
  isRefreshing s' = isRefreshing s /\
  retryQueue s' = [].
Proof.
  unfold run_queue.
  destruct (run_queue_protocol (retryQueue s) s)
    as (_ & (ps & Hp & Hk) & Hrf & Hq & _).
  simpl in *. unfold refreshes_in_flight. simpl. rewrite Hp, Hrf.
  split; [|done]. rewrite sum_list_with_app.
  rewrite <- (sum_list_with_map refreshes_in pending_kont ps), Hk.
  rewrite sum_list_with_rev, sum_list_with_map. simpl. lia.
Qed.

Lemma handleRequest_catch_single_flight config rc k throw_k e s :
  (forall e s, single_flight_with k s -> single_flight (throw_k e s)) ->
  single_flight_with k s ->
  single_flight (handleRequest_catch config rc k throw_k e s).
Proof.
  intros Ht H. unfold handleRequest_catch. destruct (_ <? _); [|by apply Ht].
  by apply (launched_single_flight _ _ _ (handleRequest_launched _ _ _ _)).
Qed.

Lemma resume_single_flight k : forall o s,
  single_flight_with k s -> single_flight (resume k o s).
Proof.
  induction k as [id | fc k IH | config rc k IH | config k IH]; intros o s H.
  - simpl. exact H.
  - simpl. apply IH.
    destruct (hideLoading_fields fc s) as (_ & _ & Hrf & Hq & Hp & _).
    by apply (single_flight_with_same k s).
  - simpl. change (single_flight_with k s) in H.
    assert (forall e s, single_flight_with k s -> single_flight
         (handleRequest_catch config rc k (fun e => resume k (inl e)) e
            (emit (ConsoleError e) s))) as Hf.
    { intros e s' H'. apply handleRequest_catch_single_flight.
      - intros; by apply IH.
      - exact H'. }
    destruct o as [e|res]; [by apply Hf|].
    destruct (data_token res); [|by apply Hf].
    apply (launched_single_flight _ _ _ (wxRequest_launched _ _ _ _)).
    revert H. by apply single_flight_with_same.
  - destruct H as [H1 H2]. simpl in H1.
    assert (isRefreshing s = true /\ refreshes_in k = 0%nat
            /\ refreshes_in_flight s = 0%nat) as (Hrf & Hk & Hfl).
    { destruct (isRefreshing s); [split; [done|lia] | lia]. }
    simpl.
    assert (forall e, single_flight
         (resume k (inl e)
            (emit QueueClear
               (set_retryQueue [] (set_isRefreshing false (clearToken s)))))) as Hf.
    { intros e. apply IH. split; [|done].
      unfold refreshes_in_flight in *. simpl. lia. }
    destruct o as [e|res]; [by apply Hf|].
    destruct (data_token res) as [t|]; [|by apply Hf].
    destruct (run_queue_single_flight (set_isRefreshing false (setToken t s)))
      as (Hfl' & Hrf' & Hq').
    apply (launched_single_flight _ _ _ (request_launched _ _ _)).
    split; [|done]. simpl refreshes_in.
    rewrite Hfl', Hrf'. simpl. unfold refreshes_in_flight in *. simpl. lia.
Qed.

Lemma step_single_flight i s s' :
  step i s = Some s' -> single_flight s -> single_flight s'.
Proof.
  intros Hs [H1 H2].
  assert (forall n p, pending s !! n = Some p ->
            single_flight_with (pending_kont p)
                               (set_pending (delete n (pending s)) s)) as Hdel.
  { intros n p Hp. split; [|done]. unfold refreshes_in_flight in *. simpl.
    rewrite (sum_list_with_delete _ _ _ _ Hp) in H1. lia. }
  destruct i as [id config | n o | n o]; simpl in Hs.
  - injection Hs as <-.
    apply (launched_single_flight _ _ _ (request_launched _ _ _)).
    by split.
  - destruct (pending s !! n) as [[config rc k | opts config rc k]|] eqn:Hp;
      try done.
    injection Hs as <-. specialize (Hdel _ _ Hp). simpl in Hdel.
    destruct o as [e|c]; simpl.
    + apply handleRequest_catch_single_flight.
      * intros; by apply resume_single_flight.
      * revert Hdel. by apply single_flight_with_same.
    + apply (launched_single_flight _ _ _ (request_launched _ _ _)).
      exact Hdel.
  - destruct (pending s !! n) as [[config rc k | opts config rc k]|] eqn:Hp;
      try done.
    injection Hs as <-. specialize (Hdel _ _ Hp). simpl in Hdel.
    unfold handleRequest_resume. destruct o as [e|res].
    + apply handleRequest_catch_single_flight; [|done].
      intros; by apply resume_single_flight.
    + destruct (_ =? 200); [by apply resume_single_flight|].
      destruct (_ =? 401); [by apply handleTokenExpired_single_flight|].
      apply handleRequest_catch_single_flight; [|done].
      intros; by apply resume_single_flight.
Qed.

Lemma reachable_single_flight s : reachable s -> single_flight s.
Proof.
  induction 1 as [stored | i s s' _ IH Hs]; [by split|].
  by apply (step_single_flight i s s').
Qed.

(** ** Sending parked requests again *)

Lemma count_refresh_attempt config s :
  count_events is_refresh_call (attempt_events config s) = 0%nat.
Proof. unfold attempt_events. by destruct (truthy _). Qed.

(** With a token in memory, a call of [request] sends at once, with that
    token. *)
Lemma request_resends config k s :
  token s ≠ "" ->
  let s' := request config k s in
  pending s' = resend (token s) (config, k) :: pending s /\
  token s' = token s /\ storage s' = storage s /\
  isRefreshing s' = isRefreshing s /\ retryQueue s' = retryQueue s /\
  results s' = results s /\
  count_events is_refresh_call (trace s') = count_events is_refresh_call (trace s).
Proof.
  intros Ht. simpl. rewrite request_ready by by right.
  set (fc := mergeConfig config).
  destruct (emit_all_fields (attempt_events fc s)
              (showLoading fc (emit (CallRequest config) s)))
    as (Ht1 & Hs1 & Hrf1 & Hq1 & Hp1 & Hr1).
  destruct (showLoading_fields fc (emit (CallRequest config) s))
    as (Ht2 & Hs2 & Hrf2 & Hq2 & Hp2 & Hr2).
  unfold add_pending, set_pending. cbn [pending token storage isRefreshing retryQueue results trace].
  rewrite Ht1, Hs1, Hrf1, Hq1, Hp1, Hr1, Ht2, Hs2, Hrf2, Hq2, Hp2, Hr2.
  split_and!; try done.
  rewrite trace_emit_all, trace_showLoading. simpl trace.
  rewrite !count_events_app, count_refresh_attempt.
  destruct (truthy _); unfold count_events; simpl; lia.
Qed.

Lemma run_queue_resends q : forall s,
  token s ≠ "" ->
  let s' := fold_left (fun s entry => request (fst entry) (snd entry) s) q s in
  pending s' = rev (map (resend (token s)) q) ++ pending s /\
  token s' = token s /\ storage s' = storage s /\
  isRefreshing s' = isRefreshing s /\ retryQueue s' = retryQueue s /\
  results s' = results s /\
  count_events is_refresh_call (trace s') = count_events is_refresh_call (trace s).
Proof.
  induction q as [|[c kq] q IH]; intros s Ht; simpl; [done|].
  destruct (request_resends c kq s Ht) as (Hp1 & Ht1 & Hs1 & Hrf1 & Hq1 & Hr1 & Hc1).
  destruct (IH (request c kq s)) as (Hp & Ht' & Hs & Hrf & Hq & Hr & Hc).
  { by rewrite Ht1. }
  simpl in *. rewrite Hp, Ht', Hs, Hrf, Hq, Hr, Hc, Hp1, Ht1, Hs1, Hrf1, Hq1, Hr1, Hc1.
  split_and!; try done. by rewrite <- app_assoc.
Qed.

(** * Further properties of the code *)

(** ** The store: set, get, clear *)

(** X1: what [setToken] stores is what [getToken] returns next, for every
    token and from every state, and it is in storage too; the read leaves
    memory and storage as they are, and touches storage only when the
    token is the empty string. *)
Theorem setToken_getToken_roundtrip t s :
  let s1 := setToken t s in
  let s2 := snd (getToken s1) in
  fst (getToken s1) = t /\
  token s1 = t /\ storage s1 = Some t /\
  token s2 = t /\ storage s2 = Some t /\
  trace s1 = trace s ++ [StoreSetToken t; WxSetStorageSync t] /\
  count_events is_storage_read (trace s2) =
    (count_events is_storage_read (trace s1)
     + (if truthy_string t then 0 else 1))%nat.
Proof.
  unfold getToken, setToken, wx_getStorageSync. simpl.
  destruct (truthy_string t) eqn:E; simpl;
    rewrite <- ?app_assoc, ?count_events_app; simpl.
  - by split_and!.
  - apply truthy_string_false in E. subst t.
    split_and!; try done. unfold count_events. simpl. lia.
Qed.

(** X2: [clearToken] leaves nothing in memory and removes the key from
    storage, whatever was there; the next [getToken] returns the empty
    string, and the next request that asks for a credential starts with
    [wx.login()] and sends nothing yet. *)
Theorem clearToken_forces_login config k s :
  truthy (auth (mergeConfig config)) = true ->
  let s1 := clearToken s in
  let s2 := request config k s1 in
  token s1 = "" /\ storage s1 = None /\
  fst (getToken s1) = "" /\
  pending s2 =
    PLogin (mergeConfig config) 0 (KRequest (mergeConfig config) k) :: pending s /\
  count_events is_send (trace s2) = count_events is_send (trace s) /\
  count_events is_wx_login (trace s2) = S (count_events is_wx_login (trace s)).
Proof.
  intros Hauth. simpl. split_and!; try done.
  - unfold request, handleRequest. rewrite Hauth.
    unfold showLoading. by destruct (truthy (loading (mergeConfig config))).
  - unfold request, handleRequest. rewrite Hauth.
    unfold showLoading. destruct (truthy (loading (mergeConfig config)));
      simpl; rewrite !count_events_app; unfold count_events; simpl; lia.
  - unfold request, handleRequest. rewrite Hauth.
    unfold showLoading. destruct (truthy (loading (mergeConfig config)));
      simpl; rewrite !count_events_app; unfold count_events; simpl; lia.
Qed.

Lemma clearToken_forces_login_witness :
  pending (request profile_config (KCaller 7) (clearToken (logged_in "T1"))) =
    [PLogin (mergeConfig profile_config) 0
            (KRequest (mergeConfig profile_config) (KCaller 7))].
Proof.
  destruct (clearToken_forces_login profile_config (KCaller 7) (logged_in "T1"))
    as (_ & _ & _ & H & _); [reflexivity | exact H].
Defined.

(** ** Merging the config *)

(** X6: merging a merged config changes nothing, so a request resubmitted
    with its final config runs with the same flags; the caller's [url],
    [method], [data] and [header] pass through; a property the caller left
    out takes its default and one the caller wrote is kept, also when it
    was written as [undefined]; so a credential is left out exactly when
    the caller wrote [auth: false] or [auth: undefined], the loading hint
    is shown exactly when the caller wrote [loading: true], and the retry
    bound of line 138 is the same before and after the merge and is never
    0. *)
Theorem mergeConfig_idempotent config :
  mergeConfig (mergeConfig config) = mergeConfig config /\
  url (mergeConfig config) = url config /\
  method (mergeConfig config) = method config /\
  data (mergeConfig config) = data config /\
  header (mergeConfig config) = header config /\
  loading (mergeConfig config)
    = match loading config with Absent => Value false | written => written end /\
  auth (mergeConfig config)
    = match auth config with Absent => Value true | written => written end /\
  retry (mergeConfig config)
    = match retry config with Absent => Value MAX_RETRY_COUNT | written => written end /\
  (truthy (auth (mergeConfig config)) = false
   <-> auth config = Value false \/ auth config = Undefined) /\
  (truthy (loading (mergeConfig config)) = true <-> loading config = Value true) /\
  retry_bound (mergeConfig config) = retry_bound config /\
  retry_bound config ≠ 0.
Proof.
  destruct config as [u m d h l a r]. unfold mergeConfig, retry_bound. simpl.
  split_and!; try done.
  - by destruct l, a, r.
  - destruct a as [| |[]]; simpl; split; try done; try (by auto);
      intros [?|?]; congruence.
  - destruct l as [| |[]]; simpl; split; congruence.
  - by destruct r.
  - destruct r as [| |n]; try done. destruct (Z.eqb_spec n 0); [done|lia].
Qed.

(** ** The retry bound *)

(** X7: a caller's request that needs no login and whose attempts all fail
    is sent [1 + max 0 bound] times, where [bound] is [config.retry ||
    3]: a negative [retry] gives one attempt and no retry, [retry: n] with
    [n > 0] gives [n + 1] attempts, no [retry] gives four.  The caller then
    gets the error of the last attempt and nothing stays in flight. *)
Theorem attempts_follow_retry_bound config id s os o e :
  ready (mergeConfig config) s ->
  Forall (fun o => is_Some (attempt_error o)) os ->
  attempt_error o = Some e ->
  length os = Z.to_nat (retry_bound config) ->
  exists s',
    run (Call id config :: map (SendDone 0) (os ++ [o])) s = Some s' /\
    results s' = (id, inl e) :: results s /\
    pending s' = pending s /\
    count_events is_send (trace s') =
      (count_events is_send (trace s) + S (Z.to_nat (retry_bound config)))%nat /\
    token s' = token s /\ storage s' = storage s.
Proof.
  intros Hr Hos Ho Hlen.
  assert (retry_bound (mergeConfig config) = retry_bound config) as Hb.
  { by destruct config as [u m d h l a [| |n]]. }
  assert (Z.of_nat (length os) = Z.max 0 (retry_bound (mergeConfig config))) as Hlen'.
  { rewrite Hb, Hlen. lia. }
  exists (settle id (inl e)
            (hideLoading (mergeConfig config)
               (emit_all
                  (concat (replicate (S (length os))
                             (attempt_events (mergeConfig config) s)))
                  (showLoading (mergeConfig config)
                     (emit (CallRequest config) s))))).
  split; [by apply request_always_failing|].
  set (s3 := emit_all _ _).
  destruct (hideLoading_fields (mergeConfig config) s3) as (Ht3 & Hs3 & _ & _ & Hp3 & Hr3).
  destruct (emit_all_fields
              (concat (replicate (S (length os))
                         (attempt_events (mergeConfig config) s)))
              (showLoading (mergeConfig config) (emit (CallRequest config) s)))
    as (Ht2 & Hs2 & _ & _ & Hp2 & Hr2).
  destruct (showLoading_fields (mergeConfig config) (emit (CallRequest config) s))
    as (Ht1 & Hs1 & _ & _ & Hp1 & Hr1).
  unfold settle. cbn [results pending trace token storage].
  rewrite Hr3, Hp3, Ht3, Hs3. unfold s3.
  rewrite Hr2, Hp2, Ht2, Hs2, Hr1, Hp1, Ht1, Hs1.
  split_and!; try done.
  rewrite trace_hideLoading, trace_emit_all, trace_showLoading. simpl trace.
  rewrite !count_events_app, count_attempts, count_attempt_events, <- Hlen.
  destruct (truthy _); unfold count_events; simpl; lia.
Qed.

Lemma attempts_follow_retry_bound_witness :
  exists s',
    run (Call 7 (songs_config (Value (-1))) :: map (SendDone 0) ([] ++ [timeout_error]))
        (logged_in "T1") = Some s' /\
    results s' = (7%nat, inl (WxFail "request:fail timeout")) :: results (logged_in "T1") /\
    pending s' = pending (logged_in "T1") /\
    count_events is_send (trace s') =
      (count_events is_send (trace (logged_in "T1"))
       + S (Z.to_nat (retry_bound (songs_config (Value (-1)%Z)))))%nat /\
    token s' = token (logged_in "T1") /\ storage s' = storage (logged_in "T1").
Proof.
  apply (attempts_follow_retry_bound (songs_config (Value (-1))) 7 (logged_in "T1")
           [] timeout_error (WxFail "request:fail timeout")).
  - right. simpl. discriminate.
  - constructor.
  - reflexivity.
  - reflexivity.
Defined.

(** ** The exchange request of the refresh *)

(** X9: the first reply 401 while no refresh runs sends the exchange
    request of lines 78-85: a POST to [BASE_URL + '/auth/refresh'] whose
    payload is the token [getToken()] returns at that moment, with the
    empty string as [Authorization], in its first attempt and with the
    default bound of three retries; the store is read, not written. *)
Theorem refresh_exchange_request s0 opts config rc k rest x :
  isRefreshing s0 = false ->
  pending s0 = PSend opts config rc k :: rest ->
  code x = 401 ->
  let exchange := mergeConfig (refresh_config (current_token s0)) in
  exists s1,
    step (SendDone 0 (inr x)) s0 = Some s1 /\
    pending s1 =
      PSend (wx_options exchange "") exchange 0
            (KRequest exchange (KRefresh config k)) :: rest /\
    wx_url (wx_options exchange "") = BASE_URL +:+ "/auth/refresh" /\
    wx_method (wx_options exchange "") = Some "POST" /\
    wx_data (wx_options exchange "") = OldToken (current_token s0) /\
    wx_header (wx_options exchange "") !! "Authorization" = Some "" /\
    retry_bound exchange = 3 /\
    token s1 = current_token s0 /\ storage s1 = storage s0 /\
    isRefreshing s1 = true.
Proof.
  intros Hrf Hp Hx exchange. unfold step. rewrite Hp. simpl.
  unfold handleRequest_resume. rewrite Hx. simpl.
  unfold handleTokenExpired. simpl. rewrite Hrf.
  unfold refreshToken, getToken, wx_getStorageSync. simpl.
  unfold exchange, current_token.
  destruct (truthy_string (token s0)); simpl;
    (eexists; split; [reflexivity|]; simpl; split_and!; try done;
     apply wx_options_authorization).
Qed.

Lemma refresh_exchange_request_witness :
  exists s1,
    step (SendDone 0 expired) (request profile_config (KCaller 7) (logged_in "T1"))
      = Some s1 /\
    wx_data (wx_options (mergeConfig (refresh_config "T1")) "") = OldToken "T1" /\
    isRefreshing s1 = true.
Proof.
  destruct (refresh_exchange_request
              (request profile_config (KCaller 7) (logged_in "T1"))
              (wx_options (mergeConfig profile_config) "Bearer T1")
              (mergeConfig profile_config) 0
              (KRequest (mergeConfig profile_config) (KCaller 7)) []
              expired_reply)
    as (s1 & Hs & _ & _ & _ & Hd & _ & _ & _ & _ & Hrf);
    [reflexivity | reflexivity | reflexivity |].
  exists s1. split; [exact Hs|]. split; [exact Hd | exact Hrf].
Defined.

(** ** The Login Flow *)

Lemma current_token_empty s :
  current_token s = "" -> token s = "" /\ default "" (storage s) = "".
Proof.
  unfold current_token. destruct (truthy_string (token s)) eqn:E.
  - apply truthy_string_true in E. congruence.
  - apply truthy_string_false in E. done.
Qed.

Lemma getToken_empty s :
  current_token s = "" ->
  getToken s = ("", set_token "" (emit WxGetStorageSync (emit StoreGetToken s))).
Proof.
  intros H. apply current_token_empty in H as [Ht Hs].
  rewrite getToken_load by done. by rewrite Hs.
Qed.

Lemma getToken_after_setToken t s :
  getToken (setToken t s) =
    (t, if truthy_string t then emit StoreGetToken (setToken t s)
        else set_token t (emit WxGetStorageSync (emit StoreGetToken (setToken t s)))).
Proof.
  unfold getToken, wx_getStorageSync. simpl.
  destruct (truthy_string t) eqn:E; [done|].
  apply truthy_string_false in E. by subst t.
Qed.

(** X5: a caller's request that asks for a credential while the store has
    none.  [request] calls [wx.login()] and sends nothing; the code the
    platform returns is posted to [BASE_URL + '/auth/login'] without
    credential; the token of the reply is stored in memory and in storage,
    and only then is the caller's request sent, once, with [Bearer] and
    that token.  [wx.login()] has been called once and the caller has not
    been answered yet. *)
Theorem login_then_send config id s login_code t :
  truthy (auth (mergeConfig config)) = true ->
  current_token s = "" ->
  let fc := mergeConfig config in
  let exchange := mergeConfig (login_config login_code) in
  exists s1 s2 s3,
    step (Call id config) s = Some s1 /\
    pending s1 = PLogin fc 0 (KRequest fc (KCaller id)) :: pending s /\
    count_events is_send (trace s1) = count_events is_send (trace s) /\
    step (LoginDone 0 (inr login_code)) s1 = Some s2 /\
    pending s2 =
      PSend (wx_options exchange "") exchange 0
            (KRequest exchange (KLogin fc 0 (KRequest fc (KCaller id))))
      :: pending s /\
    wx_url (wx_options exchange "") = BASE_URL +:+ "/auth/login" /\
    wx_data (wx_options exchange "") = LoginCode login_code /\
    token s2 = "" /\
    step (SendDone 0 (inr (login_reply t))) s2 = Some s3 /\
    token s3 = t /\ storage s3 = Some t /\
    pending s3 =
      PSend (wx_options fc ("Bearer " +:+ t)) fc 0 (KRequest fc (KCaller id))
      :: pending s /\
    count_events is_wx_login (trace s3) = S (count_events is_wx_login (trace s)) /\
    count_events is_send (trace s3) = (count_events is_send (trace s) + 2)%nat /\
    results s3 = results s.
Proof.
  intros Hauth Hempty fc exchange. subst fc exchange.
  set (fc := mergeConfig config) in *.
  assert (exists sl, sl = showLoading fc (emit (CallRequest config) s)
            /\ current_token sl = "" /\ pending sl = pending s
            /\ results sl = results s
            /\ count_events is_send (trace sl) = count_events is_send (trace s)
            /\ count_events is_wx_login (trace sl)
               = count_events is_wx_login (trace s))
    as (sl & Hsl & Hcur & Hpl & Hrl & Hcs & Hcl).
  { eexists. split; [reflexivity|].
    unfold showLoading, current_token in *.
    destruct (truthy (loading fc)); simpl; rewrite ?count_events_app;
      (split_and!; try done; unfold count_events; simpl; lia). }
  assert (request config (KCaller id) s = login fc 0 (KRequest fc (KCaller id))
            (set_token "" (emit WxGetStorageSync (emit StoreGetToken sl)))) as Hreq.
  { unfold request. fold fc. rewrite <- Hsl. unfold handleRequest.
    rewrite Hauth, (getToken_empty sl Hcur). done. }
  eexists _, _, _.
  split; [simpl; by rewrite Hreq|].
  split; [simpl; by rewrite Hpl|].
  split; [simpl; rewrite !count_events_app, Hcs; unfold count_events; simpl; lia|].
  split; [reflexivity|].
  split; [simpl; by rewrite Hpl|].
  split; [done|]. split; [done|]. split; [done|].
  split; [simpl; reflexivity|].
  simpl. unfold wxRequest at 1 2 3 4 5 6. rewrite Hauth.
  rewrite getToken_after_setToken.
  unfold request, handleRequest, wxRequest, login, hideLoading, showLoading.
  destruct (truthy_string t); simpl;
    rewrite ?Hpl, ?Hrl, ?count_events_app, ?Hcs, ?Hcl;
    (split_and!; try done; unfold count_events; simpl; lia).
Qed.

Lemma login_then_send_witness :
  exists s3,
    run [Call 7 profile_config; LoginDone 0 (inr "c0");
         SendDone 0 (inr (login_reply "T1"))] (init None) = Some s3 /\
    token s3 = "T1" /\ storage s3 = Some "T1" /\
    pending s3 =
      [PSend (wx_options (mergeConfig profile_config) ("Bearer " +:+ "T1"))
             (mergeConfig profile_config) 0
             (KRequest (mergeConfig profile_config) (KCaller 7))] /\
    count_events is_wx_login (trace s3) = 1%nat.
Proof.
  destruct (login_then_send profile_config 7 (init None) "c0" "T1")
    as (s1 & s2 & s3 & H1 & _ & _ & H2 & _ & _ & _ & _ & H3 & Ht & Hs & Hp & Hl & _);
    [reflexivity | reflexivity |].
  exists s3. split.
  - rewrite (run_cons _ _ _ _ H1), (run_cons _ _ _ _ H2), (run_cons _ _ _ _ H3).
    reflexivity.
  - split_and!; [exact Ht | exact Hs | exact Hp | exact Hl].
Defined.

(** ** The [api] object *)

Lemma api_call_sends config id s :
  loading config = Value true -> auth config = Absent ->
  token s ≠ "" ->
  let fc := mergeConfig config in
  let opts := wx_options fc ("Bearer " +:+ token s) in
  let s1 := request config (KCaller id) s in
  pending s1 = PSend opts fc 0 (KRequest fc (KCaller id)) :: pending s /\
  trace s1 =
    trace s ++ [CallRequest config; WxShowLoading; StoreGetToken; StoreGetToken;
                WxRequest opts] /\
  results s1 = results s /\ token s1 = token s /\ storage s1 = storage s /\
  forall reply,
    code reply = 200 ->
    exists s2,
      step (SendDone 0 (inr reply)) s1 = Some s2 /\
      results s2 = (id, inr reply) :: results s /\
      pending s2 = pending s /\
      trace s2 = trace s1 ++ [WxHideLoading].
Proof.
  intros Hl Ha Ht. cbv zeta.
  rewrite request_ready by (by right).
  unfold attempt_events, authorization, showLoading. simpl.
  rewrite Hl, Ha. simpl. rewrite <- !app_assoc. simpl.
  split_and!; try done.
  intros reply Hc. eexists. split; [reflexivity|].
  rewrite Hc. simpl. unfold hideLoading. simpl. rewrite Hl. simpl.
  by rewrite <- !app_assoc.
Qed.

(** X10: [api.updateUser(data)] and [api.getUser()], called while a token
    is in memory: the loading hint is shown, one [wx.request] goes out, a
    POST to [BASE_URL + '/user/update'] carrying [data] unchanged, resp. a
    GET to [BASE_URL + '/user/info'], with [Bearer] and the token, the
    JSON content type and the timeout of 10000; a reply of code 200 is
    handed to the caller as it is and the loading hint is hidden. *)
Theorem api_calls_send_once body id s :
  token s ≠ "" ->
  (let opts := wx_options (mergeConfig (updateUser_config body))
                          ("Bearer " +:+ token s) in
   let s1 := api_updateUser body id s in
   pending s1 =
     PSend opts (mergeConfig (updateUser_config body)) 0
           (KRequest (mergeConfig (updateUser_config body)) (KCaller id))
     :: pending s /\
   wx_url opts = "https://your-api-domain.com/user/update" /\
   wx_method opts = Some "POST" /\ wx_data opts = Body body /\
   wx_timeout opts = 10000 /\
   wx_header opts !! "Authorization" = Some ("Bearer " +:+ token s) /\
   wx_header opts !! "Content-Type" = Some "application/json" /\
   trace s1 =
     trace s ++ [CallRequest (updateUser_config body); WxShowLoading;
                 StoreGetToken; StoreGetToken; WxRequest opts] /\
   forall reply,
     code reply = 200 ->
     exists s2,
       step (SendDone 0 (inr reply)) s1 = Some s2 /\
       results s2 = (id, inr reply) :: results s /\
       pending s2 = pending s /\
       trace s2 = trace s1 ++ [WxHideLoading]) /\
  (let opts := wx_options (mergeConfig getUser_config) ("Bearer " +:+ token s) in
   let s1 := api_getUser id s in
   pending s1 =
     PSend opts (mergeConfig getUser_config) 0
           (KRequest (mergeConfig getUser_config) (KCaller id))
     :: pending s /\
   wx_url opts = "https://your-api-domain.com/user/info" /\
   wx_method opts = Some "GET" /\ wx_data opts = NoData /\
   wx_header opts !! "Authorization" = Some ("Bearer " +:+ token s) /\
   forall reply,
     code reply = 200 ->
     exists s2,
       step (SendDone 0 (inr reply)) s1 = Some s2 /\
       results s2 = (id, inr reply) :: results s /\
       pending s2 = pending s /\
       trace s2 = trace s1 ++ [WxHideLoading]).
Proof.
  intros Ht. split.
  - destruct (api_call_sends (updateUser_config body) id s eq_refl eq_refl Ht)
      as (Hp & Htr & _ & _ & _ & Hok).
    cbv zeta. unfold api_updateUser.
    split_and!; try done; try apply wx_options_authorization.
  - destruct (api_call_sends getUser_config id s eq_refl eq_refl Ht)
      as (Hp & Htr & _ & _ & _ & Hok).
    cbv zeta. unfold api_getUser.
    split_and!; try done; try apply wx_options_authorization.
Qed.

Lemma api_calls_send_once_witness :
  pending (api_updateUser "{name:A}" 7 (logged_in "T1")) =
    [PSend (wx_options (mergeConfig (updateUser_config "{name:A}")) "Bearer T1")
           (mergeConfig (updateUser_config "{name:A}")) 0
           (KRequest (mergeConfig (updateUser_config "{name:A}")) (KCaller 7))].
Proof.
  destruct (api_calls_send_once "{name:A}" 7 (logged_in "T1")) as [(H & _) _].
  - simpl. discriminate.
  - exact H.
Defined.

(** * Invariants of a run *)

(** ** Memory and storage agree *)

Lemma store_consistent_same s s' :
  token s' = token s -> storage s' = storage s ->
  store_consistent s -> store_consistent s'.
Proof. unfold store_consistent. by intros -> ->. Qed.

Lemma getToken_consistent s :
  store_consistent s -> store_consistent (snd (getToken s)).
Proof.
  unfold store_consistent, getToken, wx_getStorageSync. simpl.
  destruct (truthy_string (token s)) eqn:E; simpl; [intros H; exact H|].
  intros _. destruct (storage s); simpl; [by right | by left].
Qed.

Lemma setToken_consistent t s : store_consistent (setToken t s).
Proof. by right. Qed.

Lemma clearToken_consistent s : store_consistent (clearToken s).
Proof. by left. Qed.

Lemma wxRequest_consistent config rc k s :
  store_consistent s -> store_consistent (wxRequest config rc k s).
Proof.
  intros H. unfold wxRequest. destruct (truthy (auth config)); [|exact H].
  apply getToken_consistent in H. by destruct (getToken s).
Qed.

Lemma handleRequest_consistent config rc k s :
  store_consistent s -> store_consistent (handleRequest config rc k s).
Proof.
  intros H. unfold handleRequest.
  destruct (truthy (auth config)); [|by apply wxRequest_consistent].
  apply getToken_consistent in H. destruct (getToken s) as [t s1]. simpl in H.
  destruct (negb _); [exact H | by apply wxRequest_consistent].
Qed.

Lemma request_consistent config k s :
  store_consistent s -> store_consistent (request config k s).
Proof.
  intros H. unfold request. apply handleRequest_consistent.
  unfold showLoading. by destruct (truthy _).
Qed.

Lemma handleTokenExpired_consistent config k s :
  store_consistent s -> store_consistent (handleTokenExpired config k s).
Proof.
  intros H. unfold handleTokenExpired. destruct (isRefreshing s); [exact H|].
  unfold refreshToken.
  assert (store_consistent (emit CallRefreshToken (set_isRefreshing true s))) as H'
    by exact H.
  apply getToken_consistent in H'. destruct (getToken _) as [t s1].
  by apply request_consistent.
Qed.

Lemma run_queue_consistent s :
  store_consistent s -> store_consistent (run_queue s).
Proof.
  unfold run_queue. generalize (retryQueue s). intros q. revert s.
  induction q as [|[c kq] q IH]; intros s H; simpl; [exact H|].
  by apply IH, request_consistent.
Qed.

Lemma handleRequest_catch_consistent config rc k throw_k e s :
  (forall e s, store_consistent s -> store_consistent (throw_k e s)) ->
  store_consistent s ->
  store_consistent (handleRequest_catch config rc k throw_k e s).
Proof.
  intros Ht H. unfold handleRequest_catch.
  destruct (_ <? _); [by apply handleRequest_consistent | by apply Ht].
Qed.

Lemma resume_consistent k : forall o s,
  store_consistent s -> store_consistent (resume k o s).
Proof.
  induction k as [id | fc k IH | config rc k IH | config k IH]; intros o s H; simpl.
  - exact H.
  - apply IH. unfold hideLoading. by destruct (truthy _).
  - assert (forall e s, store_consistent s -> store_consistent
         (handleRequest_catch config rc k (fun e => resume k (inl e)) e
            (emit (ConsoleError e) s))) as Hf.
    { intros e s' H'. apply handleRequest_catch_consistent; [|exact H'].
      intros; by apply IH. }
    destruct o as [e|res]; [by apply Hf|].
    destruct (data_token res); [|by apply Hf].
    apply wxRequest_consistent, setToken_consistent.
  - destruct o as [e|res]; [apply IH; by left|].
    destruct (data_token res); [|apply IH; by left].
    apply request_consistent.
    assert (store_consistent (set_isRefreshing false (setToken s0 s))) as H'
      by by right.
    apply run_queue_consistent in H'. exact H'.
Qed.

Lemma step_consistent i s s' :
  step i s = Some s' -> store_consistent s -> store_consistent s'.
Proof.
  intros Hs H. destruct i as [id config | n o | n o]; simpl in Hs.
  - injection Hs as <-. by apply request_consistent.
  - destruct (pending s !! n) as [[config rc k | opts config rc k]|]; try done.
    injection Hs as <-. destruct o as [e|c]; simpl.
    + apply handleRequest_catch_consistent; [|exact H].
      intros; by apply resume_consistent.
    + by apply request_consistent.
  - destruct (pending s !! n) as [[config rc k | opts config rc k]|]; try done.
    injection Hs as <-. unfold handleRequest_resume. destruct o as [e|res].
    + apply handleRequest_catch_consistent; [|exact H].
      intros; by apply resume_consistent.
    + destruct (_ =? 200); [by apply resume_consistent|].
      destruct (_ =? 401); [by apply handleTokenExpired_consistent|].
      apply handleRequest_catch_consistent; [|exact H].
      intros; by apply resume_consistent.
Qed.

(** X3: in every state of a run, the token in memory is empty or is the
    value stored under the key: memory never holds a token that storage
    does not, whatever logins, refreshes and failures happened. *)
Theorem memory_agrees_with_storage s :
  reachable s -> token s = "" \/ storage s = Some (token s).
Proof.
  induction 1 as [stored | i s s' _ IH Hs]; [by left|].
  by apply (step_consistent i s s').
Qed.

Lemma memory_agrees_with_storage_witness :
  token (request profile_config (KCaller 7) (init (Some "T1"))) = "" \/
  storage (request profile_config (KCaller 7) (init (Some "T1")))
    = Some (token (request profile_config (KCaller 7) (init (Some "T1")))).
Proof.
  apply memory_agrees_with_storage.
  apply (reachable_step (Call 7 profile_config) (init (Some "T1")));
    [apply reachable_init | reflexivity].
Defined.

(** ** Showing and hiding the loading hint *)

Lemma grows_count f P s s' :
  (forall e, P e -> f e = false) ->
  grows P s s' ->
  count_events f (trace s') = count_events f (trace s).
Proof.
  intros HP (evs & -> & F). rewrite count_events_app.
  assert (count_events f evs = 0%nat) as ->; [|lia].
  induction F as [|e evs He _ IH]; [done|].
  unfold count_events in *. simpl. by rewrite (HP e He).
Qed.

Lemma loading_balance_same s s' :
  pending s' = pending s -> retryQueue s' = retryQueue s ->
  count_events is_show (trace s') = count_events is_show (trace s) ->
  count_events is_hide (trace s') = count_events is_hide (trace s) ->
  loading_balance s' = loading_balance s.
Proof.
  unfold loading_balance, loading_in_flight. by intros -> -> -> ->.
Qed.

Lemma loading_balance_launched k s s' :
  launched k s s' ->
  count_events is_show (trace s') = count_events is_show (trace s) ->
  count_events is_hide (trace s') = count_events is_hide (trace s) ->
  loading_balance s' = loading_balance s - Z.of_nat (loading_in k).
Proof.
  intros (p & Hp & Hk & _ & Hq) Hs Hh.
  unfold loading_balance, loading_in_flight. rewrite Hp, Hq, Hs, Hh. simpl.
  rewrite Hk. lia.
Qed.

Lemma no_loading_attempt e :
  is_attempt_event e = true -> is_show e = false /\ is_hide e = false.
Proof. by destruct e. Qed.

Lemma grows_no_loading s s' :
  grows (fun e => is_show e = false /\ is_hide e = false) s s' ->
  count_events is_show (trace s') = count_events is_show (trace s) /\
  count_events is_hide (trace s') = count_events is_hide (trace s).
Proof.
  intros G. split.
  - apply (grows_count is_show _ s s' (fun e H => proj1 H) G).
  - apply (grows_count is_hide _ s s' (fun e H => proj2 H) G).
Qed.

Lemma handleRequest_balance config rc k s :
  loading_balance (handleRequest config rc k s)
  = loading_balance s - Z.of_nat (loading_in k).
Proof.
  pose proof (handleRequest_grows (fun e => is_show e = false /\ is_hide e = false)
                no_loading_attempt ltac:(done) config rc k s) as G.
  apply grows_no_loading in G as [Hs Hh].
  by apply (loading_balance_launched _ _ _ (handleRequest_launched config rc k s)).
Qed.

Lemma wxRequest_balance config rc k s :
  loading_balance (wxRequest config rc k s)
  = loading_balance s - Z.of_nat (loading_in k).
Proof.
  pose proof (wxRequest_grows (fun e => is_show e = false /\ is_hide e = false)
                no_loading_attempt ltac:(done) config rc k s) as G.
  apply grows_no_loading in G as [Hs Hh].
  by apply (loading_balance_launched _ _ _ (wxRequest_launched config rc k s)).
Qed.

Lemma request_balance config k s :
  loading_balance (request config k s)
  = loading_balance s - Z.of_nat (loading_in k).
Proof.
  unfold request. rewrite handleRequest_balance.
  unfold showLoading, loading_balance, loading_in_flight.
  destruct config as [u m d h [| |[]] a r]; simpl;
    rewrite ?count_events_app; unfold count_events; simpl; lia.
Qed.

Lemma getToken_balance s :
  loading_balance (snd (getToken s)) = loading_balance s.
Proof.
  destruct (getToken_fields s) as (_ & Hq & Hp & _).
  pose proof (getToken_grows (fun e => is_show e = false /\ is_hide e = false)
                no_loading_attempt s) as G.
  apply grows_no_loading in G as [Hs Hh].
  by apply loading_balance_same.
Qed.

Lemma setToken_balance t s : loading_balance (setToken t s) = loading_balance s.
Proof.
  apply loading_balance_same; try done;
    simpl; rewrite !count_events_app; unfold count_events; simpl; lia.
Qed.

Lemma handleTokenExpired_balance config k s :
  loading_balance (handleTokenExpired config k s)
  = loading_balance s - Z.of_nat (loading_in k).
Proof.
  unfold handleTokenExpired. destruct (isRefreshing s).
  - unfold loading_balance, loading_in_flight. simpl.
    rewrite sum_list_with_app, !count_events_app. simpl.
    unfold count_events. simpl. lia.
  - unfold refreshToken.
    pose proof (getToken_balance (emit CallRefreshToken (set_isRefreshing true s))) as G.
    destruct (getToken _) as [t s1]. simpl in G.
    rewrite request_balance, G. simpl loading_in.
    unfold loading_balance, loading_in_flight. simpl.
    rewrite !count_events_app. unfold count_events. simpl. lia.
Qed.

Lemma fold_request_balance q : forall s,
  let s' := fold_left (fun s entry => request (fst entry) (snd entry) s) q s in
  loading_balance s'
  = loading_balance s - Z.of_nat (sum_list_with (fun entry => loading_in (snd entry)) q).
Proof.
  induction q as [|[c kq] q IH]; intros s; simpl; [lia|].
  specialize (IH (request c kq s)). simpl in IH.
  rewrite IH, request_balance. lia.
Qed.

Lemma run_queue_balance s :
  loading_balance (emit QueueClear (set_retryQueue [] (run_queue s)))
  = loading_balance s.
Proof.
  pose proof (fold_request_balance (retryQueue s) s) as H. simpl in H.
  destruct (run_queue_protocol (retryQueue s) s) as (_ & _ & _ & Hq & _).
  simpl in Hq. unfold run_queue.
  set (s' := fold_left _ (retryQueue s) s) in *.
  unfold loading_balance, loading_in_flight in *. simpl.
  rewrite Hq in H. rewrite !count_events_app. unfold count_events at 2 4. simpl.
  lia.
Qed.

Lemma handleRequest_catch_balance config rc k throw_k e s :
  (forall e s, loading_balance s - Z.of_nat (loading_in k)
               <= loading_balance (throw_k e s)) ->
  loading_balance s - Z.of_nat (loading_in k)
  <= loading_balance (handleRequest_catch config rc k throw_k e s).
Proof.
  intros Ht. unfold handleRequest_catch. destruct (_ <? _); [|apply Ht].
  rewrite handleRequest_balance. lia.
Qed.

Lemma resume_balance k : forall o s,
  loading_balance s - Z.of_nat (loading_in k) <= loading_balance (resume k o s).
Proof.
  induction k as [id | fc k IH | config rc k IH | config k IH]; intros o s; simpl.
  - unfold loading_balance, loading_in_flight. simpl. lia.
  - specialize (IH o (hideLoading fc s)).
    assert (loading_balance (hideLoading fc s)
            = loading_balance s - (if truthy (loading fc) then 1 else 0)) as E.
    { unfold hideLoading, loading_balance, loading_in_flight.
      destruct (truthy (loading fc)); simpl;
        rewrite ?count_events_app; unfold count_events; simpl; lia. }
    destruct (truthy (loading fc)); lia.
  - assert (forall e s, loading_balance s - Z.of_nat (loading_in k) <=
              loading_balance
                (handleRequest_catch config rc k (fun e => resume k (inl e)) e
                   (emit (ConsoleError e) s))) as Hf.
    { intros e s'.
      pose proof (handleRequest_catch_balance config rc k
                    (fun e => resume k (inl e)) e (emit (ConsoleError e) s')
                    (fun e s => IH (inl e) s)) as H.
      assert (loading_balance (emit (ConsoleError e) s') = loading_balance s') as E.
      { apply loading_balance_same; try done;
          simpl; rewrite count_events_app; unfold count_events; simpl; lia. }
      lia. }
    destruct o as [e|res]; [apply Hf|].
    destruct (data_token res); [|apply Hf].
    rewrite wxRequest_balance, setToken_balance. lia.
  - assert (forall e, loading_balance s - Z.of_nat (loading_in k) <=
              loading_balance
                (resume k (inl e)
                   (emit QueueClear
                      (set_retryQueue [] (set_isRefreshing false (clearToken s))))))
      as Hf.
    { intros e. etrans; [|apply IH].
      unfold loading_balance, loading_in_flight. simpl.
      rewrite !count_events_app. unfold count_events. simpl. lia. }
    destruct o as [e|res]; [apply Hf|].
    destruct (data_token res) as [t|]; [|apply Hf].
    rewrite request_balance, run_queue_balance.
    assert (loading_balance (set_isRefreshing false (setToken t s)) = loading_balance s)
      as ->; [|lia].
    apply loading_balance_same; try done;
      simpl; rewrite !count_events_app; unfold count_events; simpl; lia.
Qed.

Lemma step_balance i s s' :
  step i s = Some s' -> loading_balance s <= loading_balance s'.
Proof.
  intros Hs.
  assert (forall n p, pending s !! n = Some p ->
            loading_balance (set_pending (delete n (pending s)) s)
            = loading_balance s + Z.of_nat (loading_in (pending_kont p))) as Hdel.
  { intros n p Hp. unfold loading_balance, loading_in_flight. simpl.
    rewrite (sum_list_with_delete _ (pending s) n p Hp). lia. }
  destruct i as [id config | n o | n o]; simpl in Hs.
  - injection Hs as <-. rewrite request_balance. simpl. lia.
  - destruct (pending s !! n) as [[config rc k | opts config rc k]|] eqn:Hp;
      try done.
    injection Hs as <-. specialize (Hdel _ _ Hp). simpl in Hdel.
    destruct o as [e|c]; simpl.
    + pose proof (handleRequest_catch_balance config rc k
                    (fun e => resume k (inl e)) e
                    (emit (ConsoleError e) (set_pending (delete n (pending s)) s))
                    (fun e s => resume_balance k (inl e) s)) as H.
      assert (loading_balance (emit (ConsoleError e) (set_pending (delete n (pending s)) s))
              = loading_balance (set_pending (delete n (pending s)) s)) as E.
      { apply loading_balance_same; try done;
          simpl; rewrite count_events_app; unfold count_events; simpl; lia. }
      lia.
    + rewrite request_balance. simpl loading_in. lia.
  - destruct (pending s !! n) as [[config rc k | opts config rc k]|] eqn:Hp;
      try done.
    injection Hs as <-. specialize (Hdel _ _ Hp). simpl in Hdel.
    unfold handleRequest_resume.
    pose proof (fun e => handleRequest_catch_balance config rc k
                  (fun e => resume k (inl e)) e
                  (set_pending (delete n (pending s)) s)
                  (fun e s => resume_balance k (inl e) s)) as Hc.
    destruct o as [e|res].
    + specialize (Hc e). lia.
    + destruct (_ =? 200).
      * pose proof (resume_balance k (inr res) (set_pending (delete n (pending s)) s)).
        lia.
      * destruct (_ =? 401); [rewrite handleTokenExpired_balance; lia|].
        specialize (Hc (JsError (error_message res))). lia.
Qed.

Lemma reachable_balance s : reachable s -> 0 <= loading_balance s.
Proof.
  induction 1 as [stored | i s s' _ IH Hstep]; [done|].
  pose proof (step_balance i s s' Hstep). lia.
Qed.

Lemma run_balance inputs : forall s s',
  run inputs s = Some s' -> loading_balance s <= loading_balance s'.
Proof.
  induction inputs as [|i inputs IH]; intros s s'; simpl.
  - intros [= ->]. lia.
  - destruct (step i s) as [s1|] eqn:Hs; [|done].
    intros H. apply IH in H. pose proof (step_balance i s s1 Hs). lia.
Qed.

Lemma reachable_run inputs : forall s s',
  reachable s -> run inputs s = Some s' -> reachable s'.
Proof.
  induction inputs as [|i inputs IH]; intros s s' Hs; simpl.
  - by intros [= <-].
  - destruct (step i s) as [s1|] eqn:E; [|done].
    apply IH. by apply (reachable_step i s s1).
Qed.

(** X4: in every state of a run, the calls of [wx.hideLoading()] and the
    activations of [request] that showed the hint and are still suspended
    (waiting for a platform call, or parked in the queue) are together at
    most the calls of [wx.showLoading()]: no [request] hides more often
    than it showed, and none hides before it ends.  The hint is one
    overlay for all of them, though: of two requests that showed it, the
    first to end hides it while the other is still in flight. *)
Theorem loading_hides_are_matched :
  (forall s,
     reachable s ->
     (count_events is_hide (trace s) + loading_in_flight s
      <= count_events is_show (trace s))%nat) /\
  (let s := after loading_overlap (init (Some "T1")) in
   reachable s /\
   last (trace s) = Some WxHideLoading /\
   loading_in_flight s = 1%nat).
Proof.
  split.
  - intros s Hs. pose proof (reachable_balance s Hs) as H.
    unfold loading_balance in H. lia.
  - split; [|by vm_compute].
    apply (reachable_run loading_overlap (init (Some "T1"))); [apply reachable_init|].
    vm_compute. reflexivity.
Qed.

Lemma loading_hides_are_matched_witness :
  (count_events is_hide (trace (request profile_config (KCaller 7) (init (Some "T1"))))
   + loading_in_flight (request profile_config (KCaller 7) (init (Some "T1")))
   <= count_events is_show
        (trace (request profile_config (KCaller 7) (init (Some "T1")))))%nat.
Proof.
  apply (proj1 loading_hides_are_matched).
  apply (reachable_step (Call 7 profile_config) (init (Some "T1")));
    [apply reachable_init | reflexivity].
Defined.

Lemma exchange_failure_resume exchange rc config k o e s :
  exchange_failure exchange rc o = Some e ->
  handleRequest_resume exchange rc (KRequest exchange (KRefresh config k)) o s =
    resume k (inl e)
      (emit QueueClear
         (set_retryQueue []
            (set_isRefreshing false (clearToken (hideLoading exchange s))))).
Proof.
  intros Hf. unfold exchange_failure, handleRequest_resume, handleRequest_catch in *.
  destruct o as [e'|res].
  - destruct (rc <? retry_bound exchange); [done|]. by injection Hf as ->.
  - destruct (code res =? 200).
    + simpl. destruct (data_token res); [done|]. by injection Hf as <-.
    + destruct (code res =? 401); [done|].
      destruct (rc <? retry_bound exchange); [done|]. by injection Hf as <-.
Qed.

(** X11: when the Refresh Flow fails, the requests parked in the queue are
    dropped together with their suspended [request] activations; the
    loading hints those had shown are never hidden: in every later state,
    as many [showLoading] calls as were parked stay unmatched, on top of
    those of the requests still running. *)
Theorem dropped_requests_keep_loading s n opts exchange rc config k o e inputs s' s'' :
  reachable s ->
  pending s !! n =
    Some (PSend opts exchange rc (KRequest exchange (KRefresh config k))) ->
  exchange_failure exchange rc o = Some e ->
  step (SendDone n o) s = Some s' ->
  run inputs s' = Some s'' ->
  (count_events is_hide (trace s'') + loading_in_flight s''
   + sum_list_with (fun entry => loading_in (snd entry)) (retryQueue s)
   <= count_events is_show (trace s''))%nat.
Proof.
  intros Hr Hp Hf Hstep Hrun.
  pose proof (reachable_balance s Hr) as H0.
  pose proof (run_balance inputs s' s'' Hrun) as H2.
  unfold step in Hstep. rewrite Hp in Hstep. injection Hstep as <-.
  rewrite (exchange_failure_resume _ _ _ _ _ _ _ Hf) in *.
  set (s0 := set_pending (delete n (pending s)) s) in *.
  set (s1 := emit QueueClear _) in *.
  pose proof (resume_balance k (inl e) s1) as H1.
  assert (loading_balance s1
          = loading_balance s + Z.of_nat (loading_in k)
            + Z.of_nat (sum_list_with (fun entry => loading_in (snd entry))
                                      (retryQueue s))) as E.
  { unfold s1, s0, hideLoading, loading_balance, loading_in_flight.
    rewrite (sum_list_with_delete _ (pending s) n _ Hp). simpl loading_in.
    destruct (truthy (loading exchange)); simpl;
      rewrite !count_events_app; unfold count_events; simpl; lia. }
  unfold loading_balance in H2 at 2. lia.
Qed.

Lemma dropped_requests_keep_loading_witness :
  let s := after loading_parked (init (Some "T1")) in
  let s'' := after [SendDone 0 timeout_error] s in
  (count_events is_hide (trace s'') + loading_in_flight s''
   + sum_list_with (fun entry => loading_in (snd entry)) (retryQueue s)
   <= count_events is_show (trace s''))%nat.
Proof.
  apply (dropped_requests_keep_loading
           (after loading_parked (init (Some "T1"))) 0
           (wx_options (mergeConfig (refresh_config "T1")) "")
           (mergeConfig (refresh_config "T1")) 3
           (mergeConfig profile_config)
           (KRequest (mergeConfig profile_config) (KCaller 7))
           timeout_error (WxFail "request:fail timeout") []
           (after [SendDone 0 timeout_error] (after loading_parked (init (Some "T1"))))).
  - apply (reachable_run loading_parked (init (Some "T1"))); [apply reachable_init|].
    vm_compute. reflexivity.
  - vm_compute. reflexivity.
  - reflexivity.
  - vm_compute. reflexivity.
  - reflexivity.
Defined.

(** ** A refresh that is itself answered 401 *)

Lemma wedged_launched k s s' :
  launched k s s' -> refreshes_in k = 0%nat -> wedged s ->
  wedged s' /\ retryQueue s `prefix_of` retryQueue s'.
Proof.
  intros (p & Hp & Hk & Hrf & Hq) H0 [H1 H2]. unfold wedged.
  rewrite Hp, Hrf, Hq. simpl. rewrite Hk, H0, H2. done.
Qed.

Lemma wedged_same s s' :
  isRefreshing s' = isRefreshing s -> pending s' = pending s ->
  retryQueue s' = retryQueue s ->
  wedged s -> wedged s' /\ retryQueue s `prefix_of` retryQueue s'.
Proof. unfold wedged. by intros -> -> ->. Qed.

Lemma wedged_catch config rc k throw_k e s :
  (forall e s, wedged s ->
     wedged (throw_k e s) /\ retryQueue s `prefix_of` retryQueue (throw_k e s)) ->
  refreshes_in k = 0%nat -> wedged s ->
  wedged (handleRequest_catch config rc k throw_k e s) /\
  retryQueue s `prefix_of` retryQueue (handleRequest_catch config rc k throw_k e s).
Proof.
  intros Ht H0 H. unfold handleRequest_catch. destruct (_ <? _); [|by apply Ht].
  apply (wedged_launched k s); [apply handleRequest_launched | done | done].
Qed.

Lemma wedged_resume k : forall o s,
  refreshes_in k = 0%nat -> wedged s ->
  wedged (resume k o s) /\ retryQueue s `prefix_of` retryQueue (resume k o s).
Proof.
  induction k as [id | fc k IH | config rc k IH | config k IH];
    intros o s H0 H; simpl in *; [done| | |done].
  - destruct (hideLoading_fields fc s) as (_ & _ & Hrf & Hq & Hp & _).
    rewrite <- Hq. apply IH; [done|].
    by apply (wedged_same s).
  - assert (forall e s, wedged s ->
              wedged (handleRequest_catch config rc k (fun e => resume k (inl e)) e
                        (emit (ConsoleError e) s)) /\
              retryQueue s `prefix_of`
                retryQueue (handleRequest_catch config rc k
                              (fun e => resume k (inl e)) e
                              (emit (ConsoleError e) s))) as Hf.
    { intros e s' H'.
      apply (wedged_catch config rc k (fun e => resume k (inl e)) e
               (emit (ConsoleError e) s')); try done.
      intros; by apply IH. }
    destruct o as [e|res]; [by apply Hf|].
    destruct (data_token res) as [t|]; [|by apply Hf].
    destruct (wedged_launched k (setToken t s)
                (wxRequest config rc k (setToken t s))
                (wxRequest_launched config rc k (setToken t s)) H0) as [Hw Hq];
      [exact H | by split].
Qed.

Lemma wedged_step i s s' :
  wedged s -> step i s = Some s' ->
  wedged s' /\ retryQueue s `prefix_of` retryQueue s'.
Proof.
  intros [H1 H2] Hs.
  assert (forall n p, pending s !! n = Some p ->
            refreshes_in (pending_kont p) = 0%nat /\
            wedged (set_pending (delete n (pending s)) s)) as Hdel.
  { intros n p Hp. unfold wedged. simpl.
    rewrite (sum_list_with_delete _ (pending s) n p Hp) in H2. split; [lia|].
    split; [done|lia]. }
  destruct i as [id config | n o | n o]; simpl in Hs.
  - injection Hs as <-.
    apply (wedged_launched (KRequest (mergeConfig config) (KCaller id)) s);
      [apply request_launched | done | done].
  - destruct (pending s !! n) as [[config rc k | opts config rc k]|] eqn:Hp;
      try done.
    injection Hs as <-. destruct (Hdel _ _ Hp) as [H0 Hw]. simpl in H0.
    destruct o as [e|c]; simpl.
    + destruct (wedged_catch config rc k (fun e => resume k (inl e)) e
                  (emit (ConsoleError e) (set_pending (delete n (pending s)) s))
                  (fun e s => wedged_resume k (inl e) s H0) H0 Hw) as [A B].
      split; [exact A | exact B].
    + destruct (wedged_launched
                  (KRequest (mergeConfig (login_config c)) (KLogin config rc k))
                  (set_pending (delete n (pending s)) s) _
                  (request_launched (login_config c) (KLogin config rc k) _) H0 Hw)
        as [Hw' Hq']. by split.
  - destruct (pending s !! n) as [[config rc k | opts config rc k]|] eqn:Hp;
      try done.
    injection Hs as <-. destruct (Hdel _ _ Hp) as [H0 Hw]. simpl in H0.
    pose proof (fun e => wedged_catch config rc k (fun e => resume k (inl e)) e
                  (set_pending (delete n (pending s)) s)
                  (fun e s => wedged_resume k (inl e) s H0) H0 Hw) as Hc.
    unfold handleRequest_resume. destruct o as [e|res]; [exact (Hc e)|].
    destruct (_ =? 200).
    { destruct (wedged_resume k (inr res) _ H0 Hw) as [A B].
      split; [exact A | exact B]. }
    destruct (_ =? 401); [|exact (Hc _)].
    unfold handleTokenExpired. simpl. rewrite H1. unfold wedged. simpl.
    split; [by destruct Hw|]. by apply prefix_app_r.
Qed.

Lemma wedged_run inputs : forall s s',
  wedged s -> run inputs s = Some s' ->
  wedged s' /\ retryQueue s `prefix_of` retryQueue s'.
Proof.
  induction inputs as [|i inputs IH]; intros s s' Hw; simpl.
  - by intros [= <-].
  - destruct (step i s) as [s1|] eqn:E; [|done]. intros Hrun.
    destruct (wedged_step i s s1 Hw E) as [Hw1 Hq1].
    destruct (IH s1 s' Hw1 Hrun) as [Hw' Hq']. split; [done|]. by etrans.
Qed.

(** X8: when the exchange request of a Refresh Flow is itself answered
    401, it is parked in the queue like any other request, behind the flag
    its own refresh has set.  From then on [isRefreshing] stays [true]
    whatever happens: no refresh starts or ends any more, nothing parked is
    ever run or dropped, and every later reply 401 parks one more
    request. *)
Theorem refresh_answered_401_never_ends s n opts exchange rc config k x inputs s' s'' :
  reachable s ->
  pending s !! n =
    Some (PSend opts exchange rc (KRequest exchange (KRefresh config k))) ->
  code x = 401 ->
  step (SendDone n (inr x)) s = Some s' ->
  run inputs s' = Some s'' ->
  isRefreshing s'' = true /\
  (retryQueue s ++ [(exchange, KRequest exchange (KRefresh config k))])
    `prefix_of` retryQueue s'' /\
  results s' = results s /\
  pending s' = delete n (pending s).
Proof.
  intros Hr Hp Hx Hstep Hrun.
  destruct (reachable_single_flight s Hr) as [Hsf _].
  unfold refreshes_in_flight in Hsf.
  rewrite (sum_list_with_delete _ (pending s) n _ Hp) in Hsf. simpl in Hsf.
  assert (isRefreshing s = true) as Hrf by (destruct (isRefreshing s); [done|lia]).
  rewrite Hrf in Hsf.
  unfold step in Hstep. rewrite Hp in Hstep.
  unfold handleRequest_resume in Hstep. rewrite Hx in Hstep. simpl in Hstep.
  unfold handleTokenExpired in Hstep. simpl in Hstep. rewrite Hrf in Hstep.
  injection Hstep as <-.
  assert (wedged (emit (QueuePush exchange)
                    (set_retryQueue
                       (retryQueue s ++ [(exchange, KRequest exchange (KRefresh config k))])
                       (set_pending (delete n (pending s)) s)))) as Hw.
  { split; [done|]. simpl. lia. }
  destruct (wedged_run inputs _ s'' Hw Hrun) as [[Hrf' _] Hq].
  by split_and!.
Qed.

Lemma refresh_answered_401_never_ends_witness :
  let s' := after [SendDone 0 expired] refresh_in_flight in
  let s'' := after [Call 8 (songs_config Absent); SendDone 0 expired] s' in
  isRefreshing s'' = true /\
  (retryQueue refresh_in_flight ++ [(mergeConfig (refresh_config "T1"), refresh_kont)])
    `prefix_of` retryQueue s'' /\
  results s' = results refresh_in_flight /\
  pending s' = delete 0%nat (pending refresh_in_flight).
Proof.
  apply (refresh_answered_401_never_ends refresh_in_flight 0
           (wx_options (mergeConfig (refresh_config "T1")) "")
           (mergeConfig (refresh_config "T1")) 0
           (mergeConfig profile_config)
           (KRequest (mergeConfig profile_config) (KCaller 7))
           expired_reply
           [Call 8 (songs_config Absent); SendDone 0 expired]).
  - apply (reachable_run [Call 7 profile_config; SendDone 0 expired]
             (init (Some "T1"))); [apply reachable_init|].
    vm_compute. reflexivity.
  - vm_compute. reflexivity.
  - reflexivity.
  - vm_compute. reflexivity.
  - vm_compute. reflexivity.
Defined.

(** ** Answering the caller *)

Lemma resume_to_caller k : forall o s id,
  caller_of k = Some id ->
  results (resume k o s) = (id, o) :: results s /\
  pending (resume k o s) = pending s /\
  trace (resume k o s) = trace s ++ replicate (loading_in k) WxHideLoading /\
  token (resume k o s) = token s /\ storage (resume k o s) = storage s /\
  isRefreshing (resume k o s) = isRefreshing s /\
  retryQueue (resume k o s) = retryQueue s.
Proof.
  induction k as [id' | fc k IH | config rc k IH | config k IH];
    intros o s id Hc; simpl in *; try done.
  - injection Hc as ->. by rewrite app_nil_r.
  - destruct (IH o (hideLoading fc s) id Hc) as (-> & -> & -> & -> & -> & -> & ->).
    destruct (hideLoading_fields fc s) as (-> & -> & -> & -> & -> & ->).
    rewrite trace_hideLoading, <- app_assoc.
    by destruct (truthy (loading fc)).
Qed.

(** X12: when the [wx.request] of a caller's request settles for good, with
    a reply of code 200 or with the failure of a last attempt, the caller's
    promise is settled with exactly that reply or error, however often the
    request was resubmitted through the queue before: every [request]
    activation on the way hides its loading hint if it showed one, nothing
    is sent and the store and the refresh state are left alone. *)
Theorem outcome_reaches_caller s n opts config rc k id o r :
  pending s !! n = Some (PSend opts config rc k) ->
  caller_of k = Some id ->
  final_outcome config rc o = Some r ->
  exists s',
    step (SendDone n o) s = Some s' /\
    results s' = (id, r) :: results s /\
    pending s' = delete n (pending s) /\
    trace s' = trace s ++ replicate (loading_in k) WxHideLoading /\
    token s' = token s /\ storage s' = storage s /\
    isRefreshing s' = isRefreshing s /\ retryQueue s' = retryQueue s.
Proof.
  intros Hp Hc Hf. unfold step. rewrite Hp. eexists. split; [reflexivity|].
  assert (handleRequest_resume config rc k o (set_pending (delete n (pending s)) s)
          = resume k r (set_pending (delete n (pending s)) s)) as ->.
  { unfold final_outcome, handleRequest_resume, handleRequest_catch in *.
    destruct o as [e|res].
    - destruct (rc <? retry_bound config); [done|]. by injection Hf as <-.
    - destruct (code res =? 200); [by injection Hf as <-|].
      destruct (code res =? 401); [done|].
      destruct (rc <? retry_bound config); [done|]. by injection Hf as <-. }
  by destruct (resume_to_caller k r (set_pending (delete n (pending s)) s) id Hc)
    as (-> & -> & -> & -> & -> & -> & ->).
Qed.

(** ** After a restart *)

(** X13: a fresh process whose storage holds a token: the first request that
    asks for a credential reads storage once, keeps the token in memory and
    sends at once with [Bearer] and that token; [wx.login()] is not
    called. *)
Theorem stored_token_is_reused config k s t :
  truthy (auth (mergeConfig config)) = true ->
  token s = "" -> storage s = Some t -> t ≠ "" ->
  let fc := mergeConfig config in
  let s1 := request config k s in
  pending s1 =
    PSend (wx_options fc ("Bearer " +:+ t)) fc 0 (KRequest fc k) :: pending s /\
  token s1 = t /\ storage s1 = Some t /\
  count_events is_storage_read (trace s1) = S (count_events is_storage_read (trace s)) /\
  count_events is_wx_login (trace s1) = count_events is_wx_login (trace s) /\
  count_events is_send (trace s1) = S (count_events is_send (trace s)).
Proof.
  intros Hauth Ht Hs Hne. cbv zeta.
  apply truthy_string_true in Hne.
  unfold request, handleRequest, wxRequest. rewrite Hauth.
  unfold getToken, wx_getStorageSync, showLoading.
  destruct (truthy (loading (mergeConfig config))); simpl;
    rewrite Ht, Hs; simpl; rewrite Hne; simpl;
    rewrite !count_events_app;
    (split_and!; try done; unfold count_events; simpl; lia).
Qed.

Lemma outcome_reaches_caller_witness :
  exists s',
    step (SendDone 1 (inr songs_reply)) both_resent = Some s' /\
    results s' = (8%nat, inr songs_reply) :: results both_resent /\
    pending s' = delete 1%nat (pending both_resent).
Proof.
  destruct (outcome_reaches_caller both_resent 1
              (wx_options (mergeConfig (mergeConfig (songs_config Absent))) "Bearer T2")
              (mergeConfig (mergeConfig (songs_config Absent))) 0
              (KRequest (mergeConfig (mergeConfig (songs_config Absent)))
                 (KRequest (mergeConfig (songs_config Absent)) (KCaller 8)))
              8 (inr songs_reply) (inr songs_reply))
    as (s' & Hs & Hr & Hp & _).
  - vm_compute. reflexivity.
  - reflexivity.
  - reflexivity.
  - exists s'. by split_and!.
Defined.

Lemma stored_token_is_reused_witness :
  pending (request profile_config (KCaller 7) (init (Some "T1"))) =
    PSend (wx_options (mergeConfig profile_config) ("Bearer " +:+ "T1"))
          (mergeConfig profile_config) 0
          (KRequest (mergeConfig profile_config) (KCaller 7))
    :: pending (init (Some "T1")) /\
  count_events is_wx_login
    (trace (request profile_config (KCaller 7) (init (Some "T1"))))
  = count_events is_wx_login (trace (init (Some "T1"))).
Proof.
  destruct (stored_token_is_reused profile_config (KCaller 7) (init (Some "T1")) "T1")
    as (Hp & _ & _ & _ & Hl & _).
  - reflexivity.
  - reflexivity.
  - reflexivity.
  - discriminate.
  - split; [exact Hp | exact Hl].
Defined.

(** ** Retries of the login multiply *)

Lemma request_always_failing_to config k s os o e :
  let fc := mergeConfig config in
  ready fc s ->
  Forall (fun o => is_Some (attempt_error o)) os ->
  attempt_error o = Some e ->
  Z.of_nat (length os) = Z.max 0 (retry_bound fc) ->
  run (map (SendDone 0) (os ++ [o])) (request config k s) =
    Some (resume (KRequest fc k) (inl e)
            (emit_all (concat (replicate (S (length os)) (attempt_events fc s)))
               (showLoading fc (emit (CallRequest config) s)))).
Proof.
  intros fc Hr Hf He Hlen.
  rewrite request_ready by done. fold fc.
  set (s1 := showLoading fc (emit (CallRequest config) s)).
  assert (ready fc s1) as Hr1.
  { unfold ready, s1 in *. by rewrite token_showLoading. }
  assert (attempt_events fc s = attempt_events fc s1) as ->.
  { unfold attempt_events, authorization, s1. by rewrite token_showLoading. }
  assert (authorization fc s = authorization fc s1) as ->.
  { unfold authorization, s1. by rewrite token_showLoading. }
  clearbody s1. rewrite map_app.
  destruct os as [|o1 os].
  - simpl app. simpl map.
    erewrite run_cons
      by (apply (send_fails_finally _ _ _ _ _ _ e); [done | simpl in Hlen; lia]).
    simpl. by rewrite app_nil_r.
  - erewrite run_app; cycle 1.
    { apply sends_fail_retried; [by apply ready_emit_all | done |].
      simpl length in *. lia. }
    rewrite attempt_events_emit_all, <- emit_all_app.
    simpl map.
    erewrite run_cons
      by (apply (send_fails_finally _ _ _ _ _ _ e); [done | simpl length in *; lia]).
    simpl run. simpl resume. do 3 f_equal.
Qed.

Lemma count_login_attempt config s :
  truthy (auth config) = false ->
  count_events is_wx_login (attempt_events config s) = 0%nat.
Proof. unfold attempt_events. by intros ->. Qed.

(** The exchange of one round fails: [login] logs the error and rethrows
    it into the [catch] of [handleRequest(config, rc)]. *)
Lemma round_fails config rc k s0 r e :
  current_token s0 = "" ->
  failing_round r ->
  attempt_error (round_last r) = Some e ->
  exists s1,
    run (round_inputs r) (add_pending (PLogin config rc k) s0) =
      Some (handleRequest_catch config rc k (fun e => resume k (inl e)) e s1) /\
    round_effect 0 s0 s1.
Proof.
  intros Hcur (Hlen & Hos & _) He. unfold round_inputs.
  erewrite run_cons by apply step_LoginDone_newest.
  simpl login_resume.
  set (exchange := mergeConfig (login_config (round_code r))).
  rewrite (request_always_failing_to (login_config (round_code r))
             (KLogin config rc k) s0 (round_retried r) (round_last r) e);
    [|by left | done | done | by rewrite Hlen].
  fold exchange.
  set (sA := emit_all _ _).
  exists (emit (ConsoleError e) (hideLoading exchange sA)).
  split; [reflexivity|].
  assert (truthy (loading exchange) = false) as Hl by reflexivity.
  assert (truthy (auth exchange) = false) as Ha by reflexivity.
  destruct (hideLoading_fields exchange sA) as (Ht3 & Hs3 & _ & _ & Hp3 & Hr3).
  destruct (emit_all_fields
              (concat (replicate (S (length (round_retried r)))
                         (attempt_events exchange s0)))
              (showLoading exchange (emit (CallRequest (login_config (round_code r))) s0)))
    as (Ht2 & Hs2 & _ & _ & Hp2 & Hr2).
  destruct (showLoading_fields exchange
              (emit (CallRequest (login_config (round_code r))) s0))
    as (Ht1 & Hs1 & _ & _ & Hp1 & Hr1).
  fold sA in Ht2, Hs2, Hp2, Hr2.
  unfold round_effect, current_token in *.
  cbn [token storage pending results trace emit].
  rewrite Ht3, Hs3, Hp3, Hr3, Ht2, Hs2, Hp2, Hr2, Ht1, Hs1, Hp1, Hr1.
  cbn [token storage pending results trace emit].
  rewrite trace_hideLoading, Hl. unfold sA.
  rewrite trace_emit_all, trace_showLoading, Hl.
  cbn [trace emit].
  rewrite !count_events_app, !count_attempts, count_attempt_events,
    count_login_attempt, Hlen by done.
  split_and!; try done; unfold count_events; simpl; lia.
Qed.

Lemma handleRequest_logs_in config rc k s :
  truthy (auth config) = true ->
  current_token s = "" ->
  exists s1,
    handleRequest config rc k s = add_pending (PLogin config rc k) s1 /\
    current_token s1 = "" /\
    pending s1 = pending s /\ results s1 = results s /\
    count_events is_send (trace s1) = count_events is_send (trace s) /\
    count_events is_wx_login (trace s1) = S (count_events is_wx_login (trace s)).
Proof.
  intros Hauth Hcur. unfold handleRequest. rewrite Hauth, (getToken_empty s Hcur).
  simpl. unfold login. eexists. split; [reflexivity|].
  apply current_token_empty in Hcur as [Ht Hs].
  unfold current_token. simpl. rewrite Hs, !count_events_app.
  split_and!; try done; unfold count_events; simpl; lia.
Qed.

(** Rounds below the bound: each ends with a new [wx.login()] in flight. *)
Lemma rounds_retried config k rounds : forall rc s0,
  truthy (auth config) = true ->
  current_token s0 = "" ->
  Forall failing_round rounds ->
  rounds = [] \/ rc + Z.of_nat (length rounds) <= retry_bound config ->
  exists s1,
    run (concat (map round_inputs rounds)) (add_pending (PLogin config rc k) s0) =
      Some (add_pending (PLogin config (rc + Z.of_nat (length rounds)) k) s1) /\
    current_token s1 = "" /\
    pending s1 = pending s0 /\ results s1 = results s0 /\
    count_events is_send (trace s1)
      = (count_events is_send (trace s0) + 4 * length rounds)%nat /\
    count_events is_wx_login (trace s1)
      = (count_events is_wx_login (trace s0) + length rounds)%nat.
Proof.
  induction rounds as [|r rounds IH]; intros rc s0 Hauth Hcur Hrs Hb.
  - exists s0. simpl. rewrite Z.add_0_r, !Nat.add_0_r. by split_and!.
  - apply Forall_cons in Hrs as [Hr Hrs]. destruct Hb as [|Hb]; [done|].
    simpl length in Hb.
    destruct Hr as (Hlen & Hos & [e He]).
    destruct (round_fails config rc k s0 r e Hcur (conj Hlen (conj Hos (ex_intro _ e He))) He)
      as (sa & Hrun & Heff).
    rewrite handleRequest_catch_retry in Hrun by lia.
    destruct Heff as (Hca & Hpa & Hra & Hsa & Hla).
    destruct (handleRequest_logs_in config (rc + 1) k sa Hauth Hca)
      as (sb & Hh & Hcb & Hpb & Hrb & Hsb & Hlb).
    rewrite Hh in Hrun.
    destruct (IH (rc + 1) sb Hauth Hcb Hrs ltac:(right; lia))
      as (s1 & Hrun1 & Hc1 & Hp1 & Hr1 & Hs1 & Hl1).
    exists s1.
    change (concat (map round_inputs (r :: rounds)))
      with (round_inputs r ++ concat (map round_inputs rounds)).
    rewrite (run_app _ _ _ _ Hrun), Hrun1.
    split; [do 3 f_equal; simpl length; lia|].
    rewrite Hp1, Hr1, Hs1, Hl1, Hpb, Hrb, Hsb, Hlb, Hpa, Hra, Hsa, Hla.
    simpl length. split_and!; try done; lia.
Qed.

(** X14: the retries of the Login Flow multiply.  A caller's request asks
    for a credential, the store has none, [wx.login()] resolves every time
    and the exchange request fails every time.  Each Login Flow sends the
    exchange four times (its own bound of three retries), and
    [handleRequest] runs the Login Flow again until the bound of the
    caller's request: [wx.login()] is called [1 + max 0 bound] times and
    the exchange is sent four times as often, which is 4 and 16 for a
    request without [retry], before the caller gets the error of the last
    send. *)
Theorem login_retries_multiply config id s rounds last e :
  truthy (auth (mergeConfig config)) = true ->
  current_token s = "" ->
  Forall failing_round (rounds ++ [last]) ->
  attempt_error (round_last last) = Some e ->
  length rounds = Z.to_nat (retry_bound config) ->
  exists s',
    run (Call id config :: concat (map round_inputs (rounds ++ [last]))) s = Some s' /\
    results s' = (id, inl e) :: results s /\
    pending s' = pending s /\
    count_events is_wx_login (trace s')
      = (count_events is_wx_login (trace s) + S (length rounds))%nat /\
    count_events is_send (trace s')
      = (count_events is_send (trace s) + 4 * S (length rounds))%nat.
Proof.
  intros Hauth Hcur Hrs He Hlen.
  set (fc := mergeConfig config) in *.
  assert (retry_bound fc = retry_bound config) as Hb.
  { by destruct config as [u m d h l a [| |n]]. }
  apply Forall_app in Hrs as [Hrs Hlast]. apply Forall_cons in Hlast as [Hlast _].
  set (sl := showLoading fc (emit (CallRequest config) s)).
  assert (current_token sl = "" /\ pending sl = pending s /\ results sl = results s
          /\ count_events is_send (trace sl) = count_events is_send (trace s)
          /\ count_events is_wx_login (trace sl)
             = count_events is_wx_login (trace s))
    as (Hcl & Hpl & Hrl & Hsl & Hll).
  { unfold sl, showLoading, current_token in *.
    destruct (truthy (loading fc)); simpl; rewrite ?count_events_app;
      (split_and!; try done; unfold count_events; simpl; lia). }
  destruct (handleRequest_logs_in fc 0 (KRequest fc (KCaller id)) sl Hauth Hcl)
    as (s1 & Hh & Hc1 & Hp1 & Hr1 & Hs1 & Hl1).
  destruct (rounds_retried fc (KRequest fc (KCaller id)) rounds 0 s1 Hauth Hc1 Hrs)
    as (s2 & Hrun2 & Hc2 & Hp2 & Hr2 & Hs2 & Hl2).
  { destruct rounds; [by left|]. right. rewrite Hb, Hlen. simpl length in *. lia. }
  destruct (round_fails fc (0 + Z.of_nat (length rounds)) (KRequest fc (KCaller id))
              s2 last e Hc2 Hlast He)
    as (s3 & Hrun3 & (Hc3 & Hp3 & Hr3 & Hs3 & Hl3)).
  rewrite handleRequest_catch_throw in Hrun3 by (rewrite Hb, Hlen; lia).
  exists (resume (KRequest fc (KCaller id)) (inl e) s3).
  split.
  - erewrite run_cons by reflexivity.
    unfold request. fold fc. fold sl. rewrite Hh, map_app, concat_app.
    rewrite (run_app _ _ _ _ Hrun2). simpl map. simpl concat.
    rewrite app_nil_r. exact Hrun3.
  - simpl.
    destruct (hideLoading_fields fc s3) as (_ & _ & _ & _ & -> & ->).
    rewrite trace_hideLoading, !count_events_app.
    rewrite Hp3, Hr3, Hs3, Hl3, Hp2, Hr2, Hs2, Hl2, Hp1, Hr1, Hs1, Hl1,
      Hpl, Hrl, Hsl, Hll.
    split_and!; try done;
      destruct (truthy (loading fc)); unfold count_events; simpl; lia.
Qed.

Lemma login_retries_multiply_witness :
  exists s',
    run (Call 7 profile_config
         :: concat (map round_inputs
                      ([failed_round; failed_round; failed_round] ++ [failed_round])))
        (init None) = Some s' /\
    results s' = (7%nat, inl (JsError "busy")) :: results (init None) /\
    pending s' = pending (init None) /\
    count_events is_wx_login (trace s')
      = (count_events is_wx_login (trace (init None))
         + S (length [failed_round; failed_round; failed_round]))%nat /\
    count_events is_send (trace s')
      = (count_events is_send (trace (init None))
         + 4 * S (length [failed_round; failed_round; failed_round]))%nat.
Proof.
  apply (login_retries_multiply profile_config 7 (init None)
           [failed_round; failed_round; failed_round] failed_round (JsError "busy")).
  - reflexivity.
  - reflexivity.
  - repeat constructor; by eexists.
  - reflexivity.
  - reflexivity.
Defined.

(** * The retry counter and the refresh protocol, in every state *)

(** ** Three attempts with [retry: 2] *)

(** C3, as stated, fails: [retry: 2] bounds the attempts, and an attempt
    whose Login Flow fails makes no send.  Caller 7 asks with [retry: 2]
    while the store is empty.  When [wx.login()] rejects twice and the
    third Login Flow succeeds, the request is sent once, the reply 500 is
    its only reply, and the caller gets that error.  When [wx.login()]
    rejects three times, nothing is sent at all. *)
Lemma retry_two_counterexample :
  retry (songs_config (Value 2)) = Value 2 /\
  (let s' := after login_rejected_twice (init None) in
   run login_rejected_twice (init None) = Some s' /\
   results s' = [(7%nat, inl (JsError "busy"))] /\
   pending s' = [] /\
   count_events (is_send_to (BASE_URL +:+ "/songs")) (trace s') = 1%nat /\
   count_events is_send (trace s') = 2%nat) /\
  (let s' := after login_rejected_thrice (init None) in
   run login_rejected_thrice (init None) = Some s' /\
   results s' = [(7%nat, inl (WxFail "login:fail"))] /\
   pending s' = [] /\
   count_events is_send (trace s') = 0%nat).
Proof. split; [reflexivity|]. split; by vm_compute. Qed.

Lemma attempt_error_failure o :
  is_failure o = true ->
  attempt_error o =
    Some (match o with
          | inl e => e
          | inr r => JsError (if String.eqb (message r) "" then "请求失败" else message r)
          end).
Proof.
  destruct o as [e|r]; simpl; [done|].
  destruct (code r =? 200), (code r =? 401); simpl; try done.
  intros _. unfold error_message, truthy_string.
  by destruct (String.eqb (message r) "").
Qed.

Lemma failed_attempt_outcome fc rc id e s0 :
  after_failed_attempt (retry_bound fc) fc id rc e (pending s0) s0
    (handleRequest_catch fc rc (KRequest fc (KCaller id))
       (fun e => resume (KRequest fc (KCaller id)) (inl e)) e s0).
Proof.
  unfold after_failed_attempt, handleRequest_catch.
  destruct (rc <? retry_bound fc).
  - destruct (handleRequest_launches fc (rc + 1) (KRequest fc (KCaller id)) s0)
      as (p & Hp & Hk & Hc & Hrc & _ & _ & Hr & _).
    exists p. by split_and!.
  - simpl. by destruct (hideLoading_fields fc s0) as (_ & _ & _ & _ & -> & ->).
Qed.

(** A request in its first send, with a token in memory or without need
    of one, whose sends all fail. *)
Lemma sends_always_failing s0 opts fc id os o e :
  ready fc s0 ->
  Forall (fun o => is_Some (attempt_error o)) os ->
  attempt_error o = Some e ->
  Z.of_nat (length os) = Z.max 0 (retry_bound fc) ->
  exists s',
    run (map (SendDone 0) (os ++ [o]))
        (add_pending (PSend opts fc 0 (KRequest fc (KCaller id))) s0) = Some s' /\
    results s' = (id, inl e) :: results s0 /\
    pending s' = pending s0 /\
    count_events is_send (trace s') =
      (count_events is_send (trace s0) + length os)%nat /\
    count_events is_wx_login (trace s') = count_events is_wx_login (trace s0).
Proof.
  intros Hr Hf He Hlen. rewrite map_app.
  assert (count_events is_wx_login (attempt_events fc s0) = 0%nat) as Hl.
  { unfold attempt_events. by destruct (truthy _). }
  destruct os as [|o1 os].
  - simpl app. simpl map.
    erewrite run_cons
      by (apply (send_fails_finally _ _ _ _ _ _ e); [done | simpl in Hlen; lia]).
    eexists. split; [reflexivity|]. simpl.
    destruct (hideLoading_fields fc s0) as (_ & _ & _ & _ & -> & ->).
    rewrite trace_hideLoading, !count_events_app.
    split_and!; try done; destruct (truthy (loading fc)); unfold count_events; simpl; lia.
  - erewrite run_app; cycle 1.
    { apply sends_fail_retried; [done | done |]. simpl length in *. lia. }
    simpl map.
    erewrite run_cons
      by (apply (send_fails_finally _ _ _ _ _ _ e); [done | simpl length in *; lia]).
    eexists. split; [reflexivity|]. cbn [resume settle results pending trace].
    set (sA := emit_all _ s0).
    destruct (hideLoading_fields fc sA) as (_ & _ & _ & _ & -> & ->).
    destruct (emit_all_fields
                (concat (replicate (length (o1 :: os)) (attempt_events fc s0))) s0)
      as (_ & _ & _ & _ & Hp & Hres).
    fold sA in Hp, Hres. rewrite Hp, Hres.
    rewrite trace_hideLoading, !count_events_app. unfold sA.
    rewrite trace_emit_all, !count_events_app, !count_attempts, count_attempt_events, Hl.
    split_and!; try done; destruct (truthy (loading fc)); unfold count_events; simpl; lia.
Qed.

(** Failed attempts of a request that asks for no credential, below the
    bound: each is answered by a new attempt, and nothing else changes. *)
Lemma exchange_retried xs : forall s0 opts exchange rc k,
  truthy (auth exchange) = false ->
  Forall (fun o => is_failure o = true) xs ->
  rc + Z.of_nat (length xs) <= retry_bound exchange ->
  exists opts' s1,
    run (map (SendDone 0) xs) (add_pending (PSend opts exchange rc k) s0) =
      Some (add_pending (PSend opts' exchange (rc + Z.of_nat (length xs)) k) s1) /\
    token s1 = token s0 /\ storage s1 = storage s0 /\
    pending s1 = pending s0 /\ results s1 = results s0 /\
    count_events is_send (trace s1)
      = (count_events is_send (trace s0) + length xs)%nat /\
    count_events is_wx_login (trace s1) = count_events is_wx_login (trace s0).
Proof.
  induction xs as [|x xs IH]; intros s0 opts exchange rc k Ha Hf Hb.
  - exists opts, s0. simpl. rewrite Z.add_0_r, Nat.add_0_r. by split_and!.
  - apply Forall_cons in Hf as [Hx Hf].
    apply is_failure_attempt_error in Hx as [e He].
    simpl length in Hb.
    rewrite map_cons.
    erewrite run_cons
      by (apply (send_fails_retried _ _ _ _ _ _ e); [by left | done | lia]).
    destruct (IH (emit_all (attempt_events exchange s0) s0)
                (wx_options exchange (authorization exchange s0)) exchange (rc + 1) k)
      as (opts' & s1 & Hrun & Ht & Hs & Hp & Hr & Hcs & Hcl); [done | done | lia |].
    exists opts', s1. rewrite Hrun.
    destruct (emit_all_fields (attempt_events exchange s0) s0)
      as (Ht0 & Hs0 & _ & _ & Hp0 & Hr0).
    rewrite Ht, Hs, Hp, Hr, Hcs, Hcl, Ht0, Hs0, Hp0, Hr0.
    rewrite trace_emit_all, !count_events_app, count_attempt_events,
      count_login_attempt by done.
    simpl length.
    split_and!; try done; [do 3 f_equal; lia | lia].
Qed.

(** The Login Flow of a caller's request succeeds: [wx.login()] resolves,
    the exchange request is answered 200 with a token that is not empty,
    be it after failed attempts that were retried, and the request is
    sent with that token. *)
Lemma login_succeeds config id s lc xs res t :
  let fc := mergeConfig config in
  truthy (auth fc) = true ->
  current_token s = "" ->
  Forall (fun o => is_failure o = true) xs ->
  (length xs <= 3)%nat ->
  code res = 200 ->
  data_token res = Some t ->
  t ≠ "" ->
  exists s0,
    run ([Call id config; LoginDone 0 (inr lc)]
         ++ map (SendDone 0) xs ++ [SendDone 0 (inr res)]) s =
      Some (add_pending
              (PSend (wx_options fc ("Bearer " +:+ t)) fc 0 (KRequest fc (KCaller id)))
              s0) /\
    token s0 = t /\ pending s0 = pending s /\ results s0 = results s /\
    count_events is_send (trace s0)
      = (count_events is_send (trace s) + 2 + length xs)%nat /\
    count_events is_wx_login (trace s0) = S (count_events is_wx_login (trace s)).
Proof.
  intros fc Hauth Hempty Hxs Hlen Hc Hd Ht.
  assert (exists sl, sl = showLoading fc (emit (CallRequest config) s)
            /\ current_token sl = "" /\ pending sl = pending s
            /\ results sl = results s
            /\ count_events is_send (trace sl) = count_events is_send (trace s)
            /\ count_events is_wx_login (trace sl)
               = count_events is_wx_login (trace s))
    as (sl & Hsl & Hcur & Hpl & Hrl & Hcs & Hcl).
  { eexists. split; [reflexivity|].
    unfold showLoading, current_token in *.
    destruct (truthy (loading fc)); simpl; rewrite ?count_events_app;
      (split_and!; try done; unfold count_events; simpl; lia). }
  assert (request config (KCaller id) s = login fc 0 (KRequest fc (KCaller id))
            (set_token "" (emit WxGetStorageSync (emit StoreGetToken sl)))) as Hreq.
  { unfold request. fold fc. rewrite <- Hsl. unfold handleRequest.
    rewrite Hauth, (getToken_empty sl Hcur). done. }
  simpl app.
  erewrite run_cons by (simpl; by rewrite Hreq).
  unfold login.
  erewrite run_cons by apply step_LoginDone_newest.
  simpl login_resume.
  set (sb := emit WxLogin _).
  rewrite (request_ready (login_config lc) _ sb) by by left.
  set (exchange := mergeConfig (login_config lc)).
  set (sA := emit_all _ _).
  assert (pending sA = pending s /\ results sA = results s /\
          count_events is_send (trace sA) = (count_events is_send (trace s) + 1)%nat /\
          count_events is_wx_login (trace sA)
            = S (count_events is_wx_login (trace s))) as (HpA & HrA & HcsA & HclA).
  { unfold sA, showLoading, attempt_events, authorization, sb.
    change (truthy (loading exchange)) with false.
    change (truthy (auth exchange)) with false.
    cbn -[wx_options mergeConfig count_events].
    rewrite Hpl, Hrl, !count_events_app, Hcs, Hcl.
    split_and!; try done; unfold count_events; simpl; lia. }
  clearbody sA.
  destruct (exchange_retried xs sA (wx_options exchange (authorization exchange sb))
              exchange 0 (KRequest exchange (KLogin fc 0 (KRequest fc (KCaller id)))))
    as (opts' & sB & Hrun & _ & _ & HpB & HrB & HcsB & HclB); [done | done | |].
  { change (retry_bound exchange) with 3. lia. }
  rewrite (run_app _ _ _ _ Hrun).
  erewrite run_cons by apply step_SendDone_newest.
  unfold handleRequest_resume. rewrite Hc. simpl resume. rewrite Hd.
  simpl run.
  unfold wxRequest. fold fc. rewrite Hauth. rewrite getToken_after_setToken.
  assert (truthy_string t = true) as -> by by apply truthy_string_true.
  eexists. split; [reflexivity|].
  unfold hideLoading.
  change (truthy (loading exchange)) with false.
  cbn -[wx_options mergeConfig count_events].
  rewrite HpB, HrB, !count_events_app, HcsB, HclB, HpA, HrA, HcsA, HclA.
  split_and!; try done; unfold count_events; simpl; lia.
Qed.

(** C3, amended: a caller's request with [retry: 2].  Every failure of an
    attempt, be it a send that fails (a rejected [wx.request], or a reply
    whose code is neither 200 nor 401) or a [wx.login()] that rejects, is
    followed by the next attempt while [retryCount < 2] and rejects the
    caller's promise when [retryCount] is 2, whatever else is in flight;
    the error of a failed send is the platform's failure object, or an
    [Error] carrying the reply's message, resp. the text of line 135 when
    that message is empty.  So when every send fails, the request is sent
    exactly three times if it needs no Login Flow, and also if its Login
    Flow succeeds with a token that is not empty (the sends of the
    exchange request, retried attempts included, coming on top); the
    third failure settles the caller's promise with the error of that
    send. *)
Theorem retry_two_three_attempts config id :
  retry config = Value 2 ->
  let fc := mergeConfig config in
  let k := KRequest fc (KCaller id) in
  let raised (o : Outcome) : Error :=
    match o with
    | inl e => e
    | inr r => JsError (if String.eqb (message r) "" then "请求失败" else message r)
    end in
  (forall s n opts rc o,
     pending s !! n = Some (PSend opts fc rc k) ->
     is_failure o = true ->
     exists s',
       step (SendDone n o) s = Some s' /\
       after_failed_attempt 2 fc id rc (raised o) (delete n (pending s)) s s') /\
  (forall s n rc e,
     pending s !! n = Some (PLogin fc rc k) ->
     exists s',
       step (LoginDone n (inl e)) s = Some s' /\
       after_failed_attempt 2 fc id rc e (delete n (pending s)) s s') /\
  (forall s o1 o2 o3,
     ready fc s ->
     is_failure o1 = true -> is_failure o2 = true -> is_failure o3 = true ->
     exists s',
       run [Call id config; SendDone 0 o1; SendDone 0 o2; SendDone 0 o3] s = Some s' /\
       results s' = (id, inl (raised o3)) :: results s /\
       pending s' = pending s /\
       count_events is_send (trace s') = (count_events is_send (trace s) + 3)%nat /\
       count_events is_wx_login (trace s') = count_events is_wx_login (trace s)) /\
  (forall s login_code xs res t o1 o2 o3,
     truthy (auth fc) = true ->
     current_token s = "" ->
     Forall (fun o => is_failure o = true) xs -> (length xs <= 3)%nat ->
     code res = 200 -> data_token res = Some t -> t ≠ "" ->
     is_failure o1 = true -> is_failure o2 = true -> is_failure o3 = true ->
     exists s',
       run ([Call id config; LoginDone 0 (inr login_code)]
            ++ map (SendDone 0) xs
            ++ [SendDone 0 (inr res); SendDone 0 o1; SendDone 0 o2; SendDone 0 o3])
           s = Some s' /\
       results s' = (id, inl (raised o3)) :: results s /\
       pending s' = pending s /\
       count_events is_send (trace s')
         = (count_events is_send (trace s) + 1 + length xs + 3)%nat /\
       count_events is_wx_login (trace s')
         = S (count_events is_wx_login (trace s))).
Proof.
  intros Hretry fc k raised.
  assert (retry_bound fc = 2) as Hb.
  { unfold fc, retry_bound. simpl. by rewrite Hretry. }
  split_and!.
  - intros s n opts rc o Hp Ho. unfold step. rewrite Hp.
    eexists. split; [reflexivity|].
    rewrite (handleRequest_resume_fails _ _ _ _ _ _ (attempt_error_failure o Ho)).
    rewrite <- Hb.
    apply (failed_attempt_outcome fc rc id (raised o)
             (set_pending (delete n (pending s)) s)).
  - intros s n rc e Hp. unfold step. rewrite Hp.
    eexists. split; [reflexivity|]. rewrite <- Hb.
    apply (failed_attempt_outcome fc rc id e
             (emit (ConsoleError e) (set_pending (delete n (pending s)) s))).
  - intros s o1 o2 o3 Hr H1 H2 H3.
    erewrite run_cons by reflexivity.
    rewrite request_ready by done. fold fc.
    set (s0 := emit_all _ _).
    destruct (sends_always_failing s0 (wx_options fc (authorization fc s)) fc id
                [o1; o2] o3 (raised o3))
      as (s' & Hrun & Hres & Hp & Hcs & Hcl).
    { unfold s0, ready in *.
      by rewrite (proj1 (emit_all_fields _ _)), token_showLoading. }
    { repeat constructor; by apply is_failure_attempt_error. }
    { by apply attempt_error_failure. }
    { by rewrite Hb. }
    exists s'. split; [exact Hrun|].
    rewrite Hres, Hp, Hcs, Hcl. unfold s0.
    destruct (emit_all_fields (attempt_events fc s)
                (showLoading fc (emit (CallRequest config) s)))
      as (_ & _ & _ & _ & -> & ->).
    destruct (showLoading_fields fc (emit (CallRequest config) s))
      as (_ & _ & _ & _ & -> & ->).
    rewrite trace_emit_all, trace_showLoading. simpl trace.
    rewrite !count_events_app, count_attempt_events.
    assert (count_events is_wx_login (attempt_events fc s) = 0%nat) as ->.
    { unfold attempt_events. by destruct (truthy _). }
    split_and!; try done; destruct (truthy (loading fc)); unfold count_events; simpl; lia.
  - intros s lc xs res t o1 o2 o3 Hauth Hcur Hxs Hlen Hc Hd Ht H1 H2 H3.
    destruct (login_succeeds config id s lc xs res t Hauth Hcur Hxs Hlen Hc Hd Ht)
      as (s0 & Hrun0 & Ht0 & Hp0 & Hr0 & Hcs0 & Hcl0).
    destruct (sends_always_failing s0 (wx_options fc ("Bearer " +:+ t)) fc id
                [o1; o2] o3 (raised o3))
      as (s' & Hrun & Hres & Hp & Hcs & Hcl).
    { right. by rewrite Ht0. }
    { repeat constructor; by apply is_failure_attempt_error. }
    { by apply attempt_error_failure. }
    { by rewrite Hb. }
    exists s'. split.
    + replace ([Call id config; LoginDone 0 (inr lc)]
               ++ map (SendDone 0) xs
               ++ [SendDone 0 (inr res); SendDone 0 o1; SendDone 0 o2; SendDone 0 o3])
        with (([Call id config; LoginDone 0 (inr lc)]
               ++ map (SendDone 0) xs ++ [SendDone 0 (inr res)])
              ++ map (SendDone 0) ([o1; o2] ++ [o3]))
        by (by rewrite <- !app_assoc).
      by rewrite (run_app _ _ _ _ Hrun0).
    + rewrite Hres, Hp, Hcs, Hcl, Hp0, Hr0, Hcs0, Hcl0. simpl length.
      split_and!; try done; lia.
Qed.

Lemma retry_two_three_attempts_witness :
  (exists s',
     run [Call 7 (songs_config (Value 2)); SendDone 0 timeout_error;
          SendDone 0 (server_error ""); SendDone 0 (server_error "busy")]
         (logged_in "T1") = Some s' /\
     results s' = (7%nat, inl (JsError "busy")) :: results (logged_in "T1") /\
     pending s' = pending (logged_in "T1") /\
     count_events is_send (trace s') =
       (count_events is_send (trace (logged_in "T1")) + 3)%nat /\
     count_events is_wx_login (trace s') =
       count_events is_wx_login (trace (logged_in "T1"))) /\
  (exists s',
     run ([Call 7 (songs_config (Value 2)); LoginDone 0 (inr "c0")]
          ++ map (SendDone 0) [timeout_error]
          ++ [SendDone 0 (inr (login_reply "T1"));
              SendDone 0 (server_error "busy"); SendDone 0 (server_error "");
              SendDone 0 timeout_error])
         (init None) = Some s' /\
     results s' = (7%nat, inl (WxFail "request:fail timeout")) :: results (init None) /\
     pending s' = pending (init None) /\
     count_events is_send (trace s') =
       (count_events is_send (trace (init None)) + 1 + length [timeout_error] + 3)%nat /\
     count_events is_wx_login (trace s') =
       S (count_events is_wx_login (trace (init None)))) /\
  (exists s',
     step (LoginDone 0 login_rejected)
          (request (songs_config (Value 2)) (KCaller 7) (init None)) = Some s' /\
     after_failed_attempt 2 (mergeConfig (songs_config (Value 2))) 7 0
       (WxFail "login:fail") []
       (request (songs_config (Value 2)) (KCaller 7) (init None)) s') /\
  (exists s',
     step (SendDone 0 (server_error ""))
          (request (songs_config (Value 2)) (KCaller 7) (logged_in "T1")) = Some s' /\
     after_failed_attempt 2 (mergeConfig (songs_config (Value 2))) 7 0
       (JsError "请求失败") []
       (request (songs_config (Value 2)) (KCaller 7) (logged_in "T1")) s').
Proof.
  destruct (retry_two_three_attempts (songs_config (Value 2)) 7 eq_refl)
    as (H1 & H2 & H3 & H4).
  split_and!.
  - apply (H3 (logged_in "T1") timeout_error (server_error "") (server_error "busy"));
      [right; simpl; discriminate | reflexivity | reflexivity | reflexivity].
  - apply (H4 (init None) "c0" [timeout_error] (login_reply "T1") "T1"
              (server_error "busy") (server_error "") timeout_error);
      try reflexivity; [by repeat constructor | simpl; lia | discriminate].
  - apply (H2 (request (songs_config (Value 2)) (KCaller 7) (init None)) 0%nat 0
              (WxFail "login:fail")).
    reflexivity.
  - apply (H1 (request (songs_config (Value 2)) (KCaller 7) (logged_in "T1")) 0%nat
              (wx_options (mergeConfig (songs_config (Value 2))) "Bearer T1") 0
              (server_error "")); reflexivity.
Defined.

(** ** The refresh fails *)

Lemma handleRequest_cleared config rc k s :
  cleared s ->
  cleared (handleRequest config rc k s) /\
  count_events is_request_call (trace (handleRequest config rc k s))
    = count_events is_request_call (trace s).
Proof.
  intros (Ht & Hs & Hrf & Hq).
  unfold cleared, handleRequest, wxRequest, login, getToken, wx_getStorageSync.
  destruct (truthy (auth config)); simpl; rewrite ?Ht, ?Hs; simpl;
    rewrite ?count_events_app; (split; [done|]); unfold count_events; simpl; lia.
Qed.

(** A rejection that travels up the continuation calls [request] nowhere
    and leaves a cleared store cleared. *)
Lemma resume_failure_cleared k : forall e s,
  cleared s ->
  cleared (resume k (inl e) s) /\
  count_events is_request_call (trace (resume k (inl e) s))
    = count_events is_request_call (trace s).
Proof.
  induction k as [id | fc k IH | config rc k IH | config k IH]; intros e s Hs.
  - done.
  - simpl. destruct (IH e (hideLoading fc s)) as [Hc ->].
    + unfold cleared in *.
      by destruct (hideLoading_fields fc s) as (-> & -> & -> & -> & _).
    + split; [done|]. rewrite trace_hideLoading, count_events_app.
      destruct (truthy (loading fc)); unfold count_events; simpl; lia.
  - simpl. unfold handleRequest_catch.
    assert (cleared (emit (ConsoleError e) s)) as Hs' by done.
    assert (count_events is_request_call (trace (emit (ConsoleError e) s))
            = count_events is_request_call (trace s)) as Hc.
    { simpl. rewrite count_events_app. unfold count_events. simpl. lia. }
    destruct (rc <? retry_bound config).
    + destruct (handleRequest_cleared config (rc + 1) k _ Hs') as [H ->]. done.
    + destruct (IH e _ Hs') as [H ->]. done.
  - simpl.
    set (s1 := emit QueueClear _).
    assert (cleared s1) as Hs1 by done.
    destruct (IH e s1 Hs1) as [H ->]. split; [done|].
    unfold s1. simpl. rewrite !count_events_app. unfold count_events. simpl. lia.
Qed.

(** C2: when the Refresh Flow that the 401 of a request started fails,
    that is when the last attempt of its exchange request fails or the
    reply has no data, whatever the request and whatever else is in
    flight: the store is cleared (nothing in memory, nothing in storage),
    [isRefreshing] is [false] again, the queue is reset without running any
    of its entries, and then the promise of the request is rejected with
    the error of the refresh.  The rejection does not pass the [catch] of
    [handleRequest], and [request] is called for no config: neither the
    request nor a parked one is sent again.  When a caller waits for the
    request, directly or after resubmissions, its promise is rejected with
    that error and nothing new is in flight; when the request is the
    exchange of a Login Flow, that Login Flow fails with that error. *)
Theorem refresh_failure_clears s n opts exchange rc config k o e :
  pending s !! n =
    Some (PSend opts exchange rc (KRequest exchange (KRefresh config k))) ->
  exchange_failure exchange rc o = Some e ->
  exists s0 s',
    step (SendDone n o) s = Some s' /\
    s' = resume k (inl e) s0 /\
    cleared s0 /\
    pending s0 = delete n (pending s) /\
    results s0 = results s /\
    trace s0 =
      trace s
      ++ (if truthy (loading exchange) then [WxHideLoading] else [])
      ++ [StoreClearToken; WxRemoveStorageSync; SetIsRefreshing false; QueueClear] /\
    cleared s' /\
    count_events is_request_call (trace s') = count_events is_request_call (trace s) /\
    (forall id,
       caller_of k = Some id ->
       results s' = (id, inl e) :: results s /\
       pending s' = delete n (pending s) /\
       trace s' = trace s0 ++ replicate (loading_in k) WxHideLoading) /\
    (forall exchange' config' rc' fc id,
       k = KRequest exchange' (KLogin config' rc' (KRequest fc (KCaller id))) ->
       login_failure_outcome config' rc' fc id e (delete n (pending s)) s s').
Proof.
  intros Hp Hf.
  set (s0 := emit QueueClear
               (set_retryQueue []
                  (set_isRefreshing false
                     (clearToken
                        (hideLoading exchange (set_pending (delete n (pending s)) s)))))).
  assert (pending s0 = delete n (pending s) /\ results s0 = results s /\
          trace s0 =
            trace s
            ++ (if truthy (loading exchange) then [WxHideLoading] else [])
            ++ [StoreClearToken; WxRemoveStorageSync; SetIsRefreshing false; QueueClear])
    as (Hp0 & Hr0 & Htr0).
  { unfold s0, hideLoading. destruct (truthy (loading exchange)); simpl;
      rewrite <- ?app_assoc; by split_and!. }
  assert (cleared s0) as Hc0 by done.
  destruct (resume_failure_cleared k e s0 Hc0) as [Hc' Hcr].
  exists s0, (resume k (inl e) s0).
  split.
  { unfold step. rewrite Hp. by rewrite (exchange_failure_resume _ _ _ _ _ _ _ Hf). }
  split_and!; try done.
  - rewrite Hcr, Htr0, !count_events_app.
    destruct (truthy (loading exchange)); unfold count_events; simpl; lia.
  - intros id Hk.
    destruct (resume_to_caller k (inl e) s0 id Hk) as (-> & -> & -> & _).
    by rewrite Hp0, Hr0.
  - intros exchange' config' rc' fc id ->. simpl.
    pose proof (login_failed_outcome config' rc' fc id e (hideLoading exchange' s0)) as H.
    destruct (hideLoading_fields exchange' s0) as (_ & _ & _ & _ & Hp' & Hr').
    unfold login_failure_outcome in *. rewrite Hp', Hr', Hp0, Hr0 in H. exact H.
Qed.

Lemma refresh_failure_clears_witness :
  (exists s',
     step (SendDone 0 timeout_error) (after refresh_last_attempt (logged_in "T1"))
       = Some s' /\
     cleared s' /\
     results s' = (7%nat, inl (WxFail "request:fail timeout"))
                  :: results (after refresh_last_attempt (logged_in "T1")) /\
     pending s' = delete 0%nat (pending (after refresh_last_attempt (logged_in "T1")))) /\
  (exists s',
     step (SendDone 0 timeout_error) (after login_exchange_expired (init None))
       = Some s' /\
     cleared s' /\
     login_failure_outcome (mergeConfig profile_config) 0 (mergeConfig profile_config) 7
       (WxFail "request:fail timeout")
       (delete 0%nat (pending (after login_exchange_expired (init None))))
       (after login_exchange_expired (init None)) s').
Proof.
  split.
  - destruct (refresh_failure_clears (after refresh_last_attempt (logged_in "T1")) 0
                (wx_options (mergeConfig (refresh_config "T1")) "")
                (mergeConfig (refresh_config "T1")) 3
                (mergeConfig profile_config)
                (KRequest (mergeConfig profile_config) (KCaller 7))
                timeout_error (WxFail "request:fail timeout"))
      as (s0 & s' & Hs & _ & _ & _ & _ & _ & Hc & _ & Hk & _);
      [vm_compute; reflexivity | reflexivity |].
    exists s'. destruct (Hk 7%nat eq_refl) as (Hr & Hp & _). by split_and!.
  - destruct (refresh_failure_clears (after login_exchange_expired (init None)) 0
                (wx_options (mergeConfig (refresh_config "")) "")
                (mergeConfig (refresh_config "")) 3
                (mergeConfig (login_config "c0"))
                (KRequest (mergeConfig (login_config "c0"))
                   (KLogin (mergeConfig profile_config) 0
                      (KRequest (mergeConfig profile_config) (KCaller 7))))
                timeout_error (WxFail "request:fail timeout"))
      as (s0 & s' & Hs & _ & _ & _ & _ & _ & Hc & _ & _ & Hl);
      [vm_compute; reflexivity | reflexivity |].
    exists s'. split_and!; [exact Hs | exact Hc |].
    exact (Hl _ _ _ _ _ eq_refl).
Defined.

(** ** One refresh for many expired requests *)

(** A reply 401 while a refresh runs parks the request, whichever call in
    flight it answers. *)
Lemma expired_is_parked_at s n opts config rc k x :
  isRefreshing s = true ->
  pending s !! n = Some (PSend opts config rc k) ->
  code x = 401 ->
  step (SendDone n (inr x)) s =
    Some (emit (QueuePush config)
            (set_retryQueue (retryQueue s ++ [(config, k)])
               (set_pending (delete n (pending s)) s))).
Proof.
  intros Hrf Hp Hx. unfold step. rewrite Hp.
  unfold handleRequest_resume. rewrite Hx. simpl.
  unfold handleTokenExpired. simpl. by rewrite Hrf.
Qed.

(** A Refresh Flow is started by a reply 401 that comes while none is in
    progress, and by nothing else. *)
Lemma step_refresh_calls i s s' :
  step i s = Some s' ->
  count_events is_refresh_call (trace s')
  = (count_events is_refresh_call (trace s) + (if starts_refresh i s then 1 else 0))%nat.
Proof.
  assert (forall e, is_send e = false -> is_refresh_call e = false ->
                    is_refresh_call e = false) as Hq by done.
  assert (forall config a, is_refresh_call (WxRequest (wx_options config a)) = false)
    as Hsend by done.
  assert (forall s1 s2, grows (fun e => is_refresh_call e = false) s1 s2 ->
            count_events is_refresh_call (trace s2)
            = (count_events is_refresh_call (trace s1) + 0)%nat) as Hcount.
  { intros s1 s2 G. rewrite Nat.add_0_r.
    by apply (grows_count is_refresh_call _ s1 s2 (fun e H => H)). }
  destruct i as [id config | n o | n o]; unfold step, starts_refresh.
  - intros [= <-]. apply Hcount. by apply request_grows.
  - destruct (pending s !! n) as [[config rc k | opts config rc k]|] eqn:Hp; try done.
    intros [= <-].
    apply (Hcount (set_pending (delete n (pending s)) s)).
    by apply login_resume_grows.
  - destruct (pending s !! n) as [[config rc k | opts config rc k]|] eqn:Hp; try done.
    destruct o as [e|x].
    + intros [= <-]. apply (Hcount (set_pending (delete n (pending s)) s)).
      apply (handleRequest_resume_quiet _ Hq Hsend config rc k (inl e)). by left.
    + destruct (Z.eqb_spec (code x) 401) as [Hx|Hx]; cbn [andb negb].
      * destruct (isRefreshing s) eqn:Hrf; cbn [andb negb].
        -- intros [= <-]. apply (Hcount (set_pending (delete n (pending s)) s)).
           apply (handleRequest_resume_quiet _ Hq Hsend config rc k (inr x)).
           by right.
        -- intros Hs.
           destruct (expired_starts_refresh_at s n opts config rc k x Hrf Hp Hx)
             as (s1 & Hstep & _ & _ & _ & _ & _ & _ & Hc & _).
           unfold step in Hstep. rewrite Hp in Hstep.
           assert (s' = s1) as -> by congruence. rewrite Hc. lia.
      * intros [= <-]. apply (Hcount (set_pending (delete n (pending s)) s)).
        apply (handleRequest_resume_quiet _ Hq Hsend config rc k (inr x)).
        left. simpl. by apply Z.eqb_neq.
Qed.

(** The window: replies 401 park their requests behind the exchange
    request, failed attempts of the exchange request are retried, and no
    refresh is started. *)
Lemma window_run exchange kx ws : forall s opts rc others rc' rest entries,
  truthy (auth exchange) = false ->
  isRefreshing s = true ->
  pending s = PSend opts exchange rc kx :: others ->
  window exchange ws rc others = Some (rc', rest, entries) ->
  exists s' opts',
    run (map window_input ws) s = Some s' /\
    pending s' = PSend opts' exchange rc' kx :: rest /\
    retryQueue s' = retryQueue s ++ entries /\
    isRefreshing s' = true /\
    token s' = token s /\ storage s' = storage s /\
    results s' = results s /\
    count_events is_refresh_call (trace s')
      = count_events is_refresh_call (trace s).
Proof.
  induction ws as [|[m x | o] ws IH];
    intros s opts rc others rc' rest entries Ha Hrf Hp Hw; simpl in Hw.
  - injection Hw as <- <- <-. exists s, opts. rewrite app_nil_r. by split_and!.
  - destruct (others !! m) as [[|opts1 config rc1 k]|] eqn:Hm; try done.
    destruct (Z.eqb_spec (code x) 401) as [Hx|]; [|done].
    destruct (window exchange ws rc (delete m others))
      as [[[rc2 rest2] entries2]|] eqn:Hw'; [|done].
    injection Hw as -> -> <-.
    assert (pending s !! S m = Some (PSend opts1 config rc1 k)) as Hm'
      by by rewrite Hp.
    pose proof (expired_is_parked_at s (S m) opts1 config rc1 k x Hrf Hm' Hx) as Hstep.
    destruct (IH (emit (QueuePush config)
                    (set_retryQueue (retryQueue s ++ [(config, k)])
                       (set_pending (delete (S m) (pending s)) s)))
                opts rc (delete m others) rc' rest entries2 Ha)
      as (s' & opts' & Hrun & Hp' & Hq' & Hrf' & Ht' & Hs' & Hr' & Hc');
      [done | simpl; by rewrite Hp | done |].
    exists s', opts'. simpl map. rewrite (run_cons _ _ _ _ Hstep).
    simpl in *. rewrite <- app_assoc in Hq'.
    split_and!; try done.
    rewrite Hc', count_events_app. unfold count_events. simpl. lia.
  - unfold retried in Hw.
    destruct (is_failure o) eqn:Ho; [|done].
    destruct (Z.ltb_spec rc (retry_bound exchange)) as [Hlt|]; [|done].
    simpl in Hw.
    apply is_failure_attempt_error in Ho as [e He].
    assert (step (SendDone 0 o) s =
              Some (add_pending
                      (PSend (wx_options exchange "") exchange (rc + 1) kx)
                      (emit (WxRequest (wx_options exchange ""))
                         (set_pending others s)))) as Hstep.
    { unfold step. rewrite Hp. simpl.
      rewrite (handleRequest_resume_fails _ _ _ _ _ _ He).
      rewrite handleRequest_catch_retry by done.
      rewrite handleRequest_ready by by left.
      unfold attempt_events, authorization. by rewrite Ha. }
    destruct (IH (add_pending
                    (PSend (wx_options exchange "") exchange (rc + 1) kx)
                    (emit (WxRequest (wx_options exchange ""))
                       (set_pending others s)))
                (wx_options exchange "") (rc + 1) others rc' rest entries Ha)
      as (s' & opts' & Hrun & Hp' & Hq' & Hrf' & Ht' & Hs' & Hr' & Hc');
      [done | done | done |].
    exists s', opts'. simpl map. rewrite (run_cons _ _ _ _ Hstep).
    simpl in *. split_and!; try done.
    rewrite Hc', count_events_app. unfold count_events. simpl. lia.
Qed.

(** The refresh succeeds with a token that is not empty: every parked
    request and the request that started the refresh are sent again, with
    the new token. *)
Lemma refresh_success_resends_at s n opts exchange rc config k res T :
  pending s !! n = Some (PSend opts exchange rc (KRequest exchange (KRefresh config k))) ->
  code res = 200 ->
  data_token res = Some T ->
  T ≠ "" ->
  exists s',
    step (SendDone n (inr res)) s = Some s' /\
    pending s' =
      resend T (config, k) :: rev (map (resend T) (retryQueue s))
      ++ delete n (pending s) /\
    token s' = T /\ storage s' = Some T /\
    isRefreshing s' = false /\ retryQueue s' = [] /\
    results s' = results s /\
    count_events is_refresh_call (trace s') = count_events is_refresh_call (trace s).
Proof.
  intros Hp Hc Hd HT. unfold step. rewrite Hp. eexists. split; [reflexivity|].
  unfold handleRequest_resume. rewrite Hc. simpl. rewrite Hd.
  set (rest := delete n (pending s)).
  set (s0 := hideLoading exchange (set_pending rest s)).
  assert (pending s0 = rest /\ retryQueue s0 = retryQueue s /\ results s0 = results s
          /\ count_events is_refresh_call (trace s0)
             = count_events is_refresh_call (trace s)) as (Hp0 & Hq0 & Hr0 & Hc0).
  { unfold s0.
    destruct (hideLoading_fields exchange (set_pending rest s))
      as (_ & _ & _ & -> & -> & ->).
    rewrite trace_hideLoading, count_events_app. simpl.
    split_and!; try done. destruct (truthy _); unfold count_events; simpl; lia. }
  clearbody s0.
  set (s1 := set_isRefreshing false (setToken T s0)).
  assert (token s1 = T /\ storage s1 = Some T /\ isRefreshing s1 = false
          /\ retryQueue s1 = retryQueue s0 /\ pending s1 = pending s0
          /\ results s1 = results s0
          /\ count_events is_refresh_call (trace s1)
             = count_events is_refresh_call (trace s0))
    as (Ht1 & Hs1 & Hrf1 & Hq1 & Hp1 & Hr1 & Hc1).
  { unfold s1, set_isRefreshing, setToken. simpl. split_and!; try done.
    rewrite !count_events_app. unfold count_events. simpl. lia. }
  clearbody s1.
  unfold run_queue.
  destruct (run_queue_resends (retryQueue s1) s1)
    as (Hp2 & Ht2 & Hs2 & Hrf2 & Hq2 & Hr2 & Hc2); [by rewrite Ht1|].
  set (s2 := fold_left _ (retryQueue s1) s1) in *. clearbody s2.
  set (s3 := emit QueueClear (set_retryQueue [] s2)).
  destruct (request_resends config k s3) as (Hp3 & Ht3 & Hs3 & Hrf3 & Hq3 & Hr3 & Hc3).
  { unfold s3. simpl. by rewrite Ht2, Ht1. }
  rewrite Hp3, Ht3, Hs3, Hrf3, Hq3, Hr3, Hc3. unfold s3. simpl.
  rewrite count_events_app.
  rewrite Hp2, Ht2, Hs2, Hrf2, Hr2, Hc2, Ht1, Hs1, Hrf1, Hq1, Hp1, Hr1, Hc1,
    Hp0, Hq0, Hr0, Hc0.
  by split_and!.
Qed.

(** The refresh fails: the queue is reset and [request] is called for no
    config. *)
Lemma refresh_failure_drops s n opts exchange rc config k o e :
  pending s !! n =
    Some (PSend opts exchange rc (KRequest exchange (KRefresh config k))) ->
  exchange_failure exchange rc o = Some e ->
  exists s',
    step (SendDone n o) s = Some s' /\
    cleared s' /\
    count_events is_request_call (trace s') = count_events is_request_call (trace s).
Proof.
  intros Hp Hf. unfold step. rewrite Hp.
  rewrite (exchange_failure_resume _ _ _ _ _ _ _ Hf).
  eexists. split; [reflexivity|].
  set (s0 := emit QueueClear _).
  assert (cleared s0) as Hc0 by done.
  destruct (resume_failure_cleared k e s0 Hc0) as [Hc' ->]. split; [done|].
  unfold s0, hideLoading. destruct (truthy (loading exchange)); simpl;
    rewrite !count_events_app; unfold count_events; simpl; lia.
Qed.

(** C1, as stated, fails.  Callers 7 and 8 are both in flight and both
    answered 401 while no refresh is in progress, the second because the
    refresh started by the first has already succeeded: two Refresh Flows
    are started.  When the reply to 8 comes while the refresh runs and
    that refresh fails, the request of 8 is dropped with the queue: it was
    sent once, is not in flight, and 8 gets no answer.  And when the
    refresh succeeds with the empty string as token, neither request is
    sent again: each starts a Login Flow instead. *)
Lemma single_flight_counterexample :
  (exists sa sb s',
     run [Call 7 profile_config; Call 8 (songs_config Absent)] (logged_in "T1")
       = Some sa /\
     length (pending sa) = 2%nat /\ isRefreshing sa = false /\
     run [SendDone 1 expired; SendDone 0 (refreshed "T2")] sa = Some sb /\
     isRefreshing sb = false /\
     run [SendDone 1 expired] sb = Some s' /\
     count_events is_refresh_call (trace s') = 2%nat) /\
  (exists s',
     run two_expired_refresh_fails (logged_in "T1") = Some s' /\
     results s' = [(7%nat, inl (WxFail "request:fail timeout"))] /\
     pending s' = [] /\ retryQueue s' = [] /\
     count_events (is_send_to (BASE_URL +:+ "/songs")) (trace s') = 1%nat) /\
  (let s' := after two_expired_empty_token (logged_in "T1") in
   run two_expired_empty_token (logged_in "T1") = Some s' /\
   isRefreshing s' = false /\
   count_events is_refresh_call (trace s') = 1%nat /\
   count_events (is_send_to (BASE_URL +:+ "/songs")) (trace s') = 1%nat /\
   count_events (is_send_to (BASE_URL +:+ "/user/info")) (trace s') = 1%nat /\
   count_events is_wx_login (trace s') = 2%nat).
Proof.
  split_and!.
  - do 3 eexists. split; [vm_compute; reflexivity|].
    split; [reflexivity|]. split; [reflexivity|].
    split; [vm_compute; reflexivity|]. split; [reflexivity|].
    split; [vm_compute; reflexivity|]. by vm_compute.
  - eexists. split; [vm_compute; reflexivity|]. split_and!; by vm_compute.
  - by vm_compute.
Qed.

(** C1, amended.  In every state of a run at most one Refresh Flow is in
    progress, [isRefreshing] is set exactly while one is, and the queue is
    empty otherwise.  A Refresh Flow is started by a reply 401 that comes
    while [isRefreshing] is [false], and by no other input: that reply sets
    [isRefreshing] and calls [refreshToken], whose exchange request is then
    in flight, while a reply 401 that comes while [isRefreshing] is [true]
    appends its closure to the queue and sends nothing, whichever call in
    flight it answers.  So when, with no refresh in progress, requests in
    flight are answered 401 in whatever order while the exchange request
    is in flight, failed attempts of the exchange request coming in
    between, exactly one Refresh Flow is started; and when the exchange
    request then succeeds with a token [T] that is not empty, all these
    requests are sent again with [T], the parked ones first, in the order
    of their replies, then the first.  [isRefreshing] is [false] from then
    on, so that a later reply 401 starts a further Refresh Flow.  When the
    exchange request fails instead, the queue is reset and [request] is
    called for none of its entries. *)
Theorem single_flight_refresh :
  (forall s,
     reachable s ->
     (refreshes_in_flight s <= 1)%nat /\
     refreshes_in_flight s = (if isRefreshing s then 1 else 0)%nat /\
     (isRefreshing s = false -> retryQueue s = [])) /\
  (forall i s s',
     step i s = Some s' ->
     count_events is_refresh_call (trace s')
     = (count_events is_refresh_call (trace s)
        + (if starts_refresh i s then 1 else 0))%nat) /\
  (forall s n opts config rc k x,
     isRefreshing s = false ->
     pending s !! n = Some (PSend opts config rc k) ->
     code x = 401 ->
     let exchange := mergeConfig (refresh_config (current_token s)) in
     exists s1,
       step (SendDone n (inr x)) s = Some s1 /\
       isRefreshing s1 = true /\
       retryQueue s1 = retryQueue s /\
       pending s1 =
         PSend (wx_options exchange "") exchange 0
               (KRequest exchange (KRefresh config k))
         :: delete n (pending s)) /\
  (forall s n opts config rc k x,
     isRefreshing s = true ->
     pending s !! n = Some (PSend opts config rc k) ->
     code x = 401 ->
     exists s1,
       step (SendDone n (inr x)) s = Some s1 /\
       isRefreshing s1 = true /\
       retryQueue s1 = retryQueue s ++ [(config, k)] /\
       pending s1 = delete n (pending s) /\
       count_events is_send (trace s1) = count_events is_send (trace s)) /\
  (forall s n opts config rc k x ws rc' rest entries res T,
     isRefreshing s = false ->
     pending s !! n = Some (PSend opts config rc k) ->
     code x = 401 ->
     let exchange := mergeConfig (refresh_config (current_token s)) in
     window exchange ws 0 (delete n (pending s)) = Some (rc', rest, entries) ->
     code res = 200 ->
     data_token res = Some T ->
     T ≠ "" ->
     exists s1 s2 opts',
       run (SendDone n (inr x) :: map window_input ws) s = Some s1 /\
       isRefreshing s1 = true /\
       retryQueue s1 = retryQueue s ++ entries /\
       pending s1 =
         PSend opts' exchange rc' (KRequest exchange (KRefresh config k)) :: rest /\
       count_events is_refresh_call (trace s1)
         = S (count_events is_refresh_call (trace s)) /\
       step (SendDone 0 (inr res)) s1 = Some s2 /\
       count_events is_refresh_call (trace s2)
         = S (count_events is_refresh_call (trace s)) /\
       pending s2 =
         resend T (config, k) :: rev (map (resend T) (retryQueue s ++ entries))
         ++ rest /\
       token s2 = T /\ storage s2 = Some T /\
       isRefreshing s2 = false /\ retryQueue s2 = [] /\
       results s2 = results s) /\
  (forall s n opts exchange rc config k res T,
     pending s !! n =
       Some (PSend opts exchange rc (KRequest exchange (KRefresh config k))) ->
     code res = 200 ->
     data_token res = Some T ->
     T ≠ "" ->
     exists s',
       step (SendDone n (inr res)) s = Some s' /\
       pending s' =
         resend T (config, k) :: rev (map (resend T) (retryQueue s))
         ++ delete n (pending s) /\
       token s' = T /\ storage s' = Some T /\
       isRefreshing s' = false /\ retryQueue s' = []) /\
  (forall s n opts exchange rc config k o e,
     pending s !! n =
       Some (PSend opts exchange rc (KRequest exchange (KRefresh config k))) ->
     exchange_failure exchange rc o = Some e ->
     exists s',
       step (SendDone n o) s = Some s' /\
       isRefreshing s' = false /\ retryQueue s' = [] /\
       count_events is_request_call (trace s')
         = count_events is_request_call (trace s)).
Proof.
  split_and!.
  - intros s Hs. destruct (reachable_single_flight s Hs) as [H1 H2].
    split_and!; try done. rewrite H1. destruct (isRefreshing s); lia.
  - apply step_refresh_calls.
  - intros s n opts config rc k x Hrf Hp Hx exchange.
    destruct (expired_starts_refresh_at s n opts config rc k x Hrf Hp Hx)
      as (s1 & Hstep & Hp1 & Hrf1 & Hq1 & _).
    by exists s1.
  - intros s n opts config rc k x Hrf Hp Hx.
    eexists. split; [by apply (expired_is_parked_at s n opts config rc k x)|].
    simpl. split_and!; try done.
    rewrite count_events_app. unfold count_events. simpl. lia.
  - intros s n opts config rc k x ws rc' rest entries res T
      Hrf Hp Hx exchange Hw Hc Hd HT.
    destruct (expired_starts_refresh_at s n opts config rc k x Hrf Hp Hx)
      as (sa & Hstep & Hpa & Hrfa & Hqa & Hra & _ & _ & Hca & _).
    fold exchange in Hpa.
    destruct (window_run exchange (KRequest exchange (KRefresh config k)) ws sa
                (wx_options exchange "") 0 (delete n (pending s)) rc' rest entries)
      as (s1 & opts' & Hrun & Hp1 & Hq1 & Hrf1 & _ & _ & Hr1 & Hc1); try done.
    destruct (refresh_success_resends_at s1 0 opts' exchange rc' config k res T)
      as (s2 & Hstep2 & Hp2 & Ht2 & Hs2 & Hrf2 & Hq2 & Hr2 & Hc2); try done.
    { by rewrite Hp1. }
    exists s1, s2, opts'.
    rewrite (run_cons _ _ _ _ Hstep), Hrun.
    rewrite Hp1 in Hp2. simpl in Hp2. rewrite Hq1, Hqa in *.
    split_and!; try done.
    + by rewrite Hc1.
    + by rewrite Hc2, Hc1.
    + by rewrite Hr2, Hr1.
  - intros s n opts exchange rc config k res T Hp Hc Hd HT.
    destruct (refresh_success_resends_at s n opts exchange rc config k res T)
      as (s' & Hstep & Hp' & Ht' & Hs' & Hrf' & Hq' & _); try done.
    by exists s'.
  - intros s n opts exchange rc config k o e Hp Hf.
    destruct (refresh_failure_drops s n opts exchange rc config k o e Hp Hf)
      as (s' & Hstep & (_ & _ & Hrf & Hq) & Hc).
    by exists s'.
Qed.

Lemma single_flight_refresh_witness :
  (refreshes_in_flight two_in_flight <= 1)%nat /\
  (let exchange := mergeConfig (refresh_config (current_token two_in_flight)) in
   exists s1 s2 opts',
     run (SendDone 1 (inr expired_reply) :: map window_input [Expired 0 expired_reply])
         two_in_flight = Some s1 /\
     isRefreshing s1 = true /\
     retryQueue s1 =
       retryQueue two_in_flight
       ++ [(mergeConfig (songs_config Absent),
            KRequest (mergeConfig (songs_config Absent)) (KCaller 8))] /\
     pending s1 =
       PSend opts' exchange 0
             (KRequest exchange
                (KRefresh (mergeConfig profile_config)
                   (KRequest (mergeConfig profile_config) (KCaller 7))))
       :: [] /\
     count_events is_refresh_call (trace s1)
       = S (count_events is_refresh_call (trace two_in_flight)) /\
     step (SendDone 0 (inr (login_reply "T2"))) s1 = Some s2 /\
     count_events is_refresh_call (trace s2)
       = S (count_events is_refresh_call (trace two_in_flight)) /\
     pending s2 =
       resend "T2" (mergeConfig profile_config,
                    KRequest (mergeConfig profile_config) (KCaller 7))
       :: rev (map (resend "T2")
                 (retryQueue two_in_flight
                  ++ [(mergeConfig (songs_config Absent),
                       KRequest (mergeConfig (songs_config Absent)) (KCaller 8))]))
       ++ [] /\
     token s2 = "T2" /\ storage s2 = Some "T2" /\
     isRefreshing s2 = false /\ retryQueue s2 = [] /\
     results s2 = results two_in_flight) /\
  (let exchange := mergeConfig (refresh_config (current_token two_in_flight)) in
   exists s1 s2 opts',
     run (SendDone 1 (inr expired_reply) :: map window_input mixed_window)
         two_in_flight = Some s1 /\
     isRefreshing s1 = true /\
     retryQueue s1 =
       retryQueue two_in_flight
       ++ [(mergeConfig (songs_config Absent),
            KRequest (mergeConfig (songs_config Absent)) (KCaller 8))] /\
     pending s1 =
       PSend opts' exchange 2
             (KRequest exchange
                (KRefresh (mergeConfig profile_config)
                   (KRequest (mergeConfig profile_config) (KCaller 7))))
       :: [] /\
     count_events is_refresh_call (trace s1)
       = S (count_events is_refresh_call (trace two_in_flight)) /\
     step (SendDone 0 (inr (login_reply "T2"))) s1 = Some s2 /\
     count_events is_refresh_call (trace s2)
       = S (count_events is_refresh_call (trace two_in_flight)) /\
     pending s2 =
       resend "T2" (mergeConfig profile_config,
                    KRequest (mergeConfig profile_config) (KCaller 7))
       :: rev (map (resend "T2")
                 (retryQueue two_in_flight
                  ++ [(mergeConfig (songs_config Absent),
                       KRequest (mergeConfig (songs_config Absent)) (KCaller 8))]))
       ++ [] /\
     token s2 = "T2" /\ storage s2 = Some "T2" /\
     isRefreshing s2 = false /\ retryQueue s2 = [] /\
     results s2 = results two_in_flight).
Proof.
  destruct single_flight_refresh as (H1 & _ & _ & _ & H5 & _ & _).
  split_and!.
  - apply (H1 two_in_flight).
    apply (reachable_run [Call 7 profile_config; Call 8 (songs_config Absent)]
             (init (Some "T1"))); [apply reachable_init|].
    vm_compute. reflexivity.
  - apply (H5 two_in_flight 1%nat
              (wx_options (mergeConfig profile_config) "Bearer T1")
              (mergeConfig profile_config) 0
              (KRequest (mergeConfig profile_config) (KCaller 7))
              expired_reply [Expired 0 expired_reply] 0 []
              [(mergeConfig (songs_config Absent),
                KRequest (mergeConfig (songs_config Absent)) (KCaller 8))]
              (login_reply "T2") "T2").
    + vm_compute. reflexivity.
    + vm_compute. reflexivity.
    + reflexivity.
    + vm_compute. reflexivity.
    + reflexivity.
    + reflexivity.
    + discriminate.
  - apply (H5 two_in_flight 1%nat
              (wx_options (mergeConfig profile_config) "Bearer T1")
              (mergeConfig profile_config) 0
              (KRequest (mergeConfig profile_config) (KCaller 7))
              expired_reply mixed_window 2 []
              [(mergeConfig (songs_config Absent),
                KRequest (mergeConfig (songs_config Absent)) (KCaller 8))]
              (login_reply "T2") "T2").
    + vm_compute. reflexivity.
    + vm_compute. reflexivity.
    + reflexivity.
    + vm_compute. reflexivity.
    + reflexivity.
    + reflexivity.
    + discriminate.
Defined.
